(** * file-service: access policy, compression eligibility, result selection,
      background status bookkeeping, archive builder and expiry sweep.

    A shallow embedding of
    - [CompressionService] (compression.service.ts),
    - [FileService] (files.service.ts),
    - the record schema of files.model.ts and the settings of configs/env.ts.

    Conventions of the embedding.
    - A JS [string] is a Rocq [string]; [===] on strings is [String.eqb].
    - An optional argument or field ([x?: T]) is an [option T]; [undefined]
      is [None].
    - File sizes and buffer lengths are integers ([Z]); ratios and
      percentages, which the code computes by [/] on numbers, are exact
      rationals ([Q]).  Rounding of IEEE doubles is not modelled.
    - A path is the pair (directory, file name) that [path.join] glues
      together; two joined paths are the same string exactly when the pairs
      are equal (file names hold no separator).
    - The disk and the collection of records are explicit state, threaded
      through every operation.  What the outside world decides (the codec,
      a write or an unlink that rejects, a database delete that rejects,
      the fresh ids, the clock) is read from an [Oracle] record, and the
      theorems quantify over it.  Failures of [mkdir], [rmdir], [readdir]
      and of database reads and updates are not modelled.
    - A promise is its settlement: [Resolved v] or [Rejected e].  A detached
      task is a value that createFile hands back; the event loop runs it
      after the writes createFile has issued, so the model runs it after
      createFile.  Interleavings of two requests are not modelled. *)

From Stdlib Require Import ZArith QArith String Ascii List Bool Lia.
From stdpp Require Import gmap strings list fin_maps.

Close Scope Q_scope.
Open Scope Z_scope.
Open Scope string_scope.

(* ===================================================================== *)
(** ** JS string primitives *)
(* ===================================================================== *)

Module JsString.

(** [s.startsWith(p)] *)
Definition startsWith (s p : string) : bool := String.prefix p s.

(** [s.includes(p)]: [p] occurs somewhere in [s]. *)
Fixpoint includes (s p : string) : bool :=
  String.prefix p s ||
  match s with
  | EmptyString => false
  | String _ s' => includes s' p
  end.

(** A JS string in a condition: only the empty string is falsy. *)
Definition truthy (s : string) : bool :=
  match s with EmptyString => false | _ => true end.

(** [role === 'admin'] for a role that may be [undefined]. *)
Definition optEq (o : option string) (s : string) : bool :=
  match o with
  | Some r => String.eqb r s
  | None => false
  end.

End JsString.

(* ===================================================================== *)
(** ** Data model (files.model.ts, configs/env.ts) *)
(* ===================================================================== *)

(** A path as (directory, base name); [path.join dir base]. *)
Definition Path : Type := string * string.
Definition path_join (dir base : string) : Path := (dir, base).
Definition path_dirname (p : Path) : string := fst p.
Definition path_basename (p : Path) : string := snd p.

(** compressionInfo.compressionStatus.  The Mongoose enum lists
    processing, completed and failed; the service also writes not_needed
    (updates run without validators). *)
Inductive CompressionStatus := processing | completed | not_needed | failed.

Inductive CompressionType := png | webp | both | none.

Definition terminal (s : CompressionStatus) : bool :=
  match s with processing => false | _ => true end.

#[global] Instance CompressionStatus_eq_dec : EqDecision CompressionStatus.
Proof. solve_decision. Defined.
#[global] Instance CompressionType_eq_dec : EqDecision CompressionType.
Proof. solve_decision. Defined.

Record CompressionInfo := mkCompressionInfo {
  compressed : bool;
  ciOriginalSize : Z;
  ciCompressedSize : option Z;
  ciSavingsPercentage : option Q;
  ciCompressionType : option CompressionType;
  ciFolderId : option string;
  compressionStatus : CompressionStatus;
}.

(** The stored document.  Its [_id] is its key in the collection. *)
Record FileRecord := mkFileRecord {
  originalName : string;
  filename : string;
  mimetype : string;
  size : Z;
  path : Path;
  uploadedBy : string;
  isPublic : bool;
  expiresAt : option Z;
  compressionInfo : CompressionInfo;
}.

(** The settings of configs/env.ts that the two services read. *)
Record Env := mkEnv {
  ENABLE_FILE_COMPRESSION : bool;
  COMPRESSION_QUALITY : Z;
  COMPRESSION_THRESHOLD_SIZE : Z;
  COMPRESS_IMAGE_TYPES : bool;
  COMPRESS_PDF_TYPES : bool;
  COMPRESS_TEXT_TYPES : bool;
}.

(** The defaults of [EnvSchema]. *)
Definition defaultEnv : Env :=
  {| ENABLE_FILE_COMPRESSION := true;
     COMPRESSION_QUALITY := 85;
     COMPRESSION_THRESHOLD_SIZE := 300000;
     COMPRESS_IMAGE_TYPES := true;
     COMPRESS_PDF_TYPES := false;
     COMPRESS_TEXT_TYPES := true |}.

Inductive Error :=
| APIError (status : Z) (title message : string)
| ZodError
| JsError (message : string).

(** The settlement of a promise. *)
Inductive Settled (A : Type) :=
| Resolved (a : A)
| Rejected (e : Error).
Arguments Resolved {A} a.
Arguments Rejected {A} e.

(* ===================================================================== *)
(** ** Access control policy (FileService.canAccessFile, canDownloadFile;
       fileSchema.methods.getFileUrl, getDownloadUrl) *)
(* ===================================================================== *)

Module Access.

Definition canAccessFile (file : FileRecord) (userId : string)
    (userRole : option string) : bool :=
  if isPublic file then true
  else String.eqb (uploadedBy file) userId || JsString.optEq userRole "admin".

Definition canDownloadFile (file : FileRecord) (userId : string)
    (userRole : option string) : bool :=
  if isPublic file then true
  else String.eqb (uploadedBy file) userId || JsString.optEq userRole "admin".

(** [this.id] is passed as [id]. *)
Definition getFileUrl (id : string) (file : FileRecord) (userId : string)
    (userRole : option string) : option string :=
  if isPublic file then Some ("/api/files/" ++ id ++ "/serve")
  else if String.eqb (uploadedBy file) userId || JsString.optEq userRole "admin"
  then Some ("/api/files/" ++ id ++ "/serve")
  else None.

Definition getDownloadUrl (id : string) (file : FileRecord) (userId : string)
    (userRole : option string) : option string :=
  if isPublic file then Some ("/api/files/" ++ id ++ "/download")
  else if String.eqb (uploadedBy file) userId || JsString.optEq userRole "admin"
  then Some ("/api/files/" ++ id ++ "/download")
  else None.

End Access.

(* ===================================================================== *)
(** ** Compression eligibility (CompressionService.shouldCompressFile) *)
(* ===================================================================== *)

Record CompressionOptions := mkOptions {
  quality : option Z;
  thresholdSize : option Z;
  compressImages : option bool;
  compressPdfs : option bool;
  compressText : option bool;
  maxWidth : option Z;
  maxHeight : option Z;
}.

(** [{}], the default of the [options] argument. *)
Definition noOptions : CompressionOptions :=
  mkOptions None None None None None None None.

Module Eligibility.
Import JsString.

Definition isImageType (mimetype : string) : bool :=
  startsWith mimetype "image/".

Definition isPdfType (mimetype : string) : bool :=
  String.eqb mimetype "application/pdf".

Definition isTextType (mimetype : string) : bool :=
  startsWith mimetype "text/" ||
  includes mimetype "json" ||
  includes mimetype "xml" ||
  includes mimetype "csv" ||
  includes mimetype "javascript" ||
  includes mimetype "css" ||
  includes mimetype "html".

(** A destructuring default applies when the field is [undefined]. *)
Definition shouldCompressFile (env : Env) (mimetype : string) (size : Z)
    (options : CompressionOptions) : bool :=
  let thresholdSize :=
    default (COMPRESSION_THRESHOLD_SIZE env) (thresholdSize options) in
  let compressImages :=
    default (COMPRESS_IMAGE_TYPES env) (compressImages options) in
  let compressPdfs := default false (compressPdfs options) in
  let compressText :=
    default (COMPRESS_TEXT_TYPES env) (compressText options) in
  if compressImages && isImageType mimetype then true
  else if (size <? thresholdSize)%Z then false
  else if compressPdfs && isPdfType mimetype then false
  else if compressText && isTextType mimetype then true
  else false.

End Eligibility.

(* ===================================================================== *)
(** ** The disk and the outside world *)
(* ===================================================================== *)

(** The files and the folders that exist. *)
Record Disk := mkDisk {
  files : gset Path;
  dirs : gset string;
}.

Module Fs.

(** [fs.access(p).then(() => true).catch(() => false)] *)
Definition access (d : Disk) (p : Path) : bool := bool_decide (p ∈ files d).

Definition writeFile (d : Disk) (p : Path) : Disk :=
  mkDisk ({[ p ]} ∪ files d) (dirs d).

Definition unlink (d : Disk) (p : Path) : Disk :=
  mkDisk (files d ∖ {[ p ]}) (dirs d).

(** [fs.readdir(folder)]: the entries of one folder. *)
Definition readdir (d : Disk) (folder : string) : list Path :=
  filter (λ p, path_dirname p = folder) (elements (files d)).

Definition rmdir (d : Disk) (folder : string) : Disk :=
  mkDisk (files d) (dirs d ∖ {[ folder ]}).

(** [fs.mkdir(folder, { recursive: true })] *)
Definition mkdir (d : Disk) (folder : string) : Disk :=
  mkDisk (files d) ({[ folder ]} ∪ dirs d).

(** [fs.rename(from, to)]; rejects when [from] does not exist. *)
Definition rename (d : Disk) (from to : Path) : option Disk :=
  if access d from
  then Some (mkDisk ({[ to ]} ∪ (files d ∖ {[ from ]})) (dirs d))
  else None.

End Fs.

(** What the outside world decides.
    - [sharp p]: decoding [p] and encoding it to PNG and to WebP; the two
      buffer lengths, or [None] when sharp rejects.
    - [gzip p]: reading [p] and gzipping it; the buffer length, or [None].
    - [writeFails p], [unlinkFails p]: the call on [p] rejects.
    - [uuidv4]: the fresh folder id.
    - [newObjectId]: the [_id] Mongo gives the next saved document.
    - [dbDeleteFails id]: [findByIdAndDelete(id)] rejects.
    - [archiveTimestamp]: [new Date().toISOString()] with [:] and [.]
      replaced by [-].
    - [archiver p]: streaming into the archive at [p]; its final size, or
      [None] when the archiver emits an error. *)
Record Oracle := mkOracle {
  sharp : Path → option (Z * Z);
  gzip : Path → option Z;
  writeFails : Path → bool;
  unlinkFails : Path → bool;
  uuidv4 : string;
  newObjectId : string;
  dbDeleteFails : string → bool;
  archiveTimestamp : string;
  archiver : Path → option Z;
}.

(* ===================================================================== *)
(** ** CompressionService *)
(* ===================================================================== *)

Record CompressionResult := mkResult {
  originalSize : Z;
  compressedSize : Z;
  compressionRatio : Q;
  savingsPercentage : Q;
  compressionType : CompressionType;
  compressedPaths : option (Path * Path);
  folderId : string;
}.

Module Compression.
Import JsString Eligibility.

(** [x < y] on ratios. *)
Definition Qltb (x y : Q) : bool := negb (Qle_bool y x).

(** [path.basename(folderPath)]: what follows the last separator. *)
Fixpoint basenameFrom (acc s : string) : string :=
  match s with
  | EmptyString => acc
  | String c s' =>
      if Ascii.eqb c "/" then basenameFrom EmptyString s'
      else basenameFrom (acc ++ String c EmptyString) s'
  end.
Definition basename (s : string) : string := basenameFrom EmptyString s.

Definition generateFilename (userId fileId extension : string) : string :=
  userId ++ "_" ++ fileId ++ "." ++ extension.

(** The choice of the primary derivative (compressImage, "Choose the best
    compression result"): type, size, ratio and savings percentage. *)
Definition chooseBest (compressedPngSize webpSize originalSize : Z)
    : CompressionType * Z * Q * Q :=
  let pngRatio := (inject_Z compressedPngSize / inject_Z originalSize)%Q in
  let webpRatio := (inject_Z webpSize / inject_Z originalSize)%Q in
  let '(compressionType, compressedSize, compressionRatio) :=
    if Qltb webpRatio pngRatio && Qltb webpRatio (95 # 100) then
      (webp, webpSize, webpRatio)
    else if Qltb pngRatio (95 # 100) then
      (png, compressedPngSize, pngRatio)
    else
      let compressedSize := Z.min compressedPngSize webpSize in
      (if Qltb webpRatio pngRatio then webp else png,
       compressedSize,
       (inject_Z compressedSize / inject_Z originalSize)%Q) in
  let savingsPercentage :=
    ((inject_Z (originalSize - compressedSize) / inject_Z originalSize)
     * inject_Z 100)%Q in
  (compressionType, compressedSize, compressionRatio, savingsPercentage).

Section Service.
Variable env : Env.
Variable uploadDir : string.
Variable w : Oracle.

(** [fs.mkdir(path.join(uploadDir, folderId))]; the folder path is the
    joined string. *)
Definition createFileFolder (folderId : string) (d : Disk) : string * Disk :=
  let folderPath := uploadDir ++ "/" ++ folderId in
  (folderPath, Fs.mkdir d folderPath).

(** The condition under which compressImage unlinks the original:
    [originalFileExists && !isOriginalFileSameAsCompressed]. *)
Definition unlinkAttempted (filePath compressedPngPath webpPath : Path)
    (d : Disk) : bool :=
  Fs.access d filePath
  && negb (bool_decide (filePath = compressedPngPath)
           || bool_decide (filePath = webpPath)).

(** The inner [try] of compressImage ("Delete original file after
    successful compression").  A rejected [unlink] jumps to the
    [catch], which only logs. *)
Definition cleanupOriginal (filePath compressedPngPath webpPath : Path)
    (folderPath : string) (d : Disk) : Disk :=
  let originalFileExists := Fs.access d filePath in
  let isOriginalFileSameAsCompressed :=
    bool_decide (filePath = compressedPngPath)
    || bool_decide (filePath = webpPath) in
  let unlinked : option Disk :=
    if originalFileExists && negb isOriginalFileSameAsCompressed then
      if unlinkFails w filePath then None else Some (Fs.unlink d filePath)
    else Some d in
  match unlinked with
  | None => d
  | Some d1 =>
      let folderContents := Fs.readdir d1 folderPath in
      if (length folderContents =? 0)%nat then Fs.rmdir d1 folderPath else d1
  end.

(** compressImage: both derivatives are encoded, then written (the two
    writes run side by side, so one may land although the other
    rejects), then looked up ([pngExists] and [webpExists] are computed
    and not consulted), then the original is cleaned up.  Any error up to
    the lookups is rethrown as "Image compression failed". *)
Definition compressImage (filePath : Path) (folderPath userId fileId : string)
    (originalSize : Z) (options : CompressionOptions) (d : Disk)
    : Disk * (Error + CompressionResult) :=
  let compressedPngName := generateFilename userId fileId "png" in
  let webpName := generateFilename userId fileId "webp" in
  let compressedPngPath := path_join folderPath compressedPngName in
  let webpPath := path_join folderPath webpName in
  match sharp w filePath with
  | None => (d, inl (JsError "Image compression failed"))
  | Some (compressedPngSize, webpSize) =>
      let d1 := if writeFails w compressedPngPath then d
                else Fs.writeFile d compressedPngPath in
      let d2 := if writeFails w webpPath then d1
                else Fs.writeFile d1 webpPath in
      if writeFails w compressedPngPath || writeFails w webpPath then
        (d2, inl (JsError "Image compression failed"))
      else
        let pngExists := Fs.access d2 compressedPngPath in
        let webpExists := Fs.access d2 webpPath in
        let d3 := cleanupOriginal filePath compressedPngPath webpPath
                    folderPath d2 in
        let '(compressionType, compressedSize, compressionRatio,
              savingsPercentage) :=
          chooseBest compressedPngSize webpSize originalSize in
        (d3, inr {| originalSize := originalSize;
                    compressedSize := compressedSize;
                    compressionRatio := compressionRatio;
                    savingsPercentage := savingsPercentage;
                    compressionType := compressionType;
                    compressedPaths := Some (compressedPngPath, webpPath);
                    folderId := basename folderPath |})
  end.

(** compressTextFile (legacy).  [path.parse(f).name + path.parse(f).ext]
    is [f] again, so the archive name is the base name plus [.gz]. *)
Definition compressTextFile (filePath : Path) (originalSize : Z) (d : Disk)
    : Disk * (Error + CompressionResult) :=
  let filename := path_basename filePath in
  let gzipPath := path_join uploadDir (filename ++ ".gz") in
  match gzip w filePath with
  | None => (d, inl (JsError "Text compression failed"))
  | Some compressedSize =>
      if writeFails w gzipPath then
        (d, inl (JsError "Text compression failed"))
      else
        (Fs.writeFile d gzipPath,
         inr {| originalSize := originalSize;
                compressedSize := compressedSize;
                compressionRatio :=
                  (inject_Z compressedSize / inject_Z originalSize)%Q;
                savingsPercentage :=
                  ((inject_Z (originalSize - compressedSize)
                    / inject_Z originalSize) * inject_Z 100)%Q;
                compressionType := none;
                compressedPaths := None;
                folderId := EmptyString |})
  end.

(** compressFile: the whole body sits in [try { } catch { return null }],
    so the promise it returns settles as [Resolved]. *)
Definition compressFile (filePath : Path) (mimetype : string)
    (originalSize : Z) (userId fileId : string)
    (options : CompressionOptions) (existingFolderPath : option string)
    (d : Disk) : Disk * Settled (option CompressionResult) :=
  if negb (ENABLE_FILE_COMPRESSION env) then (d, Resolved None)
  else if negb (shouldCompressFile env mimetype originalSize options) then
    (d, Resolved None)
  else if isImageType mimetype then
    let '(folderPath, d1) :=
      match existingFolderPath with
      | Some p => if truthy p then (p, d) else createFileFolder (uuidv4 w) d
      | None => createFileFolder (uuidv4 w) d
      end in
    match compressImage filePath folderPath userId fileId originalSize
            options d1 with
    | (d2, inr result) => (d2, Resolved (Some result))
    | (d2, inl _) => (d2, Resolved None)
    end
  else if isTextType mimetype then
    match compressTextFile filePath originalSize d with
    | (d2, inr result) => (d2, Resolved (Some result))
    | (d2, inl _) => (d2, Resolved None)
    end
  else (d, Resolved None).

(** compressFileAsync: the detached task, run to its end.  [T] is the
    state the completion callback works on.
    - [.then]: the callback is called only [if (result)];
    - [.catch]: the callback is called with [null]. *)
Definition compressFileAsync {T : Type} (filePath : Path) (mimetype : string)
    (originalSize : Z) (userId fileId : string)
    (options : CompressionOptions)
    (onComplete : option (option CompressionResult → T → T))
    (existingFolderPath : option string)
    (d : Disk) (t : T) : Disk * T :=
  match compressFile filePath mimetype originalSize userId fileId options
          existingFolderPath d with
  | (d', Resolved (Some result)) =>
      (d', match onComplete with
           | Some k => k (Some result) t
           | None => t
           end)
  | (d', Resolved None) => (d', t)
  | (d', Rejected _) =>
      (d', match onComplete with
           | Some k => k None t
           | None => t
           end)
  end.

End Service.
End Compression.

(* ===================================================================== *)
(** ** FileService *)
(* ===================================================================== *)

(** The collection of records (by [_id]) and the disk. *)
Record State := mkState {
  db : gmap string FileRecord;
  disk : Disk;
}.

(** What [FileSchema] takes. *)
Record FileInput := mkFileInput {
  fiOriginalName : string;
  fiFilename : string;
  fiMimetype : string;
  fiSize : Z;
  fiPath : Path;
  fiUploadedBy : string;
  fiIsPublic : option bool;
  fiExpiresAt : option Z;
}.

Record FolderInfo := mkFolderInfo {
  fiFolderId : string;
  fiFolderPath : string;
  fiUserId : string;
  fiTempFileId : string;
}.

Record ArchiveResult := mkArchiveResult {
  archivePath : Path;
  archiveSize : Z;
  fileCount : nat;
}.

(** A detached unit of work: it is handed back to the event loop, which
    runs it after the code that started it has gone on. *)
Definition Task : Type := State → State.

Module Files.
Import JsString Eligibility.

Definition setCompressionInfo (ci : CompressionInfo) (f : FileRecord)
    : FileRecord :=
  mkFileRecord (originalName f) (filename f) (mimetype f) (size f) (path f)
    (uploadedBy f) (isPublic f) (expiresAt f) ci.

Definition setPathAndFilename (p : Path) (name : string) (f : FileRecord)
    : FileRecord :=
  mkFileRecord (originalName f) name (mimetype f) (size f) p
    (uploadedBy f) (isPublic f) (expiresAt f) (compressionInfo f).

Definition setDb (m : gmap string FileRecord) (st : State) : State :=
  mkState m (disk st).

Definition setDisk (d : Disk) (st : State) : State :=
  mkState (db st) d.

(** [FileModel.findById(id)] *)
Definition findById (st : State) (id : string) : option FileRecord :=
  db st !! id.

(** [compressionInfo.compressionStatus] of the record [id], if stored. *)
Definition statusOf (st : State) (id : string) : option CompressionStatus :=
  (λ f, compressionStatus (compressionInfo f)) <$> db st !! id.

(** [FileModel.findByIdAndUpdate(id, { compressionInfo: ci })]: the whole
    sub-document is replaced; nothing happens when the record is gone. *)
Definition updateCompressionInfo (id : string) (ci : CompressionInfo)
    (st : State) : State :=
  setDb (alter (setCompressionInfo ci) id (db st)) st.

(** [path.extname(name)]: from the last dot on, empty when there is no
    dot or the only dot leads the name. *)
Fixpoint lastDot (s : string) : option string :=
  match s with
  | EmptyString => None
  | String c s' =>
      match lastDot s' with
      | Some e => Some e
      | None => if Ascii.eqb c "." then Some s else None
      end
  end.

Definition extname (name : string) : string :=
  match name with
  | EmptyString => EmptyString
  | String _ s' => default EmptyString (lastDot s')
  end.

(** [FileSchema.parse]: the [min(1)] and [positive()] checks, and the
    default of [isPublic]. *)
Definition FileSchema_parse (fileData : FileInput) : option FileInput :=
  if truthy (fiOriginalName fileData) && truthy (fiFilename fileData)
     && truthy (fiMimetype fileData) && (0 <? fiSize fileData)%Z
     && truthy (fst (fiPath fileData) ++ snd (fiPath fileData))
     && truthy (fiUploadedBy fileData)
  then Some (mkFileInput (fiOriginalName fileData) (fiFilename fileData)
               (fiMimetype fileData) (fiSize fileData) (fiPath fileData)
               (fiUploadedBy fileData)
               (Some (default false (fiIsPublic fileData)))
               (fiExpiresAt fileData))
  else None.

Section Service.
Variable env : Env.
Variable uploadDir : string.
Variable w : Oracle.
(** [AUTHORIZATION_ERRORS.AUTHORIZATION_ERROR] of lib/errors. *)
Variable AUTHORIZATION_ERROR : Error.

(** The options createFile passes to the compression service. *)
Definition uploadOptions : CompressionOptions :=
  mkOptions (Some (COMPRESSION_QUALITY env)) None None None None
    (Some 1920) (Some 1080).

(** The completion callback of createFile. *)
Definition onComplete (_id : string) (size : Z)
    (folderInfo : option FolderInfo)
    (compressionResult : option CompressionResult) (st : State) : State :=
  match compressionResult with
  | Some r =>
      updateCompressionInfo _id
        {| compressed := true;
           ciOriginalSize := originalSize r;
           ciCompressedSize := Some (compressedSize r);
           ciSavingsPercentage := Some (savingsPercentage r);
           ciCompressionType := Some (compressionType r);
           ciFolderId := Some (folderId r);
           compressionStatus := completed |} st
  | None =>
      updateCompressionInfo _id
        {| compressed := false;
           ciOriginalSize := size;
           ciCompressedSize := None;
           ciSavingsPercentage := None;
           ciCompressionType := None;
           ciFolderId := fiFolderId <$> folderInfo;
           compressionStatus := not_needed |} st
  end.

(** The detached compression of one upload: [compressFileAsync] with
    the callback above, on the disk and the collection. *)
Definition backgroundCompression (filePath : Path) (mimetype : string)
    (size : Z) (uploadedBy _id : string) (folderInfo : option FolderInfo)
    : Task :=
  λ st,
    let '(d', st') :=
      Compression.compressFileAsync env uploadDir w filePath mimetype size
        uploadedBy _id uploadOptions
        (Some (onComplete _id size folderInfo))
        (fiFolderPath <$> folderInfo) (disk st) st in
    setDisk d' st'.

(** createFile.  The result is the state, what the caller gets (the
    re-read record, or the error thrown), and the detached task if one
    was started.  [new FileModel(...)] fills [compressionStatus] with
    the schema default, processing.  Metadata extraction writes the
    metadata field only and is left out. *)
Definition createFile (fileData : FileInput) (enableCompression : bool)
    (folderInfo : option FolderInfo) (st : State)
    : State * (Error + option FileRecord) * option Task :=
  match FileSchema_parse fileData with
  | None => (st, inl ZodError, None)
  | Some validatedData =>
      let _id := newObjectId w in
      let savedFile :=
        {| originalName := fiOriginalName validatedData;
           filename := fiFilename validatedData;
           mimetype := fiMimetype validatedData;
           size := fiSize validatedData;
           path := fiPath validatedData;
           uploadedBy := fiUploadedBy validatedData;
           isPublic := default false (fiIsPublic validatedData);
           expiresAt := fiExpiresAt validatedData;
           compressionInfo :=
             {| compressed := false;
                ciOriginalSize := fiSize validatedData;
                ciCompressedSize := None;
                ciSavingsPercentage := None;
                ciCompressionType := None;
                ciFolderId := None;
                compressionStatus := processing |} |} in
      let st1 := setDb (<[_id := savedFile]> (db st)) st in
      (* rename to the name that carries the record id *)
      let renamed : option (State * Path * string) :=
        match folderInfo with
        | Some fi =>
            let extension := extname (fiFilename validatedData) in
            let newFilename := fiUserId fi ++ "_" ++ _id ++ extension in
            let newPath := path_join (fiFolderPath fi) newFilename in
            match Fs.rename (disk st1) (fiPath validatedData) newPath with
            | None => None
            | Some d' =>
                Some (setDb (alter (setPathAndFilename newPath newFilename)
                               _id (db st1)) (setDisk d' st1),
                      newPath, newFilename)
            end
        | None =>
            Some (st1, fiPath validatedData, fiFilename validatedData)
        end in
      match renamed with
      | None => (st1, inl (JsError "rename failed"), None)
      | Some (st2, path', filename') =>
          if enableCompression && ENABLE_FILE_COMPRESSION env then
            let shouldCompress :=
              shouldCompressFile env (fiMimetype validatedData)
                (fiSize validatedData) uploadOptions in
            if shouldCompress then
              let task :=
                backgroundCompression path' (fiMimetype validatedData)
                  (fiSize validatedData) (fiUploadedBy validatedData)
                  _id folderInfo in
              let st3 :=
                updateCompressionInfo _id
                  {| compressed := false;
                     ciOriginalSize := fiSize validatedData;
                     ciCompressedSize := None;
                     ciSavingsPercentage := None;
                     ciCompressionType := None;
                     ciFolderId := None;
                     compressionStatus := processing |} st2 in
              (st3, inr (findById st3 _id), Some task)
            else
              let st3 :=
                updateCompressionInfo _id
                  {| compressed := false;
                     ciOriginalSize := fiSize validatedData;
                     ciCompressedSize := None;
                     ciSavingsPercentage := None;
                     ciCompressionType := None;
                     ciFolderId := fiFolderId <$> folderInfo;
                     compressionStatus := not_needed |} st2 in
              (st3, inr (findById st3 _id), None)
          else (st2, inr (findById st2 _id), None)
      end
  end.

(** An upload seen from the event loop: createFile answers the caller,
    then the detached task, if any, runs. *)
Definition uploadThenBackground (fileData : FileInput)
    (enableCompression : bool) (folderInfo : option FolderInfo)
    (st : State) : State * (Error + option FileRecord) :=
  match createFile fileData enableCompression folderInfo st with
  | (st', response, Some task) => (task st', response)
  | (st', response, None) => (st', response)
  end.

(** deleteFile *)
Definition deleteFile (fileId userId : string) (userRole : option string)
    (st : State) : State * (Error + unit) :=
  match findById st fileId with
  | None => (st, inl (APIError 404 "File Not Found" "File not found"))
  | Some file =>
      if negb (String.eqb (uploadedBy file) userId)
         && negb (optEq userRole "admin")
      then (st, inl AUTHORIZATION_ERROR)
      else
        (* a rejected unlink is logged and swallowed *)
        let st1 :=
          if Fs.access (disk st) (path file)
             && negb (unlinkFails w (path file))
          then setDisk (Fs.unlink (disk st) (path file)) st
          else st in
        if dbDeleteFails w fileId
        then (st1, inl (JsError "findByIdAndDelete failed"))
        else (setDb (delete fileId (db st1)) st1, inr tt)
  end.

(** The query [{ expiresAt: { $lt: now } }]. *)
Definition isExpiredAt (now : Z) (file : FileRecord) : bool :=
  match expiresAt file with
  | Some t => (t <? now)%Z
  | None => false
  end.

Definition findExpired (now : Z) (st : State)
    : list (string * FileRecord) :=
  filter (λ kf, isExpiredAt now (snd kf) = true) (map_to_list (db st)).

(** The [for] loop of cleanupExpiredFiles over the records found. *)
Fixpoint sweep (expiredFiles : list (string * FileRecord))
    (deletedCount : nat) (st : State) : State * nat :=
  match expiredFiles with
  | [] => (st, deletedCount)
  | (_id, _) :: rest =>
      match deleteFile _id "system" (Some "admin") st with
      | (st', inr _) => sweep rest (S deletedCount) st'
      | (st', inl _) => sweep rest deletedCount st'
      end
  end.

(** cleanupExpiredFiles; [now] is [new Date()]. *)
Definition cleanupExpiredFiles (now : Z) (userRole : option string)
    (st : State) : State * (Error + nat) :=
  if negb (optEq userRole "admin") then
    (st, inl (APIError 401 "Access Denied"
                "Only administrators can cleanup expired files"))
  else
    let expiredFiles := findExpired now st in
    let '(st', deletedCount) := sweep expiredFiles 0%nat st in
    (st', inr deletedCount).

(** fixStuckPdfFiles *)
Definition isStuckPdf (file : FileRecord) : bool :=
  String.eqb (mimetype file) "application/pdf"
  && bool_decide (compressionStatus (compressionInfo file) = processing).

Definition fixStuckPdfFiles (st : State) : State * nat :=
  let stuckPdfs :=
    filter (λ kf, isStuckPdf (snd kf) = true) (map_to_list (db st)) in
  foldl (λ acc kf,
           (updateCompressionInfo (fst kf)
              {| compressed := false;
                 ciOriginalSize := size (snd kf);
                 ciCompressedSize := None;
                 ciSavingsPercentage := None;
                 ciCompressionType := None;
                 ciFolderId := None;
                 compressionStatus := not_needed |} (fst acc),
            S (snd acc)))
        (st, 0%nat) stuckPdfs.

(** validateFileAccess *)
Definition validateFileAccess (st : State) (fileId userId : string)
    (userRole : option string) : bool :=
  match findById st fileId with
  | None => false
  | Some file => Access.canAccessFile file userId userRole
  end.

(** The first loop of compressFiles ("Validate access to all files"). *)
Fixpoint validateAll (st : State) (fileIds : list string) (userId : string)
    (userRole : option string) : Error + unit :=
  match fileIds with
  | [] => inr tt
  | fileId :: rest =>
      if validateFileAccess st fileId userId userRole
      then validateAll st rest userId userRole
      else inl (APIError 401 "Access Denied"
                  ("No access to file " ++ fileId))
  end.

(** compressFiles.  [createWriteStream] creates the archive file; the
    promise that is returned rejects with the archiver's own error. *)
Definition compressFiles (fileIds : list string) (userId : string)
    (userRole : option string) (archiveName : option string)
    (st : State) : State * (Error + ArchiveResult) :=
  match validateAll st fileIds userId userRole with
  | inl e => (st, inl e)
  | inr _ =>
      let files := map (findById st) fileIds in
      let generated := "archive_" ++ archiveTimestamp w ++ ".zip" in
      let archiveFilename :=
        match archiveName with
        | Some n => if truthy n then n else generated
        | None => generated
        end in
      let archivePath := path_join uploadDir archiveFilename in
      let st1 := setDisk (Fs.writeFile (disk st) archivePath) st in
      match archiver w archivePath with
      | Some archiveSize =>
          (st1, inr {| archivePath := archivePath;
                       archiveSize := archiveSize;
                       fileCount := length files |})
      | None => (st1, inl (JsError "archive error"))
      end
  end.

End Service.
End Files.

(* ===================================================================== *)
(** ** Sample worlds for the worked instances *)
(* ===================================================================== *)

Module Sample.

(** A world in which nothing fails: the codec yields a PNG of 900000
    bytes and a WebP of 400000 bytes. *)
Definition calm : Oracle :=
  {| sharp := λ _, Some (900000, 400000);
     gzip := λ _, Some 1000;
     writeFails := λ _, false;
     unlinkFails := λ _, false;
     uuidv4 := "f0";
     newObjectId := "65a1";
     dbDeleteFails := λ _, false;
     archiveTimestamp := "2025-01-01T00-00-00-000Z";
     archiver := λ _, Some 2048 |}.

(** The same world with a codec that rejects (an undecodable image). *)
Definition brokenCodec : Oracle :=
  {| sharp := λ _, None;
     gzip := λ _, Some 1000;
     writeFails := λ _, false;
     unlinkFails := λ _, false;
     uuidv4 := "f0";
     newObjectId := "65a1";
     dbDeleteFails := λ _, false;
     archiveTimestamp := "2025-01-01T00-00-00-000Z";
     archiver := λ _, Some 2048 |}.

(** The same world with a disk that refuses every write. *)
Definition fullDisk : Oracle :=
  {| sharp := λ _, Some (900000, 400000);
     gzip := λ _, Some 1000;
     writeFails := λ _, true;
     unlinkFails := λ _, false;
     uuidv4 := "f0";
     newObjectId := "65a1";
     dbDeleteFails := λ _, false;
     archiveTimestamp := "2025-01-01T00-00-00-000Z";
     archiver := λ _, Some 2048 |}.

(** The same world with a database that fails to delete record "b". *)
Definition flakyDb : Oracle :=
  {| sharp := λ _, Some (900000, 400000);
     gzip := λ _, Some 1000;
     writeFails := λ _, false;
     unlinkFails := λ _, false;
     uuidv4 := "f0";
     newObjectId := "65a1";
     dbDeleteFails := λ id, String.eqb id "b";
     archiveTimestamp := "2025-01-01T00-00-00-000Z";
     archiver := λ _, Some 2048 |}.

Definition uploadDir : string := "/srv/uploads".
Definition folder : string := "/srv/uploads/f1".

(** The upload as the organizer left it. *)
Definition photoPath : Path := (folder, "u1_tmp.jpg").

Definition photo : FileInput :=
  {| fiOriginalName := "photo.jpg";
     fiFilename := "u1_tmp.jpg";
     fiMimetype := "image/jpeg";
     fiSize := 2000000;
     fiPath := photoPath;
     fiUploadedBy := "u1";
     fiIsPublic := Some false;
     fiExpiresAt := None |}.

Definition photoFolder : FolderInfo :=
  {| fiFolderId := "f1"; fiFolderPath := folder;
     fiUserId := "u1"; fiTempFileId := "tmp" |}.

Definition photoDisk : Disk :=
  {| files := {[ photoPath ]}; dirs := {[ folder ]} |}.

Definition afterUploadParse : State :=
  {| db := ∅; disk := photoDisk |}.

(** A PNG upload: once renamed, the original carries the very name of
    the PNG derivative. *)
Definition pngUploadPath : Path := (folder, "u1_tmp.png").

Definition pngUpload : FileInput :=
  {| fiOriginalName := "logo.png";
     fiFilename := "u1_tmp.png";
     fiMimetype := "image/png";
     fiSize := 2000000;
     fiPath := pngUploadPath;
     fiUploadedBy := "u1";
     fiIsPublic := Some false;
     fiExpiresAt := None |}.

Definition afterPngUploadParse : State :=
  {| db := ∅;
     disk := {| files := {[ pngUploadPath ]}; dirs := {[ folder ]} |} |}.

Definition noInfo (sz : Z) (s : CompressionStatus) : CompressionInfo :=
  mkCompressionInfo false sz None None None None s.

Definition record (owner : string) (public : bool) (expires : option Z)
    (name : string) : FileRecord :=
  {| originalName := name; filename := name; mimetype := "text/plain";
     size := 10; path := (uploadDir, name); uploadedBy := owner;
     isPublic := public; expiresAt := expires;
     compressionInfo := noInfo 10 not_needed |}.

(** Three records: "a" and "b" expired at time 5, "c" never expires;
    "b" is private and owned by u2. *)
Definition library : State :=
  {| db := {[ "a" := record "u1" true (Some 5) "a.txt";
              "b" := record "u2" false (Some 5) "b.txt";
              "c" := record "u1" false None "c.txt" ]};
     disk := {| files := {[ (uploadDir, "a.txt"); (uploadDir, "b.txt");
                             (uploadDir, "c.txt") ]};
                dirs := {[ uploadDir ]} |} |}.

Definition AUTHORIZATION_ERROR : Error :=
  APIError 403 "Authorization Error" "Not authorized".

End Sample.

(* ===================================================================== *)
(** ** Reading a record: URLs, single-record reads, the serve routes *)
(* ===================================================================== *)

(** What a read hands to the client ([FileWithUrls]).  The server path of
    the record is not among its fields. *)
Record FileWithUrls := mkFileWithUrls {
  fwId : string;
  fwOriginalName : string;
  fwFilename : string;
  fwMimetype : string;
  fwSize : Z;
  fwUploadedBy : string;
  fwIsPublic : bool;
  fwExpiresAt : option Z;
  fwFileUrl : option string;
  fwDownloadUrl : option string;
  fwPngUrl : option string;
  fwWebpUrl : option string;
  fwCanAccess : bool;
  fwCanDownload : bool;
  fwCompressionInfo : CompressionInfo;
  fwFileByIdUrl : string;
}.

Module Reads.
Import JsString.

Section Service.
(** [env.BASE_URL] *)
Variable BASE_URL : string.

(** FileService.addFileUrl; [id] is [file.id || file._id.toString()]. *)
Definition addFileUrl (id : string) (file : FileRecord) (userId : string)
    (userRole : option string) : FileWithUrls :=
  let canAccess := Access.canAccessFile file userId userRole in
  let canDownload := Access.canDownloadFile file userId userRole in
  let info := compressionInfo file in
  let fileUrl :=
    if canAccess then
      if compressed info
         && bool_decide (ciCompressionType info = Some webp) then
        Some (BASE_URL ++ "/api/v1/files/" ++ id ++ "/compressed/webp")
      else if compressed info
              && bool_decide (ciCompressionType info = Some png) then
        Some (BASE_URL ++ "/api/v1/files/" ++ id ++ "/compressed/png")
      else Some (BASE_URL ++ "/api/v1/files/" ++ id ++ "/serve")
    else None in
  let derivativeUrl (format : string) :=
    if canAccess && compressed info then
      Some (BASE_URL ++ "/api/v1/files/" ++ id ++ "/compressed/" ++ format)
    else None in
  {| fwId := id;
     fwOriginalName := originalName file;
     fwFilename := filename file;
     fwMimetype := mimetype file;
     fwSize := size file;
     fwUploadedBy := uploadedBy file;
     fwIsPublic := isPublic file;
     fwExpiresAt := expiresAt file;
     fwFileUrl := fileUrl;
     fwDownloadUrl :=
       if canDownload
       then Some (BASE_URL ++ "/api/v1/files/" ++ id ++ "/download")
       else None;
     fwPngUrl := derivativeUrl "png";
     fwWebpUrl := derivativeUrl "webp";
     fwCanAccess := canAccess;
     fwCanDownload := canDownload;
     fwCompressionInfo := info;
     fwFileByIdUrl := BASE_URL ++ "/api/v1/files/" ++ id |}.

(** FileService.getFileById *)
Definition getFileById (st : State) (fileId userId : string)
    (userRole : option string) : Error + FileWithUrls :=
  match Files.findById st fileId with
  | None => inl (APIError 404 "File Not Found" "File not found")
  | Some file =>
      if negb (Access.canAccessFile file userId userRole) then
        inl (APIError 401 "Access Denied"
               "You do not have permission to access this file")
      else inr (addFileUrl fileId file userId userRole)
  end.

(** FileService.validateFileDownload *)
Definition validateFileDownload (st : State) (fileId userId : string)
    (userRole : option string) : bool :=
  match Files.findById st fileId with
  | None => false
  | Some file => Access.canDownloadFile file userId userRole
  end.

End Service.
End Reads.

(** What a route answers: the file it sends with its headers, or the error
    it throws. *)
Inductive Response :=
| SendFile (filePath : Path) (contentType : string) (contentLength : Z)
| Failure (e : Error).

Module Routes.
Import JsString.

(** [(req.user as any)?.role || 'user'] *)
Definition routeRole (role : option string) : option string :=
  match role with
  | Some r => if truthy r then Some r else Some "user"
  | None => Some "user"
  end.

(** [name.replace(/\.[^/.]+$/, ext)]: the last dot and what follows it
    are replaced when at least one character follows and none of them is
    a separator; otherwise the name is returned as it is. *)
Fixpoint hasSlash (s : string) : bool :=
  match s with
  | EmptyString => false
  | String c s' => Ascii.eqb c "/" || hasSlash s'
  end.

Fixpoint replaceExtension (name ext : string) : string :=
  match name with
  | EmptyString => EmptyString
  | String c rest =>
      if Ascii.eqb c "." && negb (includes rest ".") then
        if truthy rest && negb (hasSlash rest) then ext else name
      else String c (replaceExtension rest ext)
  end.

Section Handlers.
Variable uploadDir : string.
Variable BASE_URL : string.
(** [fs.stat(p).size] *)
Variable statSize : Path → Z.

(** The path the serve and download routes look the bytes up at. *)
Definition storedPath (file : FileWithUrls) : Path :=
  match ciFolderId (fwCompressionInfo file) with
  | Some folderId =>
      if truthy folderId
      then path_join (uploadDir ++ "/" ++ folderId) (fwFilename file)
      else path_join uploadDir (fwFilename file)
  | None => path_join uploadDir (fwFilename file)
  end.

(** GET /:fileId/serve *)
Definition serve (st : State) (fileId userId : string)
    (role : option string) : Response :=
  let userRole := routeRole role in
  if negb (Files.validateFileAccess st fileId userId userRole) then
    Failure (APIError 401 "Access Denied"
               "You do not have permission to view this file")
  else
    match Reads.getFileById BASE_URL st fileId userId userRole with
    | inl e => Failure e
    | inr file =>
        let filePath := storedPath file in
        if negb (Fs.access (disk st) filePath) then
          Failure (APIError 404 "File Not Found" "File not found on disk")
        else SendFile filePath (fwMimetype file) (fwSize file)
    end.

(** GET /:fileId/download *)
Definition download (st : State) (fileId userId : string)
    (role : option string) : Response :=
  let userRole := routeRole role in
  if negb (Reads.validateFileDownload st fileId userId userRole) then
    Failure (APIError 401 "Access Denied"
               "You do not have permission to download this file")
  else
    match Reads.getFileById BASE_URL st fileId userId userRole with
    | inl e => Failure e
    | inr file =>
        let filePath := storedPath file in
        if negb (Fs.access (disk st) filePath) then
          Failure (APIError 404 "File Not Found" "File not found on disk")
        else SendFile filePath (fwMimetype file) (fwSize file)
    end.

(** GET /:fileId/compressed/:format *)
Definition serveCompressed (st : State) (fileId format userId : string)
    (role : option string) : Response :=
  let userRole := routeRole role in
  if negb (Files.validateFileAccess st fileId userId userRole) then
    Failure (APIError 401 "Access Denied"
               "You do not have permission to view this file")
  else
    match Reads.getFileById BASE_URL st fileId userId userRole with
    | inl e => Failure e
    | inr file =>
        let info := fwCompressionInfo file in
        let folderId := default EmptyString (ciFolderId info) in
        if negb (compressed info) || negb (truthy folderId) then
          Failure (APIError 404 "Compressed Version Not Available"
                     "This file does not have a compressed version available")
        else
          let folderPath := uploadDir ++ "/" ++ folderId in
          let target : option (Path * string) :=
            if String.eqb format "png" then
              Some (path_join folderPath
                      (replaceExtension (fwFilename file) ".png"),
                    "image/png")
            else if String.eqb format "webp" then
              Some (path_join folderPath
                      (replaceExtension (fwFilename file) ".webp"),
                    "image/webp")
            else None in
          match target with
          | None =>
              Failure (APIError 404 "Format Not Available"
                         ("Compressed " ++ format
                          ++ " version not available for this file"))
          | Some (compressedFilePath, contentType) =>
              if negb (Fs.access (disk st) compressedFilePath) then
                Failure (APIError 404 "Compressed File Not Found"
                           "Compressed file not found on disk")
              else SendFile compressedFilePath contentType
                     (statSize compressedFilePath)
          end
    end.

End Handlers.
End Routes.

(* ===================================================================== *)
(** ** Listings, entity archives and metadata updates *)
(* ===================================================================== *)

(** The fields of a document that the listing queries read and
    [FileRecord] leaves out.  They are looked up by [_id]. *)
Record DocMeta := mkDocMeta {
  uploadedFor : option string;
  entityType : string;
  tags : list string;
}.

Record FileQueryOptions := mkQuery {
  qUploadedBy : option string;
  qUploadedFor : option string;
  qEntityType : option string;
  qIsPublic : option bool;
  qTags : option (list string);
  qPage : option Z;
  qLimit : option Z;
  qSortBy : option string;
  qSortOrder : option string;
}.

Record Page := mkPage {
  docs : list FileWithUrls;
  total : Z;
  page : Z;
  limit : Z;
  totalPages : Z;
  hasNextPage : bool;
  hasPreviousPage : bool;
}.

Module Listing.
Import JsString.

(** A filter that is set only when the option is truthy. *)
Definition whenGiven (o : option string) (test : string → bool) : bool :=
  match o with
  | Some s => if truthy s then test s else true
  | None => true
  end.

(** [{ tags: { $in: wanted } }] *)
Definition tagsIn (wanted have : list string) : bool :=
  existsb (λ t, bool_decide (t ∈ wanted)) have.

(** [Math.ceil(a / b)] for [b] other than 0. *)
Definition ceilDiv (a b : Z) : Z := - ((- a) / b).

Section Service.
Variable BASE_URL : string.
Variable uploadDir : string.
Variable w : Oracle.
(** The fields of document [id] outside [FileRecord]. *)
Variable meta : string → DocMeta.
(** [.sort({ [sortBy]: sortOrder === 'desc' ? -1 : 1 })], done by the
    database. *)
Variable sortDocs : string → bool → list (string * FileRecord)
                    → list (string * FileRecord).
(** [new Date().toISOString().split('T')[0]] *)
Variable today : string.

(** The query getFiles builds. *)
Definition matchesQuery (options : FileQueryOptions) (userId : string)
    (userRole : option string) (doc : string * FileRecord) : bool :=
  let '(id, file) := doc in
  whenGiven (qUploadedBy options) (String.eqb (uploadedBy file))
  && whenGiven (qUploadedFor options)
       (λ s, bool_decide (uploadedFor (meta id) = Some s))
  && whenGiven (qEntityType options) (String.eqb (entityType (meta id)))
  && match qIsPublic options with
     | Some b => Bool.eqb (isPublic file) b
     | None => true
     end
  && match qTags options with
     | Some wanted =>
         if (0 <? length wanted)%nat then tagsIn wanted (tags (meta id))
         else true
     | None => true
     end
  && (if negb (optEq userRole "admin")
      then isPublic file || String.eqb (uploadedBy file) userId
      else true).

(** FileService.getFiles, for a page number and a page size of at least
    1 (the database rejects a negative skip and reads a limit of 0 as no
    limit).  Counts are far below 2^53, where [Math.ceil(total / limit)]
    is the exact ceiling. *)
Definition getFiles (options : FileQueryOptions) (userId : string)
    (userRole : option string) (st : State) : Page :=
  let page := default 1 (qPage options) in
  let limit := default 10 (qLimit options) in
  let sortBy := default "createdAt" (qSortBy options) in
  let sortOrder := default "desc" (qSortOrder options) in
  let found :=
    filter (λ doc, matchesQuery options userId userRole doc = true)
      (map_to_list (db st)) in
  let skip := (page - 1) * limit in
  let docs :=
    take (Z.to_nat limit)
      (drop (Z.to_nat skip) (sortDocs sortBy (String.eqb sortOrder "desc")
                               found)) in
  let total := Z.of_nat (length found) in
  let totalPages := ceilDiv total limit in
  {| docs := map (λ doc, Reads.addFileUrl BASE_URL (fst doc) (snd doc)
                           userId userRole) docs;
     total := total;
     page := page;
     limit := limit;
     totalPages := totalPages;
     hasNextPage := (page <? totalPages)%Z;
     hasPreviousPage := (1 <? page)%Z |}.

(** [FileModel.findByEntity(entityType, entityId)] *)
Definition findByEntity (entityType' entityId : string) (st : State)
    : list (string * FileRecord) :=
  sortDocs "createdAt" true
    (filter (λ doc, entityType (meta (fst doc)) = entityType'
                    /\ uploadedFor (meta (fst doc)) = Some entityId)
       (map_to_list (db st))).

(** [FileModel.findPublic()] *)
Definition findPublic (st : State) : list (string * FileRecord) :=
  sortDocs "createdAt" true
    (filter (λ doc, isPublic (snd doc) = true) (map_to_list (db st))).

(** The documents of a listing that the requester may read. *)
Definition accessibleOf (userId : string) (userRole : option string)
    (found : list (string * FileRecord)) : list (string * FileRecord) :=
  filter (λ doc, Access.canAccessFile (snd doc) userId userRole = true) found.

(** FileService.getFilesByEntity *)
Definition getFilesByEntity (entityType' entityId userId : string)
    (userRole : option string) (st : State) : list FileWithUrls :=
  map (λ doc, Reads.addFileUrl BASE_URL (fst doc) (snd doc) userId userRole)
    (accessibleOf userId userRole (findByEntity entityType' entityId st)).

(** FileService.getPublicFiles *)
Definition getPublicFiles (userId : string) (userRole : option string)
    (st : State) : list FileWithUrls :=
  map (λ doc, Reads.addFileUrl BASE_URL (fst doc) (snd doc) userId userRole)
    (findPublic st).


End Service.

Section Update.
Variable BASE_URL : string.
Variable AUTHORIZATION_ERROR : Error.
(** What [findByIdAndUpdate(id, updateData, { runValidators: true })]
    makes of the stored record; [None] when a validator rejects. *)
Variable applyUpdate : FileRecord → option FileRecord.


End Update.
End Listing.

(* ===================================================================== *)
(** ** Housekeeping on disk (CompressionService, upload middleware) *)
(* ===================================================================== *)

Module Housekeeping.
Import JsString.

(** [String.prefix] leaves: what follows [p] in [s], when [s] starts
    with [p]. *)
Fixpoint stripPrefix (p s : string) : option string :=
  match p, s with
  | EmptyString, _ => Some s
  | String a p', String b s' =>
      if Ascii.eqb a b then stripPrefix p' s' else None
  | String _ _, EmptyString => None
  end.

(** [folder] is an entry of [parent]: [parent/name] with a plain name. *)
Definition isEntryOf (parent folder : string) : bool :=
  match stripPrefix (parent ++ "/") folder with
  | Some name => truthy name && negb (Routes.hasSlash name)
  | None => false
  end.

(** A folder has no entry: no file and no folder in it. *)
Definition isEmptyFolder (d : Disk) (folder : string) : bool :=
  (length (Fs.readdir d folder) =? 0)%nat
  && forallb (λ sub, negb (isEntryOf folder sub)) (elements (dirs d)).

Section Service.
Variable uploadDir : string.
Variable w : Oracle.

(** CompressionService.cleanupEmptyFolders: the loop over the folders of
    the upload directory. *)
Definition cleanupEmptyFolders (d : Disk) : Disk :=
  let folders := filter (λ f, isEntryOf uploadDir f = true)
                   (elements (dirs d)) in
  foldl (λ acc folderPath,
           if isEmptyFolder acc folderPath then Fs.rmdir acc folderPath
           else acc)
        d folders.

(** CompressionService.cleanupCompressedFiles: a rejected unlink is
    logged and the loop goes on. *)
Definition cleanupCompressedFiles (compressedPaths : list Path) (d : Disk)
    : Disk :=
  foldl (λ acc compressedPath,
           if Fs.access acc compressedPath
              && negb (unlinkFails w compressedPath)
           then Fs.unlink acc compressedPath
           else acc)
        d compressedPaths.

(** organizeUploadedFile: the folder of the upload is created, then the
    upload is moved from where multer put it into that folder.  The
    result is the disk and, when the move went through, the new path and
    the folder info handed to createFile; a rejected move goes to
    [next(error)] ([None]) with the folder already made. *)
Definition organizeUploadedFile (folderId filename tempFileId userId : string)
    (originalPath : Path) (d : Disk) : Disk * option (Path * FolderInfo) :=
  let folderPath := uploadDir ++ "/" ++ folderId in
  let d1 := Fs.mkdir d folderPath in
  let newPath := path_join folderPath filename in
  match Fs.rename d1 originalPath newPath with
  | None => (d1, None)
  | Some d2 =>
      (d2, Some (newPath,
                 {| fiFolderId := folderId; fiFolderPath := folderPath;
                    fiUserId := userId; fiTempFileId := tempFileId |}))
  end.

End Service.
End Housekeeping.

(** The folder info organizeUploadedFile hands on: the folder is the
    entry of the upload directory that carries the folder id. *)
Definition placedInUploads (uploadDir : string) (fi : FolderInfo) : Prop :=
  fiFolderPath fi = uploadDir ++ "/" ++ fiFolderId fi
  /\ JsString.truthy (fiFolderId fi) = true
  /\ Routes.hasSlash (fiFolderId fi) = false.

(* ===================================================================== *)
(** ** The upload filter (middlewares/fileUpload.ts, fileFilter) *)
(* ===================================================================== *)

Module Upload.

Definition allowedMimeTypes : list string :=
  [ "image/jpeg"; "image/jpg"; "image/png"; "image/gif"; "image/webp";
    "image/svg+xml";
    "application/pdf";
    "application/msword";
    "application/vnd.openxmlformats-officedocument.wordprocessingml.document";
    "application/vnd.ms-excel";
    "application/vnd.openxmlformats-officedocument.spreadsheetml.sheet";
    "application/vnd.ms-powerpoint";
    "application/vnd.openxmlformats-officedocument.presentationml.presentation";
    "text/plain"; "text/csv"; "text/html"; "text/css"; "text/javascript";
    "application/json"; "application/xml";
    "application/zip"; "application/x-rar-compressed";
    "application/x-7z-compressed"; "application/gzip";
    "application/octet-stream" ].

(** [allowedMimeTypes.includes(file.mimetype)]: the upload goes on when
    true, and is refused with an error otherwise. *)
Definition fileFilter (mimetype : string) : bool :=
  bool_decide (mimetype ∈ allowedMimeTypes).

End Upload.

(* ===================================================================== *)
(** ** Further sample uploads and requests *)
(* ===================================================================== *)

Module Cases.

Definition BASE_URL : string := "https://files.example.org".

Definition statSize : Path → Z := λ _, 400000.

(** What createFile returns, and its parts. *)
Definition Outcome : Type := State * (Error + option FileRecord) * option Task.

Definition stateOf (run : Outcome) : State := fst (fst run).

Definition responseOf (run : Outcome) : option FileRecord :=
  match snd (fst run) with
  | inr response => response
  | inl _ => None
  end.

Definition taskOf (run : Outcome) : Task := default (λ st, st) (snd run).

(** createFile answered with the record; a task was detached. *)
Definition answered (run : Outcome) : bool :=
  match snd (fst run) with
  | inr _ => true
  | inl _ => false
  end.

Definition dispatched (run : Outcome) : bool :=
  match snd run with
  | Some _ => true
  | None => false
  end.

Definition recordOf (st : State) (id : string) : FileRecord :=
  default (Sample.record EmptyString false None EmptyString) (db st !! id).

Definition upload (fileData : FileInput) (st : State) : Outcome :=
  Files.createFile defaultEnv Sample.uploadDir Sample.calm fileData true
    (Some Sample.photoFolder) st.

(** The compression the detached task of an upload runs. *)
Definition compressionOf (run : Outcome)
    : Disk * Settled (option CompressionResult) :=
  let st1 := stateOf run in
  let file := recordOf st1 (newObjectId Sample.calm) in
  Compression.compressFile defaultEnv Sample.uploadDir Sample.calm
    (path file) (mimetype file) (size file) (uploadedBy file)
    (newObjectId Sample.calm) (Files.uploadOptions defaultEnv)
    (Some Sample.folder) (disk st1).

Definition resultOf (c : Disk * Settled (option CompressionResult))
    : CompressionResult :=
  match snd c with
  | Resolved (Some r) => r
  | _ => mkResult 0 0 0 0 none None EmptyString
  end.

(** The photo of [Sample], uploaded. *)
Definition photoRun : Outcome := upload Sample.photo Sample.afterUploadParse.


(** A text upload above the threshold size. *)
Definition notesPath : Path := (Sample.folder, "u1_tmp.txt").

Definition notes : FileInput :=
  {| fiOriginalName := "notes.txt";
     fiFilename := "u1_tmp.txt";
     fiMimetype := "text/plain";
     fiSize := 500000;
     fiPath := notesPath;
     fiUploadedBy := "u1";
     fiIsPublic := Some false;
     fiExpiresAt := None |}.

Definition afterNotesParse : State :=
  {| db := ∅;
     disk := {| files := {[ notesPath ]}; dirs := {[ Sample.folder ]} |} |}.

Definition notesRun : Outcome := upload notes afterNotesParse.

(** A PDF upload: not eligible. *)
Definition reportPath : Path := (Sample.folder, "u1_tmp.pdf").

Definition report : FileInput :=
  {| fiOriginalName := "report.pdf";
     fiFilename := "u1_tmp.pdf";
     fiMimetype := "application/pdf";
     fiSize := 500000;
     fiPath := reportPath;
     fiUploadedBy := "u1";
     fiIsPublic := Some false;
     fiExpiresAt := None |}.

Definition afterReportParse : State :=
  {| db := ∅;
     disk := {| files := {[ reportPath ]}; dirs := {[ Sample.folder ]} |} |}.

Definition reportRun : Outcome := upload report afterReportParse.

(** The disk as multer leaves it: the upload in the upload directory. *)
Definition multerPath : Path := (Sample.uploadDir, "u1_tmp.jpg").

Definition multerDisk : Disk :=
  {| files := {[ multerPath ]}; dirs := {[ Sample.uploadDir ]} |}.

Definition emptyDisk : Disk :=
  {| files := ∅; dirs := {[ Sample.uploadDir ]} |}.

(** Every record of [Sample.library] belongs to department "d1". *)
Definition meta : string → DocMeta :=
  λ _, {| uploadedFor := Some "d1"; entityType := "department"; tags := [] |}.

(** A database that returns the documents in the order it holds them. *)
Definition sortDocs : string → bool → list (string * FileRecord)
                      → list (string * FileRecord) :=
  λ _ _ l, l.


(** The second page of two entries. *)
Definition secondPage : FileQueryOptions :=
  mkQuery None None None None None (Some 2) (Some 2) None None.

Definition anyQuery : FileQueryOptions :=
  mkQuery None None None None None None None None None.

End Cases.
(* ===================================================================== *)
(** * Properties *)
(* ===================================================================== *)

Lemma optEq_true o s : JsString.optEq o s = true <-> o = Some s.
Proof.
  destruct o as [r|]; simpl.
  - rewrite String.eqb_eq. split; congruence.
  - split; discriminate.
Qed.

Lemma optEq_false o s : JsString.optEq o s = false <-> o ≠ Some s.
Proof.
  rewrite <- optEq_true. destruct (JsString.optEq o s); split; congruence.
Qed.

(** The path helpers on the names the service meets. *)
Example extname_jpg : Files.extname "u1_tmp.jpg" = ".jpg".
Proof. reflexivity. Qed.

Example extname_last_dot : Files.extname "report.tar.gz" = ".gz".
Proof. reflexivity. Qed.

Example extname_none : Files.extname "README" = EmptyString.
Proof. reflexivity. Qed.

Example extname_leading_dot : Files.extname ".bashrc" = EmptyString.
Proof. reflexivity. Qed.

Example basename_folder : Compression.basename "/srv/uploads/f1" = "f1".
Proof. reflexivity. Qed.

Example isTextType_json : Eligibility.isTextType "application/json" = true.
Proof. reflexivity. Qed.

Example isTextType_octet :
  Eligibility.isTextType "application/octet-stream" = false.
Proof. reflexivity. Qed.

(** ** Access policy and eligibility *)

(** C1. [canAccessFile file userId userRole] is true exactly when the file
    is public, or its uploader is the requester, or the requester's role is
    "admin"; [canDownloadFile] returns the same boolean on every input. *)
Theorem canAccessFile_iff_public_owner_admin
    (file : FileRecord) (userId : string) (userRole : option string) :
  (Access.canAccessFile file userId userRole = true <->
     isPublic file = true \/ uploadedBy file = userId \/ userRole = Some "admin")
  /\ Access.canDownloadFile file userId userRole
     = Access.canAccessFile file userId userRole.
Proof.
  split; [|reflexivity].
  unfold Access.canAccessFile.
  destruct (isPublic file); [intuition|].
  rewrite orb_true_iff, String.eqb_eq, optEq_true.
  intuition discriminate.
Qed.

(** The URL methods of the schema follow the same policy: a URL is handed
    out exactly when [canAccessFile] holds. *)
Lemma getFileUrl_is_Some_iff id (file : FileRecord) userId userRole :
  is_Some (Access.getFileUrl id file userId userRole)
  <-> Access.canAccessFile file userId userRole = true.
Proof.
  unfold Access.getFileUrl, Access.canAccessFile.
  destruct (isPublic file); [split; eauto|].
  destruct (_ || _); split; eauto; intros H; try discriminate.
  by destruct H.
Qed.

Lemma getDownloadUrl_is_Some_iff id (file : FileRecord) userId userRole :
  is_Some (Access.getDownloadUrl id file userId userRole)
  <-> Access.canDownloadFile file userId userRole = true.
Proof.
  unfold Access.getDownloadUrl, Access.canDownloadFile.
  destruct (isPublic file); [split; eauto|].
  destruct (_ || _); split; eauto; intros H; try discriminate.
  by destruct H.
Qed.

(** C2. With image compression switched on in the options, every image
    mimetype is eligible whatever the size, also far below the threshold. *)
Theorem shouldCompressFile_image_any_size
    (env : Env) (mimetype : string) (size : Z) (options : CompressionOptions) :
  compressImages options = Some true ->
  Eligibility.isImageType mimetype = true ->
  Eligibility.shouldCompressFile env mimetype size options = true.
Proof.
  intros Hopt Himg. unfold Eligibility.shouldCompressFile.
  rewrite Hopt, Himg. reflexivity.
Qed.

Lemma shouldCompressFile_image_any_size_witness :
  compressImages (mkOptions None None (Some true) None None None None) = Some true
  /\ Eligibility.isImageType "image/png" = true
  /\ Eligibility.shouldCompressFile defaultEnv "image/png" 1
       (mkOptions None None (Some true) None None None None) = true.
Proof.
  split; [reflexivity|]. split; [reflexivity|].
  apply (shouldCompressFile_image_any_size defaultEnv "image/png" 1
           (mkOptions None None (Some true) None None None None));
    reflexivity.
Defined.

(** The same with the switch left to the environment, as createFile
    calls it. *)
Lemma shouldCompressFile_image_env_default
    (env : Env) (mimetype : string) (size : Z) (options : CompressionOptions) :
  compressImages options = None ->
  COMPRESS_IMAGE_TYPES env = true ->
  Eligibility.isImageType mimetype = true ->
  Eligibility.shouldCompressFile env mimetype size options = true.
Proof.
  intros Hopt Henv Himg. unfold Eligibility.shouldCompressFile.
  rewrite Hopt, Himg. simpl. by rewrite Henv.
Qed.

(** Switched off in the options, an image falls through to the size and
    text tests. *)
Example shouldCompressFile_image_switched_off :
  Eligibility.shouldCompressFile defaultEnv "image/png" 1
    (mkOptions None None (Some false) None None None None) = false.
Proof. reflexivity. Qed.

(** The PDF mimetype is in neither of the two classes that can be
    eligible. *)
Lemma pdf_is_not_image : Eligibility.isImageType "application/pdf" = false.
Proof. reflexivity. Qed.

Lemma pdf_is_not_text : Eligibility.isTextType "application/pdf" = false.
Proof. reflexivity. Qed.

(** C3. A PDF is never eligible: for every size, every options value and
    every environment the answer for "application/pdf" is false. *)
Theorem shouldCompressFile_pdf_never
    (env : Env) (size : Z) (options : CompressionOptions) :
  Eligibility.shouldCompressFile env "application/pdf" size options = false.
Proof.
  unfold Eligibility.shouldCompressFile.
  rewrite pdf_is_not_image, pdf_is_not_text, !andb_false_r.
  destruct (_ <? _)%Z; [reflexivity|].
  destruct (_ && _); reflexivity.
Qed.

(** ** Result selection *)

Lemma Qltb_lt (x y : Q) : Compression.Qltb x y = true <-> (x < y)%Q.
Proof.
  unfold Compression.Qltb. rewrite negb_true_iff.
  split.
  - intros H. apply Qnot_le_lt. intros Hle.
    apply Qle_bool_iff in Hle. congruence.
  - intros H. destruct (Qle_bool y x) eqn:E; [|reflexivity].
    apply Qle_bool_iff in E. exfalso. exact (Qlt_not_le _ _ H E).
Qed.

Lemma Qltb_ge (x y : Q) : Compression.Qltb x y = false <-> ¬ (x < y)%Q.
Proof.
  rewrite <- Qltb_lt. destruct (Compression.Qltb x y); split; congruence.
Qed.

(** Over a positive original size, comparing ratios is comparing sizes. *)
Lemma ratio_lt_iff (a b o : Z) :
  0 < o -> (inject_Z a / inject_Z o < inject_Z b / inject_Z o)%Q <-> a < b.
Proof.
  intros Ho. destruct o as [|po|po]; try lia.
  unfold Qlt, Qdiv, Qmult, Qinv, inject_Z. simpl.
  split; nia.
Qed.

(** The choice in terms of the three sizes, for a positive original size. *)
Lemma chooseBest_spec
    (p w o : Z) (ty : CompressionType) (sz : Z) (ratio savings : Q) :
  0 < o ->
  Compression.chooseBest p w o = (ty, sz, ratio, savings) ->
  let pngRatio := (inject_Z p / inject_Z o)%Q in
  let webpRatio := (inject_Z w / inject_Z o)%Q in
  let webpWins := (webpRatio < pngRatio)%Q /\ (webpRatio < 95 # 100)%Q in
  (webpWins -> ty = webp /\ sz = w)
  /\ (¬ webpWins -> (pngRatio < 95 # 100)%Q -> ty = png /\ sz = p)
  /\ (¬ webpWins -> ¬ (pngRatio < 95 # 100)%Q ->
        sz = Z.min p w /\ (w < p -> ty = webp) /\ (p <= w -> ty = png))
  /\ (ty = webp /\ sz = w \/ ty = png /\ sz = p)
  /\ (savings == inject_Z (o - sz) / inject_Z o * inject_Z 100)%Q
  /\ (ratio == inject_Z sz / inject_Z o)%Q.
Proof.
  intros Ho Hsel pngRatio webpRatio webpWins.
  unfold Compression.chooseBest in Hsel.
  fold pngRatio webpRatio in Hsel.
  pose proof (ratio_lt_iff w p o Ho) as Hcmp. fold pngRatio webpRatio in Hcmp.
  destruct (Compression.Qltb webpRatio pngRatio) eqn:E1;
    destruct (Compression.Qltb webpRatio (95 # 100)) eqn:E2;
    destruct (Compression.Qltb pngRatio (95 # 100)) eqn:E3;
    simpl in Hsel; injection Hsel as <- <- <- <-;
    repeat match goal with
           | H : Compression.Qltb _ _ = true |- _ => apply Qltb_lt in H
           | H : Compression.Qltb _ _ = false |- _ => apply Qltb_ge in H
           end;
    unfold webpWins;
    destruct (decide (w < p)) as [Hwp|Hwp];
    try (exfalso; tauto);
    repeat split; try reflexivity; try tauto; try lia;
    try (intros; exfalso; tauto).
  all: try (left; split; [reflexivity|lia]).
  all: try (right; split; [reflexivity|lia]).
Qed.

Example chooseBest_neither_below_cutoff :
  fst (fst (Compression.chooseBest 990 980 1000)) = (webp, 980).
Proof. reflexivity. Qed.

Example chooseBest_tie_is_png :
  fst (fst (Compression.chooseBest 990 990 1000)) = (png, 990).
Proof. reflexivity. Qed.

Example chooseBest_png_when_webp_larger :
  fst (fst (Compression.chooseBest 500 700 1000)) = (png, 500).
Proof. reflexivity. Qed.

(** ** Post-transcode cleanup *)

Lemma readdir_rmdir (d : Disk) (folder folder' : string) :
  Fs.readdir (Fs.rmdir d folder) folder' = Fs.readdir d folder'.
Proof. reflexivity. Qed.

Section Cleanup.
Variable w : Oracle.
Variables (filePath pngPath webpPath : Path) (folderPath : string).


Lemma cleanupOriginal_files (d : Disk) :
  files (Compression.cleanupOriginal w filePath pngPath webpPath folderPath d)
  = if Compression.unlinkAttempted filePath pngPath webpPath d
       && negb (unlinkFails w filePath)
    then files d ∖ {[ filePath ]} else files d.
Proof.
  unfold Compression.cleanupOriginal, Compression.unlinkAttempted.
  destruct (Fs.access d filePath && _); simpl.
  - destruct (unlinkFails w filePath); simpl; [reflexivity|].
    destruct (_ =? _)%nat; reflexivity.
  - destruct (_ =? _)%nat; reflexivity.
Qed.

Lemma cleanupOriginal_deletes_only_distinct_original (d : Disk) :
  filePath ∈ files d ->
  filePath ∉ files (Compression.cleanupOriginal w filePath pngPath webpPath
                      folderPath d) ->
  filePath ≠ pngPath /\ filePath ≠ webpPath /\ unlinkFails w filePath = false.
Proof.
  rewrite cleanupOriginal_files. unfold Compression.unlinkAttempted.
  intros Hin Hout.
  destruct (Fs.access d filePath); simpl in Hout; [|contradiction].
  destruct (bool_decide (filePath = pngPath)) eqn:E1; simpl in Hout;
    [contradiction|].
  destruct (bool_decide (filePath = webpPath)) eqn:E2; simpl in Hout;
    [contradiction|].
  destruct (unlinkFails w filePath); simpl in Hout; [contradiction|].
  apply bool_decide_eq_false in E1, E2. auto.
Qed.

Lemma cleanupOriginal_keeps_others (d : Disk) (p : Path) :
  p ≠ filePath ->
  p ∈ files (Compression.cleanupOriginal w filePath pngPath webpPath
               folderPath d)
  <-> p ∈ files d.
Proof.
  intros Hne. rewrite cleanupOriginal_files.
  destruct (_ && _); [|done].
  rewrite elem_of_difference, not_elem_of_singleton. tauto.
Qed.

Lemma not_in_rmdir (d : Disk) (folder : string) :
  folder ∉ dirs (Fs.rmdir d folder).
Proof.
  simpl. intros [_ Hout]%elem_of_difference.
  apply Hout. by apply elem_of_singleton.
Qed.

Lemma cleanupOriginal_removes_empty_folder (d : Disk) :
  (Compression.unlinkAttempted filePath pngPath webpPath d = true ->
   unlinkFails w filePath = false) ->
  Fs.readdir (Compression.cleanupOriginal w filePath pngPath webpPath
                folderPath d) folderPath = [] ->
  folderPath ∉ dirs (Compression.cleanupOriginal w filePath pngPath webpPath
                       folderPath d).
Proof.
  unfold Compression.cleanupOriginal, Compression.unlinkAttempted.
  intros Hok.
  destruct (Fs.access d filePath && _); simpl.
  - rewrite Hok by reflexivity. simpl.
    destruct (_ =? _)%nat eqn:E.
    + intros _. apply not_in_rmdir.
    + intros Hnil. rewrite Hnil in E. discriminate.
  - destruct (_ =? _)%nat eqn:E.
    + intros _. apply not_in_rmdir.
    + intros Hnil. rewrite Hnil in E. discriminate.
Qed.

Lemma cleanupOriginal_keeps_nonempty_folder (d : Disk) (p : Path) :
  p ∈ files (Compression.cleanupOriginal w filePath pngPath webpPath
               folderPath d) ->
  path_dirname p = folderPath ->
  folderPath ∈ dirs d ->
  folderPath ∈ dirs (Compression.cleanupOriginal w filePath pngPath webpPath
                       folderPath d).
Proof.
  intros Hp Hdir Hin.
  assert (Fs.readdir (Compression.cleanupOriginal w filePath pngPath webpPath
                        folderPath d) folderPath ≠ []) as Hne.
  { intros Hnil.
    assert (p ∈ Fs.readdir (Compression.cleanupOriginal w filePath pngPath
                               webpPath folderPath d) folderPath) as Habs.
    { unfold Fs.readdir. apply list_elem_of_filter. split; [done|].
      by apply elem_of_elements. }
    rewrite Hnil in Habs. by apply not_elem_of_nil in Habs. }
  revert Hne. unfold Compression.cleanupOriginal.
  destruct (Fs.access d filePath && _); simpl.
  - destruct (unlinkFails w filePath); simpl; [done|].
    destruct (_ =? _)%nat eqn:E; simpl; [|done].
    apply Nat.eqb_eq, length_zero_iff_nil in E.
    intros Hne. by rewrite readdir_rmdir in Hne.
  - destruct (_ =? _)%nat eqn:E; simpl; [|done].
    apply Nat.eqb_eq, length_zero_iff_nil in E.
    intros Hne. by rewrite readdir_rmdir in Hne.
Qed.

End Cleanup.

(** What compressImage leaves on disk when it returns a result: both
    derivatives were written, the checks of their existence hold, and the
    cleanup ran on that disk. *)
Lemma compressImage_success (w : Oracle) (filePath : Path)
    (folderPath userId fileId : string) (o : Z) (options : CompressionOptions)
    (d d' : Disk) (res : CompressionResult) :
  Compression.compressImage w filePath folderPath userId fileId o options d
  = (d', inr res) ->
  let pngPath :=
    path_join folderPath (Compression.generateFilename userId fileId "png") in
  let webpPath :=
    path_join folderPath (Compression.generateFilename userId fileId "webp") in
  let written := Fs.writeFile (Fs.writeFile d pngPath) webpPath in
  Fs.access written pngPath = true /\ Fs.access written webpPath = true
  /\ d' = Compression.cleanupOriginal w filePath pngPath webpPath folderPath written
  /\ ∃ p q, sharp w filePath = Some (p, q)
            /\ (compressionType res, compressedSize res, compressionRatio res,
                savingsPercentage res) = Compression.chooseBest p q o.
Proof.
  intros H pngPath webpPath written.
  unfold Compression.compressImage in H. fold pngPath webpPath in H.
  destruct (sharp w filePath) as [[p q]|] eqn:Es; [|discriminate].
  destruct (writeFails w pngPath); [discriminate|].
  destruct (writeFails w webpPath); [discriminate|].
  simpl in H. fold written in H.
  destruct (Compression.chooseBest p q o) as [[[ty sz] ra] sv] eqn:Ec.
  injection H as <- <-. simpl.
  repeat split.
  - apply bool_decide_eq_true. unfold written. simpl. set_solver.
  - apply bool_decide_eq_true. unfold written. simpl. set_solver.
  - exists p, q. split; [reflexivity|]. by rewrite Ec.
Qed.

(** C4. A successful transcode with PNG size [p], WebP size [w] and
    original size [o > 0] reports as primary: webp when [w/o < p/o] and
    [w/o < 0.95]; otherwise png when [p/o < 0.95]; otherwise the smaller of
    the two (png on a tie).  The reported size is the size of the chosen
    derivative, [min p w] in the last case, and the savings percentage is
    [(o - compressedSize) / o * 100]. *)
Theorem compressImage_primary_derivative
    (io : Oracle) (filePath : Path) (folderPath userId fileId : string)
    (options : CompressionOptions) (d d' : Disk) (res : CompressionResult)
    (p w o : Z) :
  0 < o ->
  sharp io filePath = Some (p, w) ->
  Compression.compressImage io filePath folderPath userId fileId o options d
  = (d', inr res) ->
  let pngRatio := (inject_Z p / inject_Z o)%Q in
  let webpRatio := (inject_Z w / inject_Z o)%Q in
  let webpWins := (webpRatio < pngRatio)%Q /\ (webpRatio < 95 # 100)%Q in
  (webpWins -> compressionType res = webp /\ compressedSize res = w)
  /\ (¬ webpWins -> (pngRatio < 95 # 100)%Q ->
        compressionType res = png /\ compressedSize res = p)
  /\ (¬ webpWins -> ¬ (pngRatio < 95 # 100)%Q ->
        compressedSize res = Z.min p w
        /\ (w < p -> compressionType res = webp)
        /\ (p <= w -> compressionType res = png))
  /\ (compressionType res = webp /\ compressedSize res = w
      \/ compressionType res = png /\ compressedSize res = p)
  /\ (savingsPercentage res
      == inject_Z (o - compressedSize res) / inject_Z o * inject_Z 100)%Q
  /\ originalSize res = o.
Proof.
  intros Ho Hsharp Hrun.
  pose proof Hrun as Hrun'.
  apply compressImage_success in Hrun as (_ & _ & _ & p' & w' & Hs & Hsel).
  assert (p' = p /\ w' = w) as [-> ->] by (split; congruence).
  symmetry in Hsel.
  pose proof (chooseBest_spec p w o _ _ _ _ Ho Hsel) as Hspec.
  simpl in Hspec. intros pngRatio webpRatio webpWins.
  destruct Hspec as (H1 & H2 & H3 & H4 & H5 & _).
  split; [exact H1|]. split; [exact H2|]. split; [exact H3|].
  split; [exact H4|]. split; [exact H5|].
  unfold Compression.compressImage in Hrun'. rewrite Hsharp in Hrun'.
  repeat case_match; simplify_eq; reflexivity.
Qed.

Lemma compressImage_primary_derivative_witness :
  ∃ d' res,
    Compression.compressImage Sample.calm Sample.photoPath Sample.folder
      "u1" "65a1" 2000000 noOptions Sample.photoDisk = (d', inr res)
    /\ compressionType res = webp /\ compressedSize res = 400000.
Proof.
  eexists _, _. split; [reflexivity|].
  refine (proj1 (compressImage_primary_derivative Sample.calm Sample.photoPath
                   Sample.folder "u1" "65a1" noOptions Sample.photoDisk _ _
                   900000 400000 2000000 _ eq_refl eq_refl) _).
  - lia.
  - split; reflexivity.
Defined.

(** When compressImage throws, no file has been removed. *)
Lemma compressImage_failure_keeps_files (w : Oracle) (filePath : Path)
    (folderPath userId fileId : string) (o : Z) (options : CompressionOptions)
    (d d' : Disk) (e : Error) :
  Compression.compressImage w filePath folderPath userId fileId o options d
  = (d', inl e) ->
  files d ⊆ files d' /\ dirs d' = dirs d.
Proof.
  unfold Compression.compressImage.
  destruct (sharp w filePath) as [[p q]|]; [|intros [= <- _]; done].
  destruct (writeFails w _) eqn:E1, (writeFails w (path_join _ (_ _ _ "webp"))) eqn:E2;
    simpl.
  all: try (intros [= <- _]; simpl; split; [set_solver|reflexivity]).
  destruct (Compression.chooseBest p q o) as [[[? ?] ?] ?]. discriminate.
Qed.

(** After a transcode that returned a result, both derivatives are on
    disk, in the folder of the upload. *)
Lemma compressImage_derivatives_on_disk (w : Oracle) (filePath : Path)
    (folderPath userId fileId : string) (o : Z) (options : CompressionOptions)
    (d d' : Disk) (res : CompressionResult) :
  Compression.compressImage w filePath folderPath userId fileId o options d
  = (d', inr res) ->
  path_join folderPath (Compression.generateFilename userId fileId "png")
    ∈ files d'
  /\ path_join folderPath (Compression.generateFilename userId fileId "webp")
      ∈ files d'.
Proof.
  intros Hrun. apply compressImage_success in Hrun as (_ & _ & -> & _).
  set (pngPath := path_join folderPath _).
  set (webpPath := path_join folderPath _).
  set (written := Fs.writeFile (Fs.writeFile d pngPath) webpPath).
  assert (∀ p, p = pngPath \/ p = webpPath ->
               p ∈ files (Compression.cleanupOriginal w filePath pngPath
                            webpPath folderPath written)) as Hkept.
  { intros p Hp. rewrite cleanupOriginal_files.
    assert (p ∈ files written) as Hin
      by (unfold written; simpl; destruct Hp as [-> | ->]; set_solver).
    destruct (Compression.unlinkAttempted _ _ _ _) eqn:E; simpl; [|done].
    apply andb_true_iff in E as [_ E].
    apply negb_true_iff, orb_false_iff in E as [E1 E2].
    apply bool_decide_eq_false in E1, E2.
    destruct (unlinkFails w filePath); simpl; [done|].
    apply elem_of_difference. split; [done|].
    apply not_elem_of_singleton. destruct Hp as [-> | ->]; congruence. }
  split; apply Hkept; auto.
Qed.

(** C9. The original upload is removed only when it still exists and its
    path is neither derivative's path, and only in a run in which both
    derivatives have been written and are found on disk (a run that throws
    removes nothing); no other file is removed; a transcode never leaves
    the folder behind empty; and the cleanup step, on any disk on which its
    unlink does not reject, removes the folder when no entry is left in
    it. *)
Theorem compressImage_original_cleanup
    (w : Oracle) (filePath : Path) (folderPath userId fileId : string)
    (o : Z) (options : CompressionOptions) :
  let pngPath :=
    path_join folderPath (Compression.generateFilename userId fileId "png") in
  let webpPath :=
    path_join folderPath (Compression.generateFilename userId fileId "webp") in
  (∀ (d d' : Disk) r,
      Compression.compressImage w filePath folderPath userId fileId o options d
      = (d', r) ->
      filePath ∈ files d -> filePath ∉ files d' ->
      filePath ≠ pngPath /\ filePath ≠ webpPath
      /\ pngPath ∈ files d' /\ webpPath ∈ files d'
      /\ ∃ res, r = inr res)
  /\ (∀ (d d' : Disk) r (p : Path),
        Compression.compressImage w filePath folderPath userId fileId o options d
        = (d', r) ->
        p ≠ filePath -> p ∈ files d -> p ∈ files d')
  /\ (∀ (d d' : Disk) res,
        Compression.compressImage w filePath folderPath userId fileId o options d
        = (d', inr res) ->
        Fs.readdir d' folderPath = [] -> folderPath ∉ dirs d')
  /\ (∀ d : Disk,
        (Compression.unlinkAttempted filePath pngPath webpPath d = true ->
         unlinkFails w filePath = false) ->
        Fs.readdir (Compression.cleanupOriginal w filePath pngPath webpPath
                      folderPath d) folderPath = [] ->
        folderPath ∉ dirs (Compression.cleanupOriginal w filePath pngPath
                             webpPath folderPath d)).
Proof.
  intros pngPath webpPath. split; [|split; [|split]].
  - intros d d' [e|res] Hrun Hin Hout.
    + apply compressImage_failure_keeps_files in Hrun as [Hsub _]. set_solver.
    + destruct (compressImage_derivatives_on_disk _ _ _ _ _ _ _ _ _ _ Hrun)
        as [Hpng Hwebp].
      apply compressImage_success in Hrun as (_ & _ & -> & _).
      fold pngPath webpPath in Hout, Hpng, Hwebp |- *.
      set (written := Fs.writeFile (Fs.writeFile d pngPath) webpPath) in *.
      assert (filePath ∈ files written) as Hin' by (unfold written; simpl; set_solver).
      destruct (cleanupOriginal_deletes_only_distinct_original
                  w filePath pngPath webpPath folderPath written Hin' Hout)
        as (Hp & Hq & _).
      repeat split; try assumption. eauto.
  - intros d d' [e|res] p Hrun Hne Hin.
    + apply compressImage_failure_keeps_files in Hrun as [Hsub _]. set_solver.
    + apply compressImage_success in Hrun as (_ & _ & -> & _).
      apply cleanupOriginal_keeps_others; [done|]. simpl. set_solver.
  - intros d d' res Hrun Hnil.
    destruct (compressImage_derivatives_on_disk _ _ _ _ _ _ _ _ _ _ Hrun)
      as [Hpng _].
    assert (path_join folderPath (Compression.generateFilename userId fileId "png")
              ∈ Fs.readdir d' folderPath) as Habs.
    { unfold Fs.readdir. apply list_elem_of_filter. split; [done|].
      by apply elem_of_elements. }
    rewrite Hnil in Habs. by apply not_elem_of_nil in Habs.
  - intros d Hok. by apply cleanupOriginal_removes_empty_folder.
Qed.

Lemma compressImage_original_cleanup_witness :
  let pngPath := (Sample.folder, "u1_65a1.png") in
  let webpPath := (Sample.folder, "u1_65a1.webp") in
  (Sample.photoPath ≠ pngPath /\ Sample.photoPath ≠ webpPath
   /\ pngPath ∈ files (fst (Compression.compressImage Sample.calm Sample.photoPath
                              Sample.folder "u1" "65a1" 2000000 noOptions
                              Sample.photoDisk))
   /\ webpPath ∈ files (fst (Compression.compressImage Sample.calm Sample.photoPath
                               Sample.folder "u1" "65a1" 2000000 noOptions
                               Sample.photoDisk)))
  /\ Sample.folder ∉ dirs (Compression.cleanupOriginal Sample.calm Sample.photoPath
                             pngPath webpPath Sample.folder Sample.photoDisk).
Proof.
  intros pngPath webpPath.
  pose proof (compressImage_original_cleanup Sample.calm Sample.photoPath
                Sample.folder "u1" "65a1" 2000000 noOptions) as (HA & _ & _ & HC).
  split.
  - destruct (HA Sample.photoDisk _ _ eq_refl) as (H1 & H2 & H3 & H4 & _).
    + apply (bool_decide_unpack _). vm_compute. exact I.
    + apply (bool_decide_unpack _). vm_compute. exact I.
    + auto.
  - apply HC.
    + intros _. reflexivity.
    + vm_compute. reflexivity.
Defined.

(** A PNG upload: createFile renames the original to [u1_65a1.png], which
    is the path of the PNG derivative; the guard keeps the cleanup from
    unlinking it, and both derivatives are on disk afterwards. *)
Example png_upload_keeps_derivative :
  let run := Files.uploadThenBackground defaultEnv Sample.uploadDir Sample.calm
               Sample.pngUpload true (Some Sample.photoFolder)
               Sample.afterPngUploadParse in
  files (disk (fst run))
  = {[ (Sample.folder, "u1_65a1.png"); (Sample.folder, "u1_65a1.webp") ]}
  /\ Files.statusOf (fst run) "65a1" = Some completed.
Proof.
  split; vm_compute; reflexivity.
Qed.

(** A JPEG upload: the original [u1_65a1.jpg] is unlinked once both
    derivatives are written. *)
Example jpeg_upload_removes_original :
  let run := Files.uploadThenBackground defaultEnv Sample.uploadDir Sample.calm
               Sample.photo true (Some Sample.photoFolder)
               Sample.afterUploadParse in
  files (disk (fst run))
  = {[ (Sample.folder, "u1_65a1.png"); (Sample.folder, "u1_65a1.webp") ]}.
Proof.
  vm_compute. reflexivity.
Qed.

(** The same upload with a codec that rejects: nothing is unlinked. *)
Example jpeg_upload_failed_keeps_original :
  let run := Files.uploadThenBackground defaultEnv Sample.uploadDir
               Sample.brokenCodec Sample.photo true (Some Sample.photoFolder)
               Sample.afterUploadParse in
  files (disk (fst run)) = {[ (Sample.folder, "u1_65a1.jpg") ]}.
Proof.
  vm_compute. reflexivity.
Qed.

(** ** Archive builder *)

Section Archive.
Variable uploadDir : string.
Variable w : Oracle.

(** The validation loop stops at the first id that fails the check and
    names it. *)
Lemma validateAll_denied (st : State) (fileIds : list string)
    (userId : string) (userRole : option string) :
  (∃ fileId, fileId ∈ fileIds
             /\ Files.validateFileAccess st fileId userId userRole = false) ->
  ∃ fileId, fileId ∈ fileIds
            /\ Files.validateFileAccess st fileId userId userRole = false
            /\ Files.validateAll st fileIds userId userRole
               = inl (APIError 401 "Access Denied"
                        ("No access to file " ++ fileId)).
Proof.
  induction fileIds as [|x rest IH]; intros (bad & Hin & Hbad).
  - by apply not_elem_of_nil in Hin.
  - simpl. destruct (Files.validateFileAccess st x userId userRole) eqn:Ex.
    + apply elem_of_cons in Hin as [->|Hin]; [congruence|].
      destruct IH as (y & Hy & Hdenied & Hres); [by eauto|].
      exists y. split; [by apply elem_of_cons; right|]. by split.
    + exists x. split; [by apply elem_of_cons; left|]. by split.
Qed.

Lemma validateAll_passed (st : State) (fileIds : list string)
    (userId : string) (userRole : option string) (u : unit) :
  Files.validateAll st fileIds userId userRole = inr u ->
  Forall (λ fileId, Files.validateFileAccess st fileId userId userRole = true)
         fileIds.
Proof.
  induction fileIds as [|x rest IH]; simpl; intros H; [constructor|].
  destruct (Files.validateFileAccess st x userId userRole) eqn:Ex;
    [|discriminate].
  constructor; auto.
Qed.

(** C7. If some id of [fileIds] fails the access check, compressFiles
    raises the 401 "Access Denied" error that names a failing id (the
    first one), and the state, disk included, is left as it was: no
    archive file is created.  The check runs over every id before the
    output stream is opened: whenever the disk has changed, every id had
    passed. *)
Theorem compressFiles_denied_before_any_output
    (fileIds : list string) (userId : string) (userRole : option string)
    (archiveName : option string) (st : State) :
  ((∃ fileId, fileId ∈ fileIds
              /\ Files.validateFileAccess st fileId userId userRole = false) ->
   ∃ fileId, fileId ∈ fileIds
             /\ Files.validateFileAccess st fileId userId userRole = false
             /\ Files.compressFiles uploadDir w fileIds userId userRole
                  archiveName st
                = (st, inl (APIError 401 "Access Denied"
                              ("No access to file " ++ fileId))))
  /\ (disk (fst (Files.compressFiles uploadDir w fileIds userId userRole
                   archiveName st)) ≠ disk st ->
      Forall (λ fileId,
                Files.validateFileAccess st fileId userId userRole = true)
             fileIds).
Proof.
  split.
  - intros Hbad.
    destruct (validateAll_denied st fileIds userId userRole Hbad)
      as (bad & Hin & Hdenied & Hres).
    exists bad. split; [done|]. split; [done|].
    unfold Files.compressFiles. by rewrite Hres.
  - unfold Files.compressFiles.
    destruct (Files.validateAll st fileIds userId userRole) as [e|u] eqn:Ev.
    + simpl. congruence.
    + intros _. by eapply validateAll_passed.
Qed.

End Archive.

Lemma compressFiles_denied_before_any_output_witness :
  Files.compressFiles Sample.uploadDir Sample.calm ["a"; "b"] "u1" (Some "user")
    (Some "bundle.zip") Sample.library
  = (Sample.library, inl (APIError 401 "Access Denied" "No access to file b")).
Proof.
  destruct (proj1 (compressFiles_denied_before_any_output Sample.uploadDir
                     Sample.calm ["a"; "b"] "u1" (Some "user")
                     (Some "bundle.zip") Sample.library))
    as (bad & Hin & Hdenied & Hres).
  - exists "b". split; [|vm_compute; reflexivity].
    apply elem_of_cons; right. apply elem_of_cons; left. reflexivity.
  - apply elem_of_cons in Hin as [->|Hin]; [vm_compute in Hdenied; discriminate|].
    apply elem_of_cons in Hin as [->|Hin]; [exact Hres|].
    by apply not_elem_of_nil in Hin.
Defined.

(** A requester who may read every file gets the archive, and the archive
    file is then on disk. *)
Example compressFiles_granted :
  ∃ st', Files.compressFiles Sample.uploadDir Sample.calm ["a"; "b"] "u2"
           (Some "user") (Some "bundle.zip") Sample.library
         = (st', inr {| archivePath := (Sample.uploadDir, "bundle.zip");
                        archiveSize := 2048; fileCount := 2 |})
         /\ (Sample.uploadDir, "bundle.zip") ∈ files (disk st').
Proof.
  eexists. split; [vm_compute; reflexivity|].
  apply (bool_decide_unpack _). vm_compute. exact I.
Qed.

(** ** Expiry sweep *)

Section Sweep.
Variable w : Oracle.
Variable AUTHORIZATION_ERROR : Error.

(** C10. Called with any role other than "admin" (or with none),
    cleanupExpiredFiles throws the 401 error before it queries anything:
    the collection and the disk are unchanged. *)
Theorem cleanupExpiredFiles_requires_admin
    (now : Z) (userRole : option string) (st : State) :
  userRole ≠ Some "admin" ->
  Files.cleanupExpiredFiles w AUTHORIZATION_ERROR now userRole st
  = (st, inl (APIError 401 "Access Denied"
                "Only administrators can cleanup expired files")).
Proof.
  intros Hrole. unfold Files.cleanupExpiredFiles.
  apply optEq_false in Hrole. by rewrite Hrole.
Qed.

End Sweep.

Lemma cleanupExpiredFiles_requires_admin_witness :
  Some "user" ≠ Some "admin"
  /\ Files.cleanupExpiredFiles Sample.calm Sample.AUTHORIZATION_ERROR 10
       (Some "user") Sample.library
     = (Sample.library,
        inl (APIError 401 "Access Denied"
               "Only administrators can cleanup expired files")).
Proof.
  split; [discriminate|].
  apply (cleanupExpiredFiles_requires_admin Sample.calm
           Sample.AUTHORIZATION_ERROR 10 (Some "user") Sample.library).
  discriminate.
Defined.

Section SweepCount.
Variable w : Oracle.
Variable AUTHORIZATION_ERROR : Error.

(** The sweep deletes as ["system"] with role ["admin"]: on a record that
    exists the call passes the owner check, tries the unlink, and fails
    only when the database call does. *)
Lemma deleteFile_as_admin (fileId : string) (file : FileRecord) (st : State) :
  db st !! fileId = Some file ->
  ∃ d',
    Files.deleteFile w AUTHORIZATION_ERROR fileId "system" (Some "admin") st
    = (if dbDeleteFails w fileId
       then (mkState (db st) d', inl (JsError "findByIdAndDelete failed"))
       else (mkState (delete fileId (db st)) d', inr tt))
    /\ files d' ⊆ files (disk st)
    /\ (unlinkFails w (path file) = false -> path file ∉ files d').
Proof.
  intros Hfile. unfold Files.deleteFile, Files.findById. rewrite Hfile.
  simpl. rewrite andb_false_r.
  destruct (Fs.access (disk st) (path file)) eqn:Ea;
    destruct (unlinkFails w (path file)) eqn:Eu; simpl.
  - exists (disk st). destruct (dbDeleteFails w fileId), st; simpl;
      repeat split; done.
  - exists (Fs.unlink (disk st) (path file)).
    destruct (dbDeleteFails w fileId); simpl;
      (split; [reflexivity|split]).
    all: try (intros x [Hx _]%elem_of_difference; exact Hx).
    all: intros _ [_ Hout]%elem_of_difference;
      apply Hout; by apply elem_of_singleton.
  - exists (disk st). destruct (dbDeleteFails w fileId), st; simpl;
      repeat split; done.
  - exists (disk st). apply bool_decide_eq_false in Ea.
    destruct (dbDeleteFails w fileId), st; simpl; repeat split; done.
Qed.

(** The loop over the records found, from any count and any state in
    which those records are still stored. *)
Lemma sweep_spec (expiredFiles : list (string * FileRecord)) :
  ∀ (n : nat) (st : State),
    NoDup expiredFiles.*1 ->
    (∀ id file, (id, file) ∈ expiredFiles -> db st !! id = Some file) ->
    ∃ st',
      Files.sweep w AUTHORIZATION_ERROR expiredFiles n st
      = (st', (n + length (filter (λ kf, dbDeleteFails w kf.1 = false)
                             expiredFiles))%nat)
      /\ (∀ id file, (id, file) ∈ expiredFiles ->
            db st' !! id = if dbDeleteFails w id then Some file else None)
      /\ (∀ id, id ∉ expiredFiles.*1 -> db st' !! id = db st !! id)
      /\ files (disk st') ⊆ files (disk st)
      /\ (∀ id file, (id, file) ∈ expiredFiles ->
            unlinkFails w (path file) = false ->
            path file ∉ files (disk st')).
Proof.
  induction expiredFiles as [|[k f] rest IH]; intros n st Hnd Hstored.
  - exists st. simpl. rewrite Nat.add_0_r.
    repeat split; try done; intros ? ? Hin; by apply not_elem_of_nil in Hin.
  - rewrite fmap_cons in Hnd. apply NoDup_cons in Hnd as [Hk Hnd]. simpl in Hk.
    assert (db st !! k = Some f) as Hkf
      by (apply Hstored, elem_of_cons; by left).
    destruct (deleteFile_as_admin k f st Hkf) as (d1 & Hdel & Hsub & Hgone).
    simpl. rewrite Hdel, filter_cons. simpl.
    assert (∀ m : gmap string FileRecord,
               (m = db st \/ m = delete k (db st)) ->
               ∀ id file, (id, file) ∈ rest -> m !! id = Some file) as Hrest.
    { intros m Hm id file Hin.
      assert (id ≠ k) as Hne.
      { intros ->. apply Hk. apply list_elem_of_fmap. by exists (k, file). }
      destruct Hm as [->| ->].
      - apply Hstored, elem_of_cons. by right.
      - rewrite lookup_delete_ne by done.
        apply Hstored, elem_of_cons. by right. }
    destruct (dbDeleteFails w k) eqn:Ef.
    + destruct (decide (true = false)) as [?|_]; [discriminate|].
      destruct (IH n (mkState (db st) d1) Hnd (Hrest _ (or_introl eq_refl)))
        as (st' & Hrun & Hin & Hout & Hfiles & Hbytes).
      exists st'. split; [exact Hrun|]. simpl in *.
      split; [|split; [|split]].
      * intros id file [[= -> ->]|Hmem]%elem_of_cons.
        -- rewrite Ef. rewrite Hout by done. exact Hkf.
        -- by apply Hin.
      * intros id Hid. apply Hout. intros Hmem. apply Hid.
        apply elem_of_cons. by right.
      * set_solver.
      * intros id file [[= -> ->]|Hmem]%elem_of_cons Hu.
        -- specialize (Hgone Hu). set_solver.
        -- by eapply Hbytes.
    + destruct (decide (false = false)) as [_|?]; [|done].
      destruct (IH (S n) (mkState (delete k (db st)) d1) Hnd
                  (Hrest _ (or_intror eq_refl)))
        as (st' & Hrun & Hin & Hout & Hfiles & Hbytes).
      exists st'. simpl in *.
      split; [rewrite Hrun; f_equal; lia|].
      split; [|split; [|split]].
      * intros id file [[= -> ->]|Hmem]%elem_of_cons.
        -- rewrite Ef. rewrite Hout by done. apply lookup_delete_eq.
        -- by apply Hin.
      * intros id Hid. rewrite Hout.
        -- apply lookup_delete_ne. intros ->. apply Hid.
           apply elem_of_cons. by left.
        -- intros Hmem. apply Hid.
           apply elem_of_cons. by right.
      * set_solver.
      * intros id file [[= -> ->]|Hmem]%elem_of_cons Hu.
        -- specialize (Hgone Hu). set_solver.
        -- by eapply Hbytes.
Qed.

Lemma findExpired_stored (now : Z) (st : State) (id : string)
    (file : FileRecord) :
  (id, file) ∈ Files.findExpired now st
  <-> db st !! id = Some file /\ Files.isExpiredAt now file = true.
Proof.
  unfold Files.findExpired. rewrite list_elem_of_filter, elem_of_map_to_list.
  simpl. tauto.
Qed.

Lemma findExpired_NoDup (now : Z) (st : State) :
  NoDup (Files.findExpired now st).*1.
Proof.
  eapply sublist_NoDup; [apply (NoDup_fst_map_to_list (db st))|].
  apply fmap_sublist, sublist_filter.
Qed.

Lemma length_filter_complement {A} (P : A → bool) (l : list A) :
  (length (filter (λ x, P x = false) l)
   + length (filter (λ x, P x = true) l) = length l)%nat.
Proof.
  induction l as [|x l IH]; [reflexivity|].
  rewrite !filter_cons. destruct (P x); simpl.
  - destruct (decide (true = false)); [discriminate|].
    destruct (decide (true = true)); [|done]. simpl. lia.
  - destruct (decide (false = false)); [|done].
    destruct (decide (false = true)); [discriminate|]. simpl. lia.
Qed.

(** C8. Called by an admin, cleanupExpiredFiles runs deleteFile on every
    record whose [expiresAt] is before [now], goes on after a deletion
    that throws, and returns the number of deletions that succeeded: the
    count plus the number of failed deletions is the number of expired
    records (so [N - 1] when exactly one of [N] fails).  Every expired
    record whose deletion did not fail is gone, the failing ones and the
    records that are not expired stay, and the bytes of every expired
    record are unlinked unless the unlink itself rejects. *)
Theorem cleanupExpiredFiles_counts_successes (now : Z) (st : State) :
  let expired := Files.findExpired now st in
  let failed := filter (λ kf, dbDeleteFails w kf.1 = true) expired in
  ∃ (st' : State) (deletedCount : nat),
    Files.cleanupExpiredFiles w AUTHORIZATION_ERROR now (Some "admin") st
    = (st', inr deletedCount)
    /\ (deletedCount + length failed = length expired)%nat
    /\ (∀ id file, db st !! id = Some file ->
          Files.isExpiredAt now file = true ->
          db st' !! id = if dbDeleteFails w id then Some file else None)
    /\ (∀ id file, db st !! id = Some file ->
          Files.isExpiredAt now file = false ->
          db st' !! id = Some file)
    /\ (∀ id file, db st !! id = Some file ->
          Files.isExpiredAt now file = true ->
          unlinkFails w (path file) = false ->
          path file ∉ files (disk st')).
Proof.
  intros expired failed.
  destruct (sweep_spec expired 0%nat st (findExpired_NoDup now st))
    as (st' & Hrun & Hin & Hout & _ & Hbytes).
  { intros id file Hmem. by apply findExpired_stored in Hmem as [? _]. }
  exists st', (length (filter (λ kf, dbDeleteFails w kf.1 = false) expired)).
  split; [|split; [|split; [|split]]].
  - unfold Files.cleanupExpiredFiles. simpl. fold expired. by rewrite Hrun.
  - apply (length_filter_complement (λ kf, dbDeleteFails w kf.1)).
  - intros id file Hst Hexp. apply Hin. by apply findExpired_stored.
  - intros id file Hst Hexp. rewrite Hout; [done|].
    intros ([id' file'] & -> & Hmem)%list_elem_of_fmap. simpl in *.
    apply findExpired_stored in Hmem as [Hst' Hexp']. congruence.
  - intros id file Hst Hexp. apply (Hbytes id). by apply findExpired_stored.
Qed.

End SweepCount.

(** Two expired records, the database fails on "b": one deletion is
    counted, "a" is gone, "b" and the unexpired "c" are still stored. *)
Example cleanupExpiredFiles_one_failure :
  ∃ st', Files.cleanupExpiredFiles Sample.flakyDb Sample.AUTHORIZATION_ERROR
           10 (Some "admin") Sample.library = (st', inr 1%nat)
         /\ db st' !! "a" = None
         /\ is_Some (db st' !! "b") /\ is_Some (db st' !! "c").
Proof.
  eexists. split; [vm_compute; reflexivity|].
  vm_compute. repeat split; eauto.
Qed.

Lemma cleanupExpiredFiles_counts_successes_witness :
  ∃ st', Files.cleanupExpiredFiles Sample.flakyDb Sample.AUTHORIZATION_ERROR
           10 (Some "admin") Sample.library = (st', inr 1%nat)
         /\ db st' !! "a" = None.
Proof.
  destruct (cleanupExpiredFiles_counts_successes Sample.flakyDb
              Sample.AUTHORIZATION_ERROR 10 Sample.library)
    as (st' & n & Hrun & Hcount & Hgone & _).
  exists st'. split.
  - rewrite Hrun.
    match type of Hcount with
    | (_ + ?a = ?b)%nat =>
        replace a with 1%nat in Hcount by (vm_compute; reflexivity);
        replace b with 2%nat in Hcount by (vm_compute; reflexivity)
    end.
    assert (n = 1%nat) as -> by lia. reflexivity.
  - exact (Hgone "a" (Sample.record "u1" true (Some 5) "a.txt")
             ltac:(vm_compute; reflexivity) ltac:(reflexivity)).
Defined.

(** ** Background compression and the status of a record *)

Section Background.
Variable env : Env.
Variable uploadDir : string.
Variable w : Oracle.

(** The promise of compressFile never rejects: every error is caught and
    turned into [null]. *)
Lemma compressFile_always_resolves (filePath : Path) (mimetype : string)
    (originalSize : Z) (userId fileId : string)
    (options : CompressionOptions) (existingFolderPath : option string)
    (d : Disk) :
  ∃ r, snd (Compression.compressFile env uploadDir w filePath mimetype
              originalSize userId fileId options existingFolderPath d)
       = Resolved r.
Proof.
  unfold Compression.compressFile.
  repeat case_match; simpl; eauto.
Qed.

(** A thrown error inside compressImage becomes a [null] result. *)
Lemma compressFile_image_error (filePath : Path) (mimetype : string)
    (originalSize : Z) (userId fileId folderPath : string)
    (options : CompressionOptions) (d d' : Disk) (e : Error) :
  ENABLE_FILE_COMPRESSION env = true ->
  Eligibility.shouldCompressFile env mimetype originalSize options = true ->
  Eligibility.isImageType mimetype = true ->
  JsString.truthy folderPath = true ->
  Compression.compressImage w filePath folderPath userId fileId originalSize
    options d = (d', inl e) ->
  Compression.compressFile env uploadDir w filePath mimetype originalSize
    userId fileId options (Some folderPath) d = (d', Resolved None).
Proof.
  intros He Hs Hi Ht Hrun. unfold Compression.compressFile.
  rewrite He, Hs, Hi, Ht. simpl. by rewrite Hrun.
Qed.

(** With a [null] result the completion callback is not called: the
    task changes the disk at most, no record. *)
Lemma backgroundCompression_null_result (filePath : Path)
    (mimetype : string) (size : Z) (uploadedBy _id : string)
    (folderInfo : option FolderInfo) (st : State) (d' : Disk) :
  Compression.compressFile env uploadDir w filePath mimetype size uploadedBy
    _id (Files.uploadOptions env) (fiFolderPath <$> folderInfo) (disk st)
  = (d', Resolved None) ->
  Files.backgroundCompression env uploadDir w filePath mimetype size
    uploadedBy _id folderInfo st
  = mkState (db st) d'.
Proof.
  intros Hrun.
  unfold Files.backgroundCompression, Compression.compressFileAsync.
  by rewrite Hrun.
Qed.

(** With a result, the callback marks the record completed. *)
Lemma backgroundCompression_result (filePath : Path)
    (mimetype : string) (size : Z) (uploadedBy _id : string)
    (folderInfo : option FolderInfo) (st : State) (d' : Disk)
    (r : CompressionResult) (file : FileRecord) :
  Compression.compressFile env uploadDir w filePath mimetype size uploadedBy
    _id (Files.uploadOptions env) (fiFolderPath <$> folderInfo) (disk st)
  = (d', Resolved (Some r)) ->
  db st !! _id = Some file ->
  ∃ file',
    db (Files.backgroundCompression env uploadDir w filePath mimetype size
          uploadedBy _id folderInfo st) !! _id = Some file'
    /\ compressionStatus (compressionInfo file') = completed
    /\ compressed (compressionInfo file') = true
    /\ ciCompressionType (compressionInfo file') = Some (compressionType r).
Proof.
  intros Hrun Hfile.
  unfold Files.backgroundCompression, Compression.compressFileAsync.
  rewrite Hrun. simpl. unfold Files.updateCompressionInfo. simpl.
  rewrite lookup_alter_eq, Hfile. simpl. eauto.
Qed.

(** The task of one record leaves the status of every record as it was,
    or moves the record it belongs to to completed. *)
Lemma backgroundCompression_status (filePath : Path)
    (mimetype : string) (size : Z) (uploadedBy _id : string)
    (folderInfo : option FolderInfo) (st : State) (id : string)
    (file : FileRecord) :
  db st !! id = Some file ->
  ∃ file',
    db (Files.backgroundCompression env uploadDir w filePath mimetype size
          uploadedBy _id folderInfo st) !! id = Some file'
    /\ (compressionStatus (compressionInfo file')
        = compressionStatus (compressionInfo file)
        \/ id = _id
           /\ compressionStatus (compressionInfo file') = completed).
Proof.
  intros Hfile.
  unfold Files.backgroundCompression, Compression.compressFileAsync.
  destruct (compressFile_always_resolves filePath mimetype size uploadedBy
              _id (Files.uploadOptions env) (fiFolderPath <$> folderInfo)
              (disk st)) as [r Hr].
  destruct (Compression.compressFile _ _ _ _ _ _ _ _ _ _ _) as [d' s].
  simpl in Hr. subst s. destruct r as [r|]; simpl.
  - unfold Files.updateCompressionInfo. simpl.
    destruct (decide (id = _id)) as [->|Hne].
    + rewrite lookup_alter_eq, Hfile. simpl. eauto.
    + rewrite lookup_alter_ne by done. eauto.
  - eauto.
Qed.

(** What the upload caller gets, and the state it sees, do not depend on
    the codec, the disk writes or any other part of the outside world
    that only the detached task consults. *)
Lemma createFile_response_ignores_background (w' : Oracle)
    (fileData : FileInput) (enableCompression : bool)
    (folderInfo : option FolderInfo) (st : State) :
  newObjectId w' = newObjectId w ->
  fst (Files.createFile env uploadDir w' fileData enableCompression
         folderInfo st)
  = fst (Files.createFile env uploadDir w fileData enableCompression
           folderInfo st).
Proof.
  intros Hid. unfold Files.createFile. rewrite Hid.
  repeat case_match; simplify_eq; reflexivity.
Qed.

End Background.

Section Dispatch.
Variable env : Env.
Variable uploadDir : string.
Variable w : Oracle.

Lemma statusOf_updateCompressionInfo (st : State) (id : string)
    (ci : CompressionInfo) (file : FileRecord) :
  db st !! id = Some file ->
  Files.statusOf (Files.updateCompressionInfo id ci st) id
  = Some (compressionStatus ci).
Proof.
  intros Hfile. unfold Files.statusOf, Files.updateCompressionInfo. simpl.
  by rewrite lookup_alter_eq, Hfile.
Qed.

(** When createFile starts the detached task, the record it has just
    saved is in processing, the upload was eligible, and the task is the
    compression of the stored file with createFile's callback. *)
Lemma createFile_dispatch (fileData : FileInput) (enableCompression : bool)
    (folderInfo : option FolderInfo) (st st1 : State)
    (response : Error + option FileRecord) (task : Task) :
  Files.createFile env uploadDir w fileData enableCompression folderInfo st
  = (st1, response, Some task) ->
  Files.statusOf st1 (newObjectId w) = Some processing
  /\ Eligibility.shouldCompressFile env (fiMimetype fileData)
       (fiSize fileData) (Files.uploadOptions env) = true
  /\ ∃ filePath,
       task = Files.backgroundCompression env uploadDir w filePath
                (fiMimetype fileData) (fiSize fileData)
                (fiUploadedBy fileData) (newObjectId w) folderInfo.
Proof.
  unfold Files.createFile, Files.FileSchema_parse.
  destruct (_ && _); [|discriminate]. simpl.
  destruct folderInfo as [fi|]; simpl.
  - destruct (Fs.rename _ _ _) as [d'|]; [|discriminate]. simpl.
    destruct (enableCompression && _); [|discriminate].
    destruct (Eligibility.shouldCompressFile _ _ _ _) eqn:Es; [|discriminate].
    intros [= <- _ <-]. split; [|split; [done|eauto]].
    eapply statusOf_updateCompressionInfo. simpl.
    by rewrite lookup_alter_eq, lookup_insert_eq.
  - destruct (enableCompression && _); [|discriminate].
    destruct (Eligibility.shouldCompressFile _ _ _ _) eqn:Es; [|discriminate].
    intros [= <- _ <-]. split; [|split; [done|eauto]].
    eapply statusOf_updateCompressionInfo. simpl.
    by rewrite lookup_insert_eq.
Qed.

(** An upload that is not eligible (compression being enabled) goes
    straight to not_needed and starts no task. *)
Lemma createFile_not_eligible (fileData : FileInput)
    (folderInfo : option FolderInfo) (st st1 : State)
    (response : option FileRecord) (task : option Task) :
  ENABLE_FILE_COMPRESSION env = true ->
  Eligibility.shouldCompressFile env (fiMimetype fileData)
    (fiSize fileData) (Files.uploadOptions env) = false ->
  Files.createFile env uploadDir w fileData true folderInfo st
  = (st1, inr response, task) ->
  task = None /\ Files.statusOf st1 (newObjectId w) = Some not_needed.
Proof.
  intros He Hs. unfold Files.createFile, Files.FileSchema_parse.
  destruct (_ && _); [|discriminate]. simpl. rewrite He, Hs. simpl.
  destruct folderInfo as [fi|]; simpl.
  - destruct (Fs.rename _ _ _) as [d'|]; [|discriminate]. simpl.
    intros [= <- _ <-]. split; [done|].
    eapply statusOf_updateCompressionInfo. simpl.
    by rewrite lookup_alter_eq, lookup_insert_eq.
  - intros [= <- _ <-]. split; [done|].
    eapply statusOf_updateCompressionInfo. simpl.
    by rewrite lookup_insert_eq.
Qed.

(** The defect in general: whenever the compression of a dispatched
    upload ends with a [null] result, the task leaves the record in
    processing. *)
Lemma dispatched_null_result_stays_processing (fileData : FileInput)
    (enableCompression : bool) (folderInfo : option FolderInfo)
    (st st1 : State) (response : Error + option FileRecord) (task : Task) :
  Files.createFile env uploadDir w fileData enableCompression folderInfo st
  = (st1, response, Some task) ->
  ∃ filePath,
    ∀ d',
      Compression.compressFile env uploadDir w filePath (fiMimetype fileData)
        (fiSize fileData) (fiUploadedBy fileData) (newObjectId w)
        (Files.uploadOptions env) (fiFolderPath <$> folderInfo) (disk st1)
      = (d', Resolved None) ->
      Files.statusOf (task st1) (newObjectId w) = Some processing.
Proof.
  intros Hrun.
  destruct (createFile_dispatch _ _ _ _ _ _ _ Hrun)
    as (Hproc & _ & filePath & ->).
  exists filePath. intros d' Hnull.
  rewrite (backgroundCompression_null_result env uploadDir w _ _ _ _ _ _ _ _
             Hnull).
  exact Hproc.
Qed.

End Dispatch.

(** fixStuckPdfFiles moves records from processing to not_needed and
    touches no other status. *)
Lemma fixStuckPdfFiles_status (st : State) (id : string) (file : FileRecord) :
  db st !! id = Some file ->
  ∃ file',
    db (fst (Files.fixStuckPdfFiles st)) !! id = Some file'
    /\ (compressionStatus (compressionInfo file')
        = compressionStatus (compressionInfo file)
        \/ compressionStatus (compressionInfo file) = processing
           /\ compressionStatus (compressionInfo file') = not_needed).
Proof.
  unfold Files.fixStuckPdfFiles.
  set (stuck := filter _ _). intros Hfile.
  assert (id ∈ stuck.*1 ->
          compressionStatus (compressionInfo file) = processing) as Hproc.
  { intros ([k f] & -> & [Hp Hin]%list_elem_of_filter)%list_elem_of_fmap.
    simpl in *. apply elem_of_map_to_list in Hin.
    assert (f = file) as -> by congruence.
    unfold Files.isStuckPdf in Hp. apply andb_true_iff in Hp as [_ Hp].
    by apply bool_decide_eq_true in Hp. }
  assert (∃ file0, db st !! id = Some file0
            /\ (compressionStatus (compressionInfo file0)
                = compressionStatus (compressionInfo file)
                \/ compressionStatus (compressionInfo file) = processing
                   /\ compressionStatus (compressionInfo file0) = not_needed))
    as Hinv by eauto.
  clear Hfile. clearbody stuck.
  generalize 0%nat as n. revert st Hinv.
  induction stuck as [|[k f] rest IH]; intros st Hinv n; simpl.
  - exact Hinv.
  - apply IH.
    + intros Hin. apply Hproc. rewrite fmap_cons. apply elem_of_cons. by right.
    + destruct Hinv as (file0 & Hf0 & Hstat).
      unfold Files.updateCompressionInfo. simpl.
      destruct (decide (id = k)) as [->|Hne].
      * rewrite lookup_alter_eq, Hf0. simpl. eexists. split; [done|]. simpl.
        right. split; [|done]. apply Hproc.
        rewrite fmap_cons. apply elem_of_cons. by left.
      * rewrite lookup_alter_ne by done. eauto.
Qed.

(** fixStuckPdfFiles leaves every record that is not a PDF as it is. *)
Lemma fixStuckPdfFiles_skips_non_pdf (st : State) (id : string)
    (file : FileRecord) :
  db st !! id = Some file ->
  mimetype file ≠ "application/pdf" ->
  db (fst (Files.fixStuckPdfFiles st)) !! id = Some file.
Proof.
  intros Hfile Hmime. unfold Files.fixStuckPdfFiles.
  set (stuck := filter _ _).
  assert (id ∉ stuck.*1) as Hout.
  { intros ([k f] & -> & [Hp Hin]%list_elem_of_filter)%list_elem_of_fmap.
    simpl in *. apply elem_of_map_to_list in Hin.
    assert (f = file) as -> by congruence.
    unfold Files.isStuckPdf in Hp. apply andb_true_iff in Hp as [Hp _].
    by apply String.eqb_eq in Hp. }
  clearbody stuck. rewrite <- Hfile. clear Hfile.
  generalize 0%nat as n. revert st.
  induction stuck as [|[k f] rest IH]; intros st n; simpl; [done|].
  rewrite fmap_cons in Hout. apply not_elem_of_cons in Hout as [Hne Hout].
  rewrite IH by done. simpl. by apply lookup_alter_ne.
Qed.

(** A dispatched upload is never a PDF, so fixStuckPdfFiles cannot reach
    its record while the task is pending. *)
Lemma dispatched_upload_is_not_pdf (env : Env) (uploadDir : string)
    (w : Oracle) (fileData : FileInput) (enableCompression : bool)
    (folderInfo : option FolderInfo) (st st1 : State)
    (response : Error + option FileRecord) (task : Task) :
  Files.createFile env uploadDir w fileData enableCompression folderInfo st
  = (st1, response, Some task) ->
  fiMimetype fileData ≠ "application/pdf".
Proof.
  intros Hrun Hpdf.
  destruct (createFile_dispatch _ _ _ _ _ _ _ _ _ _ Hrun) as (_ & Hs & _).
  rewrite Hpdf in Hs. unfold Eligibility.shouldCompressFile in Hs.
  rewrite pdf_is_not_image, pdf_is_not_text, !andb_false_r in Hs.
  destruct (_ <? _)%Z; [discriminate|].
  destruct (_ && _); discriminate.
Qed.

(** An upload that compresses: the caller sees processing, and after the
    detached task the record is completed with the WebP derivative as
    primary. *)
Example upload_photo_completes :
  let run := Files.uploadThenBackground defaultEnv Sample.uploadDir Sample.calm
               Sample.photo true (Some Sample.photoFolder)
               Sample.afterUploadParse in
  (∃ file, snd run = inr (Some file)
           /\ compressionStatus (compressionInfo file) = processing)
  /\ Files.statusOf (fst run) "65a1" = Some completed
  /\ (ciCompressionType ∘ compressionInfo) <$> db (fst run) !! "65a1"
     = Some (Some webp).
Proof.
  split; [eexists; split; vm_compute; reflexivity|].
  split; vm_compute; reflexivity.
Qed.

(** C6 (the code departs from it).  An image upload whose transcode throws:
    compressImage fails, compressFile turns the error into [null], and
    compressFileAsync then skips the completion callback.  The upload
    caller gets the record and no error, but the record is left in
    processing: no terminal status is ever written, although the callback
    itself, given [null], would have written not_needed. *)
Theorem failed_compression_skips_completion_callback :
  let env := defaultEnv in
  let w := Sample.brokenCodec in
  let run := Files.uploadThenBackground env Sample.uploadDir w Sample.photo
               true (Some Sample.photoFolder) Sample.afterUploadParse in
  (∃ d e, Compression.compressImage w (Sample.folder, "u1_65a1.jpg")
            Sample.folder "u1" "65a1" 2000000 (Files.uploadOptions env)
            d = (d, inl e))
  /\ (∀ d, snd (Compression.compressFile env Sample.uploadDir w
                  (Sample.folder, "u1_65a1.jpg") "image/jpeg" 2000000 "u1"
                  "65a1" (Files.uploadOptions env) (Some Sample.folder) d)
           = Resolved None)
  /\ (∃ file, snd run = inr (Some file))
  /\ Files.statusOf (fst run) "65a1" = Some processing
  /\ Files.statusOf
       (Files.onComplete "65a1" 2000000 (Some Sample.photoFolder) None (fst run))
       "65a1" = Some not_needed.
Proof.
  intros env w run. split; [|split; [|split; [|split]]].
  - exists Sample.photoDisk. eexists. reflexivity.
  - intros d. reflexivity.
  - eexists. vm_compute. reflexivity.
  - vm_compute. reflexivity.
  - vm_compute. reflexivity.
Qed.

(** C5 (the code departs from it).  An image upload whose derivative
    writes are refused: the status is processing once createFile has
    dispatched the task, and it is still processing after the task has
    run to its end.  The terminal value is set zero times, not once. *)
Theorem dispatched_status_stays_processing_on_failure :
  ∃ (st1 : State) (response : Error + option FileRecord) (task : Task),
    Files.createFile defaultEnv Sample.uploadDir Sample.fullDisk Sample.photo
      true (Some Sample.photoFolder) Sample.afterUploadParse
    = (st1, response, Some task)
    /\ Files.statusOf st1 "65a1" = Some processing
    /\ Files.statusOf (task st1) "65a1" = Some processing
    /\ (terminal <$> Files.statusOf (task st1) "65a1") = Some false.
Proof.
  eexists _, _, _. split; [reflexivity|].
  split; [|split]; vm_compute; reflexivity.
Qed.

(* ===================================================================== *)
(** * Further properties of the services *)
(* ===================================================================== *)

(** ** URLs and single-record reads *)

Section ReadProperties.
Variable BASE_URL : string.

(** X1. addFileUrl hands out a URL exactly where the policy allows it:
    the serve URL iff the requester may access the file, the download URL
    iff the requester may download it, and each derivative URL iff the
    requester may access the file and the record is marked compressed.
    The two flags of the answer are the two policy decisions. *)
Theorem addFileUrl_urls_iff_access
    (id : string) (file : FileRecord) (userId : string)
    (userRole : option string) :
  let answer := Reads.addFileUrl BASE_URL id file userId userRole in
  fwCanAccess answer = Access.canAccessFile file userId userRole
  /\ fwCanDownload answer = Access.canDownloadFile file userId userRole
  /\ (is_Some (fwFileUrl answer) <-> fwCanAccess answer = true)
  /\ (is_Some (fwDownloadUrl answer) <-> fwCanDownload answer = true)
  /\ (is_Some (fwPngUrl answer)
      <-> fwCanAccess answer = true
          /\ compressed (compressionInfo file) = true)
  /\ (is_Some (fwWebpUrl answer)
      <-> fwCanAccess answer = true
          /\ compressed (compressionInfo file) = true).
Proof.
  unfold Reads.addFileUrl. simpl.
  destruct (Access.canAccessFile file userId userRole),
           (Access.canDownloadFile file userId userRole),
           (compressed (compressionInfo file)); simpl;
    repeat case_match;
    repeat split; intros; try done; try (by eexists);
    try (by destruct H as [? ?]); try (by destruct H); try tauto.
Qed.

(** The text of a compression type in a URL. *)
Lemma addFileUrl_default_url (id : string) (file : FileRecord)
    (userId : string) (userRole : option string) :
  Access.canAccessFile file userId userRole = true ->
  fwFileUrl (Reads.addFileUrl BASE_URL id file userId userRole)
  = Some (BASE_URL ++ "/api/v1/files/" ++ id
          ++ (if compressed (compressionInfo file)
              then match ciCompressionType (compressionInfo file) with
                   | Some webp => "/compressed/webp"
                   | Some png => "/compressed/png"
                   | _ => "/serve"
                   end
              else "/serve")).
Proof.
  intros Hacc. unfold Reads.addFileUrl. simpl. rewrite Hacc.
  destruct (compressed (compressionInfo file)); simpl; [|done].
  destruct (ciCompressionType (compressionInfo file)) as [[]|]; done.
Qed.


End ReadProperties.

(** ** createFile: validation, storage layout, first status *)

Section CreateFileProperties.
Variable env : Env.
Variable uploadDir : string.
Variable w : Oracle.

Lemma truthy_false (s : string) : JsString.truthy s = false <-> s = EmptyString.
Proof. destruct s; simpl; split; congruence. Qed.

Lemma truthy_app_false (a b : string) :
  JsString.truthy (a ++ b) = false <-> a = EmptyString /\ b = EmptyString.
Proof.
  destruct a, b; simpl; split; try done; by intros [? ?].
Qed.

(** X3. For input whose optional fields are well formed, createFile
    rejects the input with the schema's error, stores nothing and starts
    nothing, exactly when a required text field is empty or the size is
    not positive. *)
Theorem createFile_rejects_invalid_input
    (fileData : FileInput) (enableCompression : bool)
    (folderInfo : option FolderInfo) (st : State) :
  Files.createFile env uploadDir w fileData enableCompression folderInfo st
  = (st, inl ZodError, None)
  <-> fiOriginalName fileData = EmptyString
      \/ fiFilename fileData = EmptyString
      \/ fiMimetype fileData = EmptyString
      \/ fiSize fileData <= 0
      \/ (fst (fiPath fileData) = EmptyString
          /\ snd (fiPath fileData) = EmptyString)
      \/ fiUploadedBy fileData = EmptyString.
Proof.
  unfold Files.createFile, Files.FileSchema_parse.
  destruct (_ && _) eqn:Hvalid.
  - split.
    + simpl. repeat case_match; intros; simplify_eq.
    + apply andb_true_iff in Hvalid as [Hvalid Hby].
      apply andb_true_iff in Hvalid as [Hvalid Hpath].
      apply andb_true_iff in Hvalid as [Hvalid Hsize].
      apply andb_true_iff in Hvalid as [Hvalid Hmime].
      apply andb_true_iff in Hvalid as [Hname Hfile].
      apply Z.ltb_lt in Hsize.
      intros [Hbad|[Hbad|[Hbad|[Hbad|[[Hp Hq]|Hbad]]]]];
        try (rewrite Hbad in *; done); try lia.
      rewrite Hp, Hq in Hpath. done.
  - split; [intros _|done].
    repeat (apply andb_false_iff in Hvalid as [Hvalid|Hvalid]).
    + apply truthy_false in Hvalid. auto.
    + apply truthy_false in Hvalid. auto.
    + apply truthy_false in Hvalid. auto.
    + apply Z.ltb_ge in Hvalid. auto.
    + apply truthy_app_false in Hvalid. auto 10.
    + apply truthy_false in Hvalid. auto 10.
Qed.

(** Valid input is copied as it is, with [isPublic] defaulted. *)
Lemma FileSchema_parse_Some (fileData validatedData : FileInput) :
  Files.FileSchema_parse fileData = Some validatedData ->
  fiOriginalName validatedData = fiOriginalName fileData
  /\ fiFilename validatedData = fiFilename fileData
  /\ fiMimetype validatedData = fiMimetype fileData
  /\ fiSize validatedData = fiSize fileData
  /\ fiPath validatedData = fiPath fileData
  /\ fiUploadedBy validatedData = fiUploadedBy fileData
  /\ fiIsPublic validatedData = Some (default false (fiIsPublic fileData))
  /\ fiExpiresAt validatedData = fiExpiresAt fileData
  /\ 0 < fiSize fileData.
Proof.
  unfold Files.FileSchema_parse.
  destruct (_ && _) eqn:Hvalid; [|done]. intros [= <-]. simpl.
  apply andb_true_iff in Hvalid as [Hvalid _].
  apply andb_true_iff in Hvalid as [Hvalid _].
  apply andb_true_iff in Hvalid as [_ Hsize].
  apply Z.ltb_lt in Hsize. done.
Qed.

(** What createFile leaves behind when it succeeds on an upload that came
    with folder info. *)
Lemma createFile_layout
    (fileData : FileInput) (enableCompression : bool) (fi : FolderInfo)
    (st st1 : State) (response : option FileRecord) (task : option Task) :
  Files.createFile env uploadDir w fileData enableCompression (Some fi) st
  = (st1, inr response, task) ->
  let _id := newObjectId w in
  let newFilename :=
    fiUserId fi ++ "_" ++ _id ++ Files.extname (fiFilename fileData) in
  let newPath := path_join (fiFolderPath fi) newFilename in
  let enabled := enableCompression && ENABLE_FILE_COMPRESSION env in
  let eligible :=
    Eligibility.shouldCompressFile env (fiMimetype fileData)
      (fiSize fileData) (Files.uploadOptions env) in
  (∃ file, db st1 !! _id = Some file /\ response = Some file
           /\ filename file = newFilename /\ path file = newPath
           /\ originalName file = fiOriginalName fileData
           /\ mimetype file = fiMimetype fileData
           /\ size file = fiSize fileData
           /\ uploadedBy file = fiUploadedBy fileData
           /\ isPublic file = default false (fiIsPublic fileData)
           /\ expiresAt file = fiExpiresAt fileData
           /\ compressed (compressionInfo file) = false
           /\ ciFolderId (compressionInfo file)
              = (if enabled && negb eligible then Some (fiFolderId fi)
                 else None))
  /\ fiPath fileData ∈ files (disk st)
  /\ disk st1 = mkDisk ({[ newPath ]} ∪ files (disk st) ∖ {[ fiPath fileData ]})
                  (dirs (disk st))
  /\ (∀ id, id ≠ _id -> db st1 !! id = db st !! id).
Proof.
  intros Hrun _id newFilename newPath enabled eligible.
  unfold Files.createFile in Hrun.
  destruct (Files.FileSchema_parse fileData) as [v|] eqn:Hparse; [|done].
  apply FileSchema_parse_Some in Hparse
    as (Hn & Hf & Hm & Hs & Hp & Hu & Hpub & He & _).
  rewrite Hn, Hf, Hm, Hs, Hp, Hu, Hpub, He in Hrun. simpl in Hrun.
  fold _id newFilename newPath enabled eligible in Hrun.
  unfold Fs.rename in Hrun.
  destruct (Fs.access (disk st) (fiPath fileData)) eqn:Hacc; [|done].
  apply bool_decide_eq_true in Hacc. simpl in Hrun.
  destruct enabled; [destruct eligible|]; simpl in *;
    injection Hrun as <- <- <-; simpl.
  all: split; [|split; [done|split; [done|]]].
  all: try (intros id Hne;
            by rewrite ?lookup_alter_ne, lookup_insert_ne by done).
  all: unfold Files.findById, Files.updateCompressionInfo, Files.setDb;
    simpl; rewrite ?lookup_alter_eq, ?lookup_insert_eq; simpl;
    eexists; repeat split; done.
Qed.



(** X6. The first status.  After a createFile that succeeds, a detached
    task exists exactly when compression is enabled (by the caller and by
    the environment) and the upload is eligible; the record is in
    not_needed exactly when compression is enabled and the upload is not
    eligible, and in processing otherwise: also when compression is
    switched off and no task will ever run. *)
Theorem createFile_first_status
    (fileData : FileInput) (enableCompression : bool)
    (folderInfo : option FolderInfo) (st st1 : State)
    (response : option FileRecord) (task : option Task) :
  Files.createFile env uploadDir w fileData enableCompression folderInfo st
  = (st1, inr response, task) ->
  let enabled := enableCompression && ENABLE_FILE_COMPRESSION env in
  let eligible :=
    Eligibility.shouldCompressFile env (fiMimetype fileData)
      (fiSize fileData) (Files.uploadOptions env) in
  (is_Some task <-> enabled && eligible = true)
  /\ Files.statusOf st1 (newObjectId w)
     = Some (if enabled && negb eligible then not_needed else processing)
  /\ response = db st1 !! newObjectId w.
Proof.
  intros Hrun enabled eligible.
  unfold Files.createFile in Hrun.
  destruct (Files.FileSchema_parse fileData) as [v|] eqn:Hparse; [|done].
  apply FileSchema_parse_Some in Hparse
    as (Hn & Hf & Hm & Hs & Hp & Hu & Hpub & He & _).
  rewrite Hm, Hs in Hrun. simpl in Hrun.
  fold enabled eligible in Hrun.
  destruct folderInfo as [fi|]; simpl in Hrun.
  - destruct (Fs.rename _ _ _) as [d'|]; [|done]. simpl in Hrun.
    destruct enabled; [destruct eligible|]; simpl in *;
      injection Hrun as <- <- <-.
    + split; [split; [done|by eexists]|]. split; [|done].
      erewrite statusOf_updateCompressionInfo; [done|].
      simpl. by rewrite lookup_alter_eq, lookup_insert_eq.
    + split; [split; [by intros [? ?]|done]|]. split; [|done].
      erewrite statusOf_updateCompressionInfo; [done|].
      simpl. by rewrite lookup_alter_eq, lookup_insert_eq.
    + split; [split; [by intros [? ?]|done]|]. split; [|done].
      unfold Files.statusOf. simpl.
      by rewrite lookup_alter_eq, lookup_insert_eq.
  - destruct enabled; [destruct eligible|]; simpl in *;
      injection Hrun as <- <- <-.
    + split; [split; [done|by eexists]|]. split; [|done].
      erewrite statusOf_updateCompressionInfo; [done|].
      simpl. by rewrite lookup_insert_eq.
    + split; [split; [by intros [? ?]|done]|]. split; [|done].
      erewrite statusOf_updateCompressionInfo; [done|].
      simpl. by rewrite lookup_insert_eq.
    + split; [split; [by intros [? ?]|done]|]. split; [|done].
      unfold Files.statusOf. simpl. by rewrite lookup_insert_eq.
Qed.

End CreateFileProperties.

(** *** The sample uploads: storage and first status *)

Lemma outcome_answered (run : Cases.Outcome) :
  Cases.answered run = true ->
  run = (Cases.stateOf run, inr (Cases.responseOf run), snd run).
Proof. by destruct run as [[st [e|r]] t]. Qed.

Lemma outcome_dispatched (run : Cases.Outcome) :
  Cases.answered run = true ->
  Cases.dispatched run = true ->
  run = (Cases.stateOf run, inr (Cases.responseOf run),
         Some (Cases.taskOf run)).
Proof. by destruct run as [[st [e|r]] [t|]]. Qed.



Lemma createFile_first_status_witness :
  Cases.dispatched Cases.photoRun = true
  /\ Files.statusOf (Cases.stateOf Cases.photoRun) "65a1" = Some processing
  /\ Cases.dispatched Cases.reportRun = false
  /\ Files.statusOf (Cases.stateOf Cases.reportRun) "65a1" = Some not_needed.
Proof.
  destruct (createFile_first_status defaultEnv Sample.uploadDir Sample.calm
              Sample.photo true (Some Sample.photoFolder)
              Sample.afterUploadParse (Cases.stateOf Cases.photoRun)
              (Cases.responseOf Cases.photoRun) (snd Cases.photoRun))
    as (Htask & Hstatus & _).
  { apply (outcome_answered Cases.photoRun). vm_compute. reflexivity. }
  destruct (createFile_first_status defaultEnv Sample.uploadDir Sample.calm
              Cases.report true (Some Sample.photoFolder)
              Cases.afterReportParse (Cases.stateOf Cases.reportRun)
              (Cases.responseOf Cases.reportRun) (snd Cases.reportRun))
    as (Htask' & Hstatus' & _).
  { apply (outcome_answered Cases.reportRun). vm_compute. reflexivity. }
  split.
  { unfold Cases.dispatched.
    destruct (proj2 Htask ltac:(vm_compute; reflexivity)) as [t ->].
    reflexivity. }
  split; [exact Hstatus|]. split; [|exact Hstatus'].
  unfold Cases.dispatched. destruct (snd Cases.reportRun) eqn:Hsnd; [|done].
  assert (is_Some (Some t)) as Hsome%Htask' by by eexists.
  vm_compute in Hsome. discriminate Hsome.
Defined.

(** ** From dispatch to the completed record *)

Section CompletionProperties.
Variable env : Env.
Variable uploadDir : string.
Variable w : Oracle.
Variable BASE_URL : string.

(** The detached task createFile starts works on the stored record: its
    path, type, size and uploader. *)
Lemma createFile_task_shape (fileData : FileInput) (enableCompression : bool)
    (folderInfo : option FolderInfo) (st st1 : State)
    (response : Error + option FileRecord) (task : Task) :
  Files.createFile env uploadDir w fileData enableCompression folderInfo st
  = (st1, response, Some task) ->
  ∃ file,
    db st1 !! newObjectId w = Some file
    /\ mimetype file = fiMimetype fileData
    /\ ciFolderId (compressionInfo file) = None
    /\ compressed (compressionInfo file) = false
    /\ task = Files.backgroundCompression env uploadDir w (path file)
                (mimetype file) (size file) (uploadedBy file)
                (newObjectId w) folderInfo.
Proof.
  unfold Files.createFile.
  destruct (Files.FileSchema_parse fileData) as [v|] eqn:Hparse; [|done].
  apply FileSchema_parse_Some in Hparse
    as (Hn & Hf & Hm & Hs & Hp & Hu & Hpub & He & _).
  simpl. destruct folderInfo as [fi|]; simpl.
  - destruct (Fs.rename _ _ _) as [d'|]; [|done]. simpl.
    destruct (enableCompression && _); [|done].
    destruct (Eligibility.shouldCompressFile _ _ _ _); [|done].
    intros [= <- _ <-]. eexists. split.
    + simpl. by rewrite lookup_alter_eq, lookup_alter_eq, lookup_insert_eq.
    + simpl. done.
  - destruct (enableCompression && _); [|done].
    destruct (Eligibility.shouldCompressFile _ _ _ _); [|done].
    intros [= <- _ <-]. eexists. split.
    + simpl. by rewrite lookup_alter_eq, lookup_insert_eq.
    + simpl. done.
Qed.

(** chooseBest names one of the two derivatives. *)
Lemma chooseBest_type (p q o : Z) :
  let ty := fst (fst (fst (Compression.chooseBest p q o))) in
  ty = webp \/ ty = png.
Proof.
  unfold Compression.chooseBest.
  destruct (_ && _); [simpl; auto|].
  destruct (Compression.Qltb _ (95 # 100)); [simpl; auto|].
  destruct (Compression.Qltb _ _); simpl; auto.
Qed.

(** The result compressFile resolves with for an image. *)
Lemma compressFile_image_result (filePath : Path) (mimetype : string)
    (originalSize : Z) (userId fileId : string) (options : CompressionOptions)
    (existingFolderPath : option string) (d d' : Disk)
    (r : CompressionResult) :
  Eligibility.isImageType mimetype = true ->
  Compression.compressFile env uploadDir w filePath mimetype originalSize
    userId fileId options existingFolderPath d = (d', Resolved (Some r)) ->
  (compressionType r = webp \/ compressionType r = png)
  /\ ∃ folderPath d1,
       Compression.compressImage w filePath folderPath userId fileId
         originalSize options d1 = (d', inr r)
       /\ folderId r = Compression.basename folderPath
       /\ (∀ p, existingFolderPath = Some p -> JsString.truthy p = true ->
                folderPath = p /\ d1 = d).
Proof.
  intros Himg. unfold Compression.compressFile. rewrite Himg.
  destruct (negb (ENABLE_FILE_COMPRESSION env)); [done|].
  destruct (negb (Eligibility.shouldCompressFile _ _ _ _)); [done|].
  set (choice := match existingFolderPath with Some _ => _ | None => _ end).
  assert (∀ p, existingFolderPath = Some p -> JsString.truthy p = true ->
               choice = (p, d)) as Hchoice.
  { intros p -> Hp. unfold choice. by rewrite Hp. }
  destruct choice as [folderPath d1].
  destruct (Compression.compressImage _ _ _ _ _ _ _ _) as [d2 [e|res]] eqn:Hrun;
    [done|].
  intros [= <- <-]. split.
  - pose proof Hrun as Hrun'.
    apply compressImage_success in Hrun' as (_ & _ & _ & p & q & _ & Hsel).
    pose proof (chooseBest_type p q originalSize) as Hty.
    rewrite <- Hsel in Hty. exact Hty.
  - exists folderPath, d1. split; [done|]. split.
    + unfold Compression.compressImage in Hrun.
      repeat case_match; simplify_eq; reflexivity.
    + intros p Hp Ht. specialize (Hchoice p Hp Ht). by simplify_eq.
Qed.

(** The record of a dispatched upload after a task that got a result. *)
Lemma task_completes_record
    (fileData : FileInput) (enableCompression : bool)
    (folderInfo : option FolderInfo) (st st1 : State)
    (response : Error + option FileRecord) (task : Task)
    (file : FileRecord) (d' : Disk) (r : CompressionResult) :
  Files.createFile env uploadDir w fileData enableCompression folderInfo st
  = (st1, response, Some task) ->
  db st1 !! newObjectId w = Some file ->
  Compression.compressFile env uploadDir w (path file) (mimetype file)
    (size file) (uploadedBy file) (newObjectId w) (Files.uploadOptions env)
    (fiFolderPath <$> folderInfo) (disk st1) = (d', Resolved (Some r)) ->
  task st1
  = mkState
      (alter (Files.setCompressionInfo
                {| compressed := true;
                   ciOriginalSize := originalSize r;
                   ciCompressedSize := Some (compressedSize r);
                   ciSavingsPercentage := Some (savingsPercentage r);
                   ciCompressionType := Some (compressionType r);
                   ciFolderId := Some (folderId r);
                   compressionStatus := completed |})
         (newObjectId w) (db st1)) d'.
Proof.
  intros Hrun Hfile Hres.
  destruct (createFile_task_shape _ _ _ _ _ _ _ Hrun)
    as (file' & Hfile' & _ & _ & _ & ->).
  assert (file' = file) as -> by congruence.
  unfold Files.backgroundCompression, Compression.compressFileAsync.
  by rewrite Hres.
Qed.

(** X7. A dispatched upload whose compression yields a result ends
    completed: once the task has run, the record carries compressed =
    true, the sizes, the savings, the primary type and the folder id of
    the result; its other fields, every other record, and the disk the
    compression left are untouched by the bookkeeping. *)
Theorem dispatched_upload_completes
    (fileData : FileInput) (enableCompression : bool)
    (folderInfo : option FolderInfo) (st st1 : State)
    (response : Error + option FileRecord) (task : Task)
    (file : FileRecord) (d' : Disk) (r : CompressionResult) :
  Files.createFile env uploadDir w fileData enableCompression folderInfo st
  = (st1, response, Some task) ->
  db st1 !! newObjectId w = Some file ->
  Compression.compressFile env uploadDir w (path file) (mimetype file)
    (size file) (uploadedBy file) (newObjectId w) (Files.uploadOptions env)
    (fiFolderPath <$> folderInfo) (disk st1) = (d', Resolved (Some r)) ->
  db (task st1)
  = <[newObjectId w :=
        Files.setCompressionInfo
          {| compressed := true;
             ciOriginalSize := originalSize r;
             ciCompressedSize := Some (compressedSize r);
             ciSavingsPercentage := Some (savingsPercentage r);
             ciCompressionType := Some (compressionType r);
             ciFolderId := Some (folderId r);
             compressionStatus := completed |} file]> (db st1)
  /\ disk (task st1) = d'
  /\ Files.statusOf st1 (newObjectId w) = Some processing
  /\ Files.statusOf (task st1) (newObjectId w) = Some completed.
Proof.
  intros Hrun Hfile Hres.
  rewrite (task_completes_record _ _ _ _ _ _ _ _ _ _ Hrun Hfile Hres). simpl.
  split; [|split; [done|split]].
  - apply map_eq. intros id.
    destruct (decide (id = newObjectId w)) as [->|Hne].
    + by rewrite lookup_alter_eq, lookup_insert_eq, Hfile.
    + by rewrite lookup_alter_ne, lookup_insert_ne.
  - by destruct (createFile_dispatch _ _ _ _ _ _ _ _ _ _ Hrun) as [Hp _].
  - unfold Files.statusOf. simpl. by rewrite lookup_alter_eq, Hfile.
Qed.

(** X8. The default URL follows the primary derivative.  For an image
    upload whose compression yields a result, the uploader (and anyone
    with access) reading the record after the task gets the serve URL of
    the derivative the result names as primary, together with the URLs of
    both derivatives. *)
Theorem completed_image_default_url
    (fileData : FileInput) (enableCompression : bool)
    (folderInfo : option FolderInfo) (st st1 : State)
    (response : Error + option FileRecord) (task : Task)
    (file : FileRecord) (d' : Disk) (r : CompressionResult)
    (userId : string) (userRole : option string) :
  Files.createFile env uploadDir w fileData enableCompression folderInfo st
  = (st1, response, Some task) ->
  db st1 !! newObjectId w = Some file ->
  Eligibility.isImageType (mimetype file) = true ->
  Compression.compressFile env uploadDir w (path file) (mimetype file)
    (size file) (uploadedBy file) (newObjectId w) (Files.uploadOptions env)
    (fiFolderPath <$> folderInfo) (disk st1) = (d', Resolved (Some r)) ->
  Access.canAccessFile file userId userRole = true ->
  ∃ answer,
    Reads.getFileById BASE_URL (task st1) (newObjectId w) userId userRole
    = inr answer
    /\ (compressionType r = webp \/ compressionType r = png)
    /\ fwFileUrl answer
       = Some (BASE_URL ++ "/api/v1/files/" ++ newObjectId w
               ++ (if decide (compressionType r = webp)
                   then "/compressed/webp" else "/compressed/png"))
    /\ fwPngUrl answer
       = Some (BASE_URL ++ "/api/v1/files/" ++ newObjectId w
               ++ "/compressed/png")
    /\ fwWebpUrl answer
       = Some (BASE_URL ++ "/api/v1/files/" ++ newObjectId w
               ++ "/compressed/webp")
    /\ compressionStatus (fwCompressionInfo answer) = completed.
Proof.
  intros Hrun Hfile Himg Hres Hacc.
  rewrite (task_completes_record _ _ _ _ _ _ _ _ _ _ Hrun Hfile Hres).
  destruct (compressFile_image_result _ _ _ _ _ _ _ _ _ _ Himg Hres)
    as [Hty _].
  unfold Reads.getFileById, Files.findById. simpl.
  rewrite lookup_alter_eq, Hfile. simpl.
  set (file' := Files.setCompressionInfo _ file).
  assert (Access.canAccessFile file' userId userRole = true) as Hacc'
    by exact Hacc.
  rewrite Hacc'. simpl. eexists. split; [reflexivity|].
  split; [exact Hty|].
  unfold Reads.addFileUrl. simpl.
  change (Access.canAccessFile file' userId userRole)
    with (Access.canAccessFile file userId userRole).
  rewrite Hacc. simpl.
  destruct Hty as [-> | ->]; simpl; done.
Qed.

End CompletionProperties.

(** *** The sample photo, once its task has run *)

Lemma dispatched_upload_completes_witness :
  Files.statusOf (Cases.stateOf Cases.photoRun) "65a1" = Some processing
  /\ Files.statusOf (Cases.taskOf Cases.photoRun (Cases.stateOf Cases.photoRun))
       "65a1" = Some completed.
Proof.
  destruct (dispatched_upload_completes defaultEnv Sample.uploadDir
              Sample.calm Sample.photo true (Some Sample.photoFolder)
              Sample.afterUploadParse (Cases.stateOf Cases.photoRun)
              (inr (Cases.responseOf Cases.photoRun))
              (Cases.taskOf Cases.photoRun)
              (Cases.recordOf (Cases.stateOf Cases.photoRun) "65a1")
              (fst (Cases.compressionOf Cases.photoRun))
              (Cases.resultOf (Cases.compressionOf Cases.photoRun)))
    as (_ & _ & Hbefore & Hafter).
  - apply (outcome_dispatched Cases.photoRun); vm_compute; reflexivity.
  - vm_compute. reflexivity.
  - vm_compute. reflexivity.
  - split; [exact Hbefore|exact Hafter].
Defined.

Lemma completed_image_default_url_witness :
  ∃ answer,
    Reads.getFileById Cases.BASE_URL
      (Cases.taskOf Cases.photoRun (Cases.stateOf Cases.photoRun))
      "65a1" "u1" None = inr answer
    /\ fwFileUrl answer
       = Some "https://files.example.org/api/v1/files/65a1/compressed/webp".
Proof.
  destruct (completed_image_default_url defaultEnv Sample.uploadDir
              Sample.calm Cases.BASE_URL Sample.photo true
              (Some Sample.photoFolder)
              Sample.afterUploadParse (Cases.stateOf Cases.photoRun)
              (inr (Cases.responseOf Cases.photoRun))
              (Cases.taskOf Cases.photoRun)
              (Cases.recordOf (Cases.stateOf Cases.photoRun) "65a1")
              (fst (Cases.compressionOf Cases.photoRun))
              (Cases.resultOf (Cases.compressionOf Cases.photoRun))
              "u1" None)
    as (answer & Hget & _ & Hurl & _).
  - apply (outcome_dispatched Cases.photoRun); vm_compute; reflexivity.
  - vm_compute. reflexivity.
  - vm_compute. reflexivity.
  - vm_compute. reflexivity.
  - vm_compute. reflexivity.
  - exists answer. split; [exact Hget|]. rewrite Hurl. vm_compute. reflexivity.
Defined.

(** ** Names and paths *)

Lemma app_cons (c : ascii) (s t : string) :
  String c s ++ t = String c (s ++ t).
Proof. reflexivity. Qed.

Lemma app_empty_l (t : string) : EmptyString ++ t = t.
Proof. reflexivity. Qed.


Lemma string_app_assoc (a b c : string) : a ++ b ++ c = (a ++ b) ++ c.
Proof.
  induction a as [|x a IH]; [reflexivity|]. by rewrite !app_cons, IH.
Qed.






Lemma includes_cons (c : ascii) (s p : string) :
  JsString.includes (String c s) p
  = String.prefix p (String c s) || JsString.includes s p.
Proof. reflexivity. Qed.

Lemma prefix_single (a c : ascii) (s : string) :
  String.prefix (String a EmptyString) (String c s) = Ascii.eqb a c.
Proof.
  cbn [String.prefix]. destruct (ascii_dec a c) as [->|Hne].
  - rewrite Ascii.eqb_refl. by destruct s.
  - symmetry. by apply Ascii.eqb_neq.
Qed.

Lemma includes_app_r (a b p : string) :
  JsString.includes b p = true -> JsString.includes (a ++ b) p = true.
Proof.
  intros Hb. induction a as [|c a IH]; [exact Hb|].
  rewrite app_cons. simpl. rewrite IH. apply orb_true_r.
Qed.

Lemma includes_dot_here (e : string) :
  JsString.includes (String "." e) "." = true.
Proof.
  rewrite includes_cons. change "."%string with (String "." EmptyString).
  by rewrite prefix_single.
Qed.




Lemma replaceExtension_app (a b ext : string) :
  JsString.includes b "." = true ->
  Routes.replaceExtension (a ++ b) ext = a ++ Routes.replaceExtension b ext.
Proof.
  intros Hb. induction a as [|c a IH]; [reflexivity|].
  rewrite !app_cons. simpl.
  rewrite (includes_app_r a b "." Hb), andb_false_r. by rewrite IH.
Qed.

Lemma replaceExtension_last (e ext : string) :
  JsString.includes e "." = false -> JsString.truthy e = true ->
  Routes.hasSlash e = false ->
  Routes.replaceExtension (String "." e) ext = ext.
Proof. intros He Ht Hs. simpl. by rewrite He, Ht, Hs. Qed.

Lemma no_dot_cons (c : ascii) (s : string) :
  JsString.includes (String c s) "." = false ->
  Ascii.eqb c "." = false /\ JsString.includes s "." = false.
Proof.
  rewrite includes_cons. intros [Hc Hs]%orb_false_iff. split; [|done].
  change "."%string with (String "." EmptyString) in Hc.
  by rewrite prefix_single, Ascii.eqb_sym in Hc.
Qed.

Lemma replaceExtension_plain (s ext : string) :
  JsString.includes s "." = false -> Routes.replaceExtension s ext = s.
Proof.
  induction s as [|c s IH]; [done|].
  intros [Hc Hs]%no_dot_cons. cbn [Routes.replaceExtension].
  by rewrite Hc, IH.
Qed.

Lemma replaceExtension_trailing_dot (s ext : string) :
  JsString.includes s "." = false ->
  Routes.replaceExtension (s ++ ".") ext = s ++ ".".
Proof.
  induction s as [|c s IH]; [done|].
  intros [Hc Hs]%no_dot_cons. rewrite app_cons.
  cbn [Routes.replaceExtension]. by rewrite Hc, IH.
Qed.

Lemma replaceExtension_meets_names (userId fileId e : string) :
  JsString.truthy e = true ->
  Routes.hasSlash e = false ->
  JsString.includes e "." = false ->
  Routes.replaceExtension (userId ++ "_" ++ fileId ++ String "." e) ".png"
  = Compression.generateFilename userId fileId "png"
  /\ Routes.replaceExtension (userId ++ "_" ++ fileId ++ String "." e) ".webp"
     = Compression.generateFilename userId fileId "webp".
Proof.
  intros Ht Hs He.
  assert (∀ ext, Routes.replaceExtension
                   (userId ++ "_" ++ fileId ++ String "." e) ext
                 = userId ++ "_" ++ fileId ++ ext) as Hrep.
  { intros ext.
    rewrite replaceExtension_app
      by (apply includes_app_r, includes_app_r, includes_dot_here).
    rewrite (replaceExtension_app "_")
      by (apply includes_app_r, includes_dot_here).
    rewrite replaceExtension_app by apply includes_dot_here.
    by rewrite replaceExtension_last. }
  split; apply Hrep.
Qed.

(** X9. The serve route of a derivative computes the name the
    compression wrote it under: replacing the extension of a stored name
    [user_id.e] (with [e] not empty and free of dots and separators) by
    [.png] gives [user_id.png], the name generateFilename builds; a name
    without an extension, or ending in a dot, is left as it is, so the
    route then looks for a file that was never written. *)
Theorem replaceExtension_meets_generateFilename
    (userId fileId e : string) :
  JsString.truthy e = true ->
  Routes.hasSlash e = false ->
  JsString.includes e "." = false ->
  Routes.replaceExtension (userId ++ "_" ++ fileId ++ String "." e) ".png"
  = Compression.generateFilename userId fileId "png"
  /\ Routes.replaceExtension (userId ++ "_" ++ fileId ++ String "." e) ".webp"
     = Compression.generateFilename userId fileId "webp"
  /\ (JsString.includes (userId ++ "_" ++ fileId) "." = false ->
      Routes.replaceExtension (userId ++ "_" ++ fileId) ".png"
      = userId ++ "_" ++ fileId
      /\ Routes.replaceExtension (userId ++ "_" ++ fileId ++ ".") ".png"
         = userId ++ "_" ++ fileId ++ ".").
Proof.
  intros Ht Hs He.
  destruct (replaceExtension_meets_names userId fileId e Ht Hs He)
    as [Hpng Hwebp].
  split; [exact Hpng|]. split; [exact Hwebp|].
  intros Hplain. split; [by apply replaceExtension_plain|].
  rewrite (string_app_assoc "_"), string_app_assoc.
  by apply replaceExtension_trailing_dot.
Qed.

(** *** The stored name of the sample photo *)

Lemma replaceExtension_meets_generateFilename_witness :
  Routes.replaceExtension "u1_65a1.jpg" ".png" = "u1_65a1.png"
  /\ Routes.replaceExtension "u1_65a1.jpg" ".webp" = "u1_65a1.webp".
Proof.
  destruct (replaceExtension_meets_generateFilename "u1" "65a1" "jpg")
    as (Hpng & Hwebp & _); [reflexivity..|].
  split; [exact Hpng|exact Hwebp].
Defined.

(** ** From an upload to the serve routes *)

Section RouteProperties.
Variable env : Env.
Variable uploadDir : string.
Variable w : Oracle.
Variable BASE_URL : string.
Variable statSize : Path → Z.

(** The uploader passes the check of every route, whatever the role. *)
Lemma uploader_reads (st : State) (fileId : string) (file : FileRecord)
    (role : option string) :
  db st !! fileId = Some file ->
  Files.validateFileAccess st fileId (uploadedBy file) (Routes.routeRole role)
  = true
  /\ Reads.validateFileDownload st fileId (uploadedBy file)
       (Routes.routeRole role) = true
  /\ Reads.getFileById BASE_URL st fileId (uploadedBy file)
       (Routes.routeRole role)
     = inr (Reads.addFileUrl BASE_URL fileId file (uploadedBy file)
              (Routes.routeRole role)).
Proof.
  intros Hfile.
  assert (∀ r, Access.canAccessFile file (uploadedBy file) r = true) as Hacc.
  { intros r. unfold Access.canAccessFile.
    destruct (isPublic file); [done|]. by rewrite String.eqb_refl. }
  unfold Files.validateFileAccess, Reads.validateFileDownload,
    Reads.getFileById, Files.findById. rewrite Hfile.
  change (Access.canDownloadFile file (uploadedBy file) (Routes.routeRole role))
    with (Access.canAccessFile file (uploadedBy file) (Routes.routeRole role)).
  by rewrite Hacc.
Qed.





(** X12. While the record is in processing (a task is pending, has
    failed, or compression was switched off), it carries no folder id, so
    the serve and download routes look in the upload directory itself;
    the bytes are in the upload's folder, and the routes answer 404 to
    the uploader. *)
Theorem serve_while_processing_misses_file
    (fileData : FileInput) (enableCompression : bool) (fi : FolderInfo)
    (st st1 : State) (response : option FileRecord) (task : option Task)
    (role : option string) :
  Files.createFile env uploadDir w fileData enableCompression (Some fi) st
  = (st1, inr response, task) ->
  Files.statusOf st1 (newObjectId w) = Some processing ->
  fiFolderPath fi ≠ uploadDir ->
  path_join uploadDir
    (fiUserId fi ++ "_" ++ newObjectId w
     ++ Files.extname (fiFilename fileData)) ∉ files (disk st) ->
  let notOnDisk :=
    Failure (APIError 404 "File Not Found" "File not found on disk") in
  Routes.serve uploadDir BASE_URL st1 (newObjectId w)
    (fiUploadedBy fileData) role = notOnDisk
  /\ Routes.download uploadDir BASE_URL st1 (newObjectId w)
       (fiUploadedBy fileData) role = notOnDisk
  /\ path_join (fiFolderPath fi)
       (fiUserId fi ++ "_" ++ newObjectId w
        ++ Files.extname (fiFilename fileData)) ∈ files (disk st1).
Proof.
  intros Hrun Hstatus Hfolder Hfree notOnDisk.
  destruct (createFile_layout _ _ _ _ _ _ _ _ _ _ Hrun)
    as ((file & Hfile & _ & Hname & Hpath & _ & _ & _ & Hby & _ & _ & _
         & Hfid) & _ & Hdisk & _).
  assert (ciFolderId (compressionInfo file) = None) as Hnone.
  { rewrite Hfid. destruct (_ && negb _) eqn:Hskip; [|done].
    exfalso.
    assert (Files.statusOf st1 (newObjectId w) = Some not_needed) as Hnn.
    { apply andb_true_iff in Hskip as [Hen Hel].
      apply andb_true_iff in Hen as [-> Henv].
      apply negb_true_iff in Hel.
      by destruct (createFile_not_eligible _ _ _ _ _ _ _ _ _ Henv Hel Hrun). }
    congruence. }
  destruct (uploader_reads st1 (newObjectId w) file role Hfile)
    as (Hval & Hvald & Hget).
  rewrite Hby in Hval, Hvald, Hget.
  assert (Routes.storedPath uploadDir
            (Reads.addFileUrl BASE_URL (newObjectId w) file
               (fiUploadedBy fileData) (Routes.routeRole role))
          = path_join uploadDir (filename file)) as Hstored.
  { unfold Routes.storedPath. simpl. by rewrite Hnone. }
  assert (Fs.access (disk st1) (path_join uploadDir (filename file)) = false)
    as Hacc.
  { apply bool_decide_eq_false. rewrite Hdisk, Hname. simpl.
    intros [Hin|[Hin _]%elem_of_difference]%elem_of_union; [|done].
    apply elem_of_singleton in Hin. unfold path_join in Hin.
    injection Hin as Hin. by apply Hfolder. }
  unfold Routes.serve, Routes.download.
  rewrite Hval, Hvald, Hget. simpl. rewrite Hstored, Hacc. simpl.
  split; [done|]. split; [done|].
  rewrite Hdisk. simpl. apply elem_of_union. left. by apply elem_of_singleton.
Qed.


End RouteProperties.

(** *** The sample uploads through the routes *)



Lemma serve_while_processing_misses_file_witness :
  Routes.serve Sample.uploadDir Cases.BASE_URL (Cases.stateOf Cases.photoRun)
    "65a1" "u1" None
  = Failure (APIError 404 "File Not Found" "File not found on disk")
  /\ (Sample.folder, "u1_65a1.jpg")
     ∈ files (disk (Cases.stateOf Cases.photoRun)).
Proof.
  destruct (serve_while_processing_misses_file defaultEnv
              Sample.uploadDir Sample.calm Cases.BASE_URL
              Sample.photo true Sample.photoFolder
              Sample.afterUploadParse (Cases.stateOf Cases.photoRun)
              (Cases.responseOf Cases.photoRun) (snd Cases.photoRun) None)
    as (Hserve & _ & Hin).
  - apply (outcome_answered Cases.photoRun). vm_compute. reflexivity.
  - vm_compute. reflexivity.
  - discriminate.
  - apply (bool_decide_unpack _). vm_compute. exact I.
  - split; [exact Hserve|exact Hin].
Defined.


(** ** Deleting and updating a record *)

Section MutationProperties.
Variable w : Oracle.
Variable BASE_URL : string.
Variable AUTHORIZATION_ERROR : Error.


(** X15. What a deletion removes.  When the uploader or an admin deletes
    a record and the database call does not fail, the record is gone,
    every other record is as before, no folder is removed, and the only
    file that can disappear is the one at the record's path: derivatives
    and archives stay on disk. *)
Theorem deleteFile_removes_record_and_own_path
    (st st' : State) (fileId userId : string) (userRole : option string)
    (file : FileRecord) (u : unit) :
  db st !! fileId = Some file ->
  Files.deleteFile w AUTHORIZATION_ERROR fileId userId userRole st
  = (st', inr u) ->
  db st' = delete fileId (db st)
  /\ dirs (disk st') = dirs (disk st)
  /\ (∀ p, p ≠ path file -> p ∈ files (disk st') <-> p ∈ files (disk st))
  /\ (unlinkFails w (path file) = false -> path file ∉ files (disk st'))
  /\ dbDeleteFails w fileId = false.
Proof.
  intros Hfile. unfold Files.deleteFile, Files.findById. rewrite Hfile.
  destruct (negb _ && negb _); [done|].
  destruct (dbDeleteFails w fileId); [done|].
  destruct (Fs.access (disk st) (path file)) eqn:Hacc;
    destruct (unlinkFails w (path file)) eqn:Hfail; simpl;
    intros [= <-]; simpl; repeat split; try done.
  - intros [Hin _]%elem_of_difference. exact Hin.
  - intros Hin. apply elem_of_difference. split; [done|].
    by apply not_elem_of_singleton.
  - intros _ [_ Hout]%elem_of_difference. apply Hout.
    by apply elem_of_singleton.
  - intros _. by apply bool_decide_eq_false in Hacc.
Qed.

Section Update.
Variable applyUpdate : FileRecord → option FileRecord.


End Update.
End MutationProperties.

(** *** A deletion in the sample library *)

Lemma deleteFile_removes_record_and_own_path_witness :
  let st' := fst (Files.deleteFile Sample.calm Sample.AUTHORIZATION_ERROR
                    "c" "u1" None Sample.library) in
  db st' !! "c" = None
  /\ ((Sample.uploadDir, "c.txt") ∉ files (disk st'))
  /\ (Sample.uploadDir, "a.txt") ∈ files (disk st').
Proof.
  intros st'.
  destruct (deleteFile_removes_record_and_own_path Sample.calm
              Sample.AUTHORIZATION_ERROR Sample.library st' "c" "u1" None
              (Sample.record "u1" false None "c.txt") tt)
    as (Hdb & _ & Hkeep & Hgone & _).
  - vm_compute. reflexivity.
  - vm_compute. reflexivity.
  - split; [rewrite Hdb; apply lookup_delete_eq|].
    split; [apply Hgone; reflexivity|].
    apply Hkeep; [discriminate|].
    apply (bool_decide_unpack _). vm_compute. exact I.
Defined.

(** ** Maintenance *)

(** The loop of fixStuckPdfFiles over any list of records with distinct
    ids. *)
Lemma fixStuck_loop (l : list (string * FileRecord)) :
  ∀ (st : State) (n : nat),
    NoDup l.*1 ->
    let result :=
      foldl (λ acc kf,
               (Files.updateCompressionInfo (fst kf)
                  {| compressed := false;
                     ciOriginalSize := size (snd kf);
                     ciCompressedSize := None;
                     ciSavingsPercentage := None;
                     ciCompressionType := None;
                     ciFolderId := None;
                     compressionStatus := not_needed |} (fst acc),
                S (snd acc)))
            (st, n) l in
    snd result = (n + length l)%nat
    /\ disk (fst result) = disk st
    /\ (∀ id, id ∉ l.*1 -> db (fst result) !! id = db st !! id)
    /\ (∀ id f, (id, f) ∈ l ->
          db (fst result) !! id
          = Files.setCompressionInfo
              {| compressed := false;
                 ciOriginalSize := size f;
                 ciCompressedSize := None;
                 ciSavingsPercentage := None;
                 ciCompressionType := None;
                 ciFolderId := None;
                 compressionStatus := not_needed |} <$> db st !! id).
Proof.
  induction l as [|[k f] rest IH]; intros st n Hnd; simpl.
  - split; [lia|]. split; [done|]. split; [done|].
    intros id g Hin. by apply not_elem_of_nil in Hin.
  - rewrite fmap_cons in Hnd. apply NoDup_cons in Hnd as [Hk Hnd].
    simpl in Hk.
    destruct (IH (Files.updateCompressionInfo k
                    {| compressed := false;
                       ciOriginalSize := size f;
                       ciCompressedSize := None;
                       ciSavingsPercentage := None;
                       ciCompressionType := None;
                       ciFolderId := None;
                       compressionStatus := not_needed |} st) (S n) Hnd)
      as (Hcount & Hdisk & Hout & Hin).
    split; [rewrite Hcount; lia|]. split; [by rewrite Hdisk|]. split.
    + intros id Hid. apply not_elem_of_cons in Hid as [Hne Hid].
      rewrite Hout by done. simpl. by apply lookup_alter_ne.
    + intros id g [[= -> ->]|Hmem]%elem_of_cons.
      * rewrite Hout by done. simpl. by rewrite lookup_alter_eq.
      * rewrite (Hin id g Hmem). simpl. rewrite lookup_alter_ne; [done|].
        intros ->. apply Hk. apply list_elem_of_fmap. by exists (id, g).
Qed.

(** X17. fixStuckPdfFiles: every PDF record in processing is moved to
    not_needed (compressed = false, no folder id), every other record,
    and the disk, are untouched; the count returned is the number of
    records moved; and a second run finds nothing to fix. *)
Theorem fixStuckPdfFiles_fixes_exactly_stuck_pdfs (st : State) :
  let st' := fst (Files.fixStuckPdfFiles st) in
  snd (Files.fixStuckPdfFiles st)
  = length (filter (λ kf, Files.isStuckPdf (snd kf) = true)
              (map_to_list (db st)))
  /\ disk st' = disk st
  /\ (∀ id, db st' !! id
            = (λ file,
                 if Files.isStuckPdf file
                 then Files.setCompressionInfo
                        {| compressed := false;
                           ciOriginalSize := size file;
                           ciCompressedSize := None;
                           ciSavingsPercentage := None;
                           ciCompressionType := None;
                           ciFolderId := None;
                           compressionStatus := not_needed |} file
                 else file) <$> db st !! id)
  /\ (∀ id file, db st' !! id = Some file ->
        mimetype file = "application/pdf" ->
        compressionStatus (compressionInfo file) ≠ processing)
  /\ Files.fixStuckPdfFiles st' = (st', 0%nat).
Proof.
  intros st'. unfold st', Files.fixStuckPdfFiles.
  set (stuck := filter _ (map_to_list (db st))).
  assert (NoDup stuck.*1) as Hnd.
  { eapply sublist_NoDup; [apply (NoDup_fst_map_to_list (db st))|].
    apply fmap_sublist, sublist_filter. }
  assert (∀ id f, (id, f) ∈ stuck
                  <-> db st !! id = Some f /\ Files.isStuckPdf f = true)
    as Hstuck.
  { intros id f. unfold stuck.
    rewrite list_elem_of_filter, elem_of_map_to_list. simpl. tauto. }
  destruct (fixStuck_loop stuck st 0%nat Hnd) as (Hcount & Hdisk & Hout & Hin).
  set (result := foldl _ (st, 0%nat) stuck) in *.
  assert (∀ id, db (fst result) !! id
                = (λ file,
                     if Files.isStuckPdf file
                     then Files.setCompressionInfo
                            {| compressed := false;
                               ciOriginalSize := size file;
                               ciCompressedSize := None;
                               ciSavingsPercentage := None;
                               ciCompressionType := None;
                               ciFolderId := None;
                               compressionStatus := not_needed |} file
                     else file) <$> db st !! id) as Hlookup.
  { intros id. destruct (db st !! id) as [file|] eqn:Hfile.
    - destruct (Files.isStuckPdf file) eqn:Hs.
      + rewrite (Hin id file) by by apply Hstuck.
        rewrite Hfile. simpl. by rewrite Hs.
      + rewrite Hout, Hfile; [simpl; by rewrite Hs|].
        intros ([k f] & -> & Hmem)%list_elem_of_fmap. simpl in *.
        apply Hstuck in Hmem as [Hf Hs']. congruence.
    - rewrite Hout, Hfile; [done|].
      intros ([k f] & -> & Hmem)%list_elem_of_fmap. simpl in *.
      apply Hstuck in Hmem as [Hf _]. congruence. }
  assert (∀ id file, db (fst result) !! id = Some file ->
            mimetype file = "application/pdf" ->
            compressionStatus (compressionInfo file) ≠ processing) as Hfixed.
  { intros id file Hfile Hpdf. rewrite Hlookup in Hfile.
    destruct (db st !! id) as [file0|]; [|done]. simpl in Hfile.
    destruct (Files.isStuckPdf file0) eqn:Hs; injection Hfile as <-;
      [done|].
    unfold Files.isStuckPdf in Hs. rewrite Hpdf in Hs. simpl in Hs.
    by apply bool_decide_eq_false in Hs. }
  split; [by rewrite Hcount|]. split; [done|]. split; [done|].
  split; [done|].
  assert (filter (λ kf, Files.isStuckPdf (snd kf) = true)
            (map_to_list (db (fst result))) = []) as ->; [|done].
  apply elem_of_nil_inv. intros [k f] [Hs Hmem]%list_elem_of_filter.
  apply elem_of_map_to_list in Hmem. simpl in Hs.
  unfold Files.isStuckPdf in Hs. apply andb_true_iff in Hs as [Hpdf Hproc].
  apply String.eqb_eq in Hpdf. apply bool_decide_eq_true in Hproc.
  by apply (Hfixed k f Hmem Hpdf).
Qed.

Section HousekeepingProperties.
Variable uploadDir : string.
Variable w : Oracle.

(** The loop of cleanupCompressedFiles. *)
Lemma cleanupCompressedFiles_spec (compressedPaths : list Path) :
  ∀ d : Disk,
    dirs (Housekeeping.cleanupCompressedFiles w compressedPaths d) = dirs d
    /\ ∀ p, p ∈ files (Housekeeping.cleanupCompressedFiles w compressedPaths d)
            <-> p ∈ files d
                /\ ¬ (p ∈ compressedPaths /\ unlinkFails w p = false).
Proof.
  unfold Housekeeping.cleanupCompressedFiles.
  induction compressedPaths as [|x rest IH]; intros d; simpl.
  - split; [done|]. intros p. split; [|tauto].
    intros Hin. split; [done|]. intros [Hmem _].
    by apply not_elem_of_nil in Hmem.
  - destruct (IH (if Fs.access d x && negb (unlinkFails w x)
                  then Fs.unlink d x else d)) as [Hdirs Hfiles].
    split.
    + rewrite Hdirs. by destruct (_ && _).
    + intros p. rewrite Hfiles, elem_of_cons.
      destruct (Fs.access d x) eqn:Hacc;
        destruct (unlinkFails w x) eqn:Hfail; simpl.
      * split; intros [Hin Hno]; (split; [done|]).
        -- intros [[->|Hmem] Hok]; [congruence|tauto].
        -- intros [Hmem Hok]. tauto.
      * unfold Fs.unlink. simpl. rewrite elem_of_difference, elem_of_singleton.
        split.
        -- intros [[Hin Hne] Hno]. split; [done|].
           intros [[->|Hmem] Hok]; [done|tauto].
        -- intros [Hin Hno]. split; [split; [done|]|].
           ++ intros ->. apply Hno. split; [by left|done].
           ++ intros [Hmem Hok]. apply Hno. split; [by right|done].
      * split; intros [Hin Hno]; (split; [done|]).
        -- intros [[->|Hmem] Hok]; [congruence|tauto].
        -- intros [Hmem Hok]. tauto.
      * apply bool_decide_eq_false in Hacc.
        split; intros [Hin Hno]; (split; [done|]).
        -- intros [[->|Hmem] Hok]; [done|tauto].
        -- intros [Hmem Hok]. tauto.
Qed.

(** X18. cleanupCompressedFiles removes exactly the listed paths whose
    unlink does not reject, goes on after a rejection, and leaves every
    other file and every folder alone. *)
Theorem cleanupCompressedFiles_removes_listed
    (compressedPaths : list Path) (d : Disk) :
  let d' := Housekeeping.cleanupCompressedFiles w compressedPaths d in
  dirs d' = dirs d
  /\ (∀ p, p ∈ compressedPaths -> unlinkFails w p = false -> p ∉ files d')
  /\ (∀ p, p ∈ compressedPaths -> unlinkFails w p = true ->
        p ∈ files d' <-> p ∈ files d)
  /\ (∀ p, p ∉ compressedPaths -> p ∈ files d' <-> p ∈ files d).
Proof.
  intros d'. unfold d'.
  destruct (cleanupCompressedFiles_spec compressedPaths d) as [Hdirs Hfiles].
  split; [done|]. split; [|split].
  - intros p Hmem Hok Hin. apply Hfiles in Hin as [_ Hno]. by apply Hno.
  - intros p Hmem Hfail. rewrite Hfiles. split; [tauto|].
    intros Hin. split; [done|]. intros [_ Hok]. congruence.
  - intros p Hout. rewrite Hfiles. tauto.
Qed.

End HousekeepingProperties.

(** ** Folders of the upload directory *)

Lemma stripPrefix_app (p s : string) :
  Housekeeping.stripPrefix p (p ++ s) = Some s.
Proof.
  induction p as [|a p IH]; [by destruct s|].
  rewrite app_cons. simpl. by rewrite Ascii.eqb_refl.
Qed.

Lemma stripPrefix_longer (s : string) (c : ascii) (t : string) :
  Housekeeping.stripPrefix (s ++ String c t) s = None.
Proof.
  induction s as [|a s IH]; [done|].
  rewrite app_cons. simpl. by rewrite Ascii.eqb_refl.
Qed.

Lemma isEntryOf_folder (uploadDir folderId : string) :
  Housekeeping.isEntryOf uploadDir (uploadDir ++ "/" ++ folderId)
  = JsString.truthy folderId && negb (Routes.hasSlash folderId).
Proof.
  unfold Housekeeping.isEntryOf.
  by rewrite string_app_assoc, stripPrefix_app.
Qed.

Lemma isEntryOf_self (folder : string) :
  Housekeeping.isEntryOf folder folder = false.
Proof.
  unfold Housekeeping.isEntryOf.
  change "/"%string with (String "/" EmptyString).
  by rewrite stripPrefix_longer.
Qed.

Lemma readdir_nil (d : Disk) (folder : string) :
  Fs.readdir d folder = [] <-> ∀ p, p ∈ files d -> path_dirname p ≠ folder.
Proof.
  unfold Fs.readdir. split.
  - intros Hnil p Hin Hdir.
    apply (filter_nil_not_elem_of _ _ p Hnil Hdir).
    by apply elem_of_elements.
  - intros Hno. apply elem_of_nil_inv.
    intros p [Hdir Hin%elem_of_elements]%list_elem_of_filter.
    by apply (Hno p).
Qed.

Lemma isEmptyFolder_spec (d : Disk) (folder : string) :
  Housekeeping.isEmptyFolder d folder = true
  <-> (∀ p, p ∈ files d -> path_dirname p ≠ folder)
      /\ (∀ g, g ∈ dirs d -> Housekeeping.isEntryOf folder g = false).
Proof.
  unfold Housekeeping.isEmptyFolder.
  rewrite andb_true_iff, Nat.eqb_eq, length_zero_iff_nil, readdir_nil,
    forallb_forall.
  split; intros [Hfiles Hdirs]; (split; [done|]).
  - intros g Hg. apply negb_true_iff, Hdirs.
    by apply list_elem_of_In, elem_of_elements.
  - intros g Hg%list_elem_of_In%elem_of_elements.
    by apply negb_true_iff, Hdirs.
Qed.

(** The loop of cleanupEmptyFolders over any list of folders. *)
Lemma cleanupEmptyFolders_loop (l : list string) :
  ∀ acc : Disk,
    let result :=
      foldl (λ acc folderPath,
               if Housekeeping.isEmptyFolder acc folderPath
               then Fs.rmdir acc folderPath
               else acc)
            acc l in
    files result = files acc
    /\ (∀ g, g ∈ dirs result -> g ∈ dirs acc)
    /\ (∀ g, g ∈ dirs acc -> g ∉ dirs result ->
          g ∈ l /\ ∀ p, p ∈ files acc -> path_dirname p ≠ g)
    /\ (∀ g, g ∈ l -> Housekeeping.isEmptyFolder acc g = true ->
          g ∉ dirs result).
Proof.
  induction l as [|x rest IH]; intros acc; simpl.
  - split; [done|]. split; [done|]. split; [done|].
    intros g Hg. by apply not_elem_of_nil in Hg.
  - set (acc1 := if Housekeeping.isEmptyFolder acc x
                 then Fs.rmdir acc x else acc).
    assert (files acc1 = files acc) as Hfiles1.
    { unfold acc1. by destruct (Housekeeping.isEmptyFolder acc x). }
    assert (∀ g, g ∈ dirs acc1 -> g ∈ dirs acc) as Hdirs1.
    { unfold acc1. intros g.
      destruct (Housekeeping.isEmptyFolder acc x); [|done].
      simpl. by intros [? _]%elem_of_difference. }
    destruct (IH acc1) as (Hfiles & Hsub & Hgone & Hempty).
    split; [by rewrite Hfiles|]. split; [by intros g Hg%Hsub%Hdirs1|].
    split.
    + intros g Hg Hout. destruct (decide (g ∈ dirs acc1)) as [Hin1|Hout1].
      * destruct (Hgone g Hin1 Hout) as [Hrest Hno].
        split; [by right|]. intros p Hp. apply Hno. by rewrite Hfiles1.
      * unfold acc1 in Hout1.
        destruct (Housekeeping.isEmptyFolder acc x) eqn:Hx; [|done].
        simpl in Hout1.
        assert (g = x) as ->.
        { destruct (decide (g = x)) as [|Hne]; [done|].
          exfalso. apply Hout1. apply elem_of_difference.
          split; [done|]. by apply not_elem_of_singleton. }
        split; [by left|]. by apply isEmptyFolder_spec in Hx as [Hno _].
    + intros g [->|Hrest]%elem_of_cons Hg.
      * intros Hin%Hsub. unfold acc1 in Hin. rewrite Hg in Hin.
        simpl in Hin. apply elem_of_difference in Hin as [_ Hne].
        by apply Hne, elem_of_singleton.
      * apply Hempty; [done|]. apply isEmptyFolder_spec.
        apply isEmptyFolder_spec in Hg as [Hno Hsubs].
        split; [intros p Hp; apply Hno; by rewrite <-Hfiles1|].
        intros h Hh. by apply Hsubs, Hdirs1.
Qed.

Lemma cleanupEmptyFolders_spec (uploadDir : string) (d : Disk) :
  let d' := Housekeeping.cleanupEmptyFolders uploadDir d in
  files d' = files d
  /\ (∀ g, g ∈ dirs d' -> g ∈ dirs d)
  /\ (∀ g, g ∈ dirs d -> g ∉ dirs d' ->
        Housekeeping.isEntryOf uploadDir g = true
        /\ ∀ p, p ∈ files d -> path_dirname p ≠ g)
  /\ (∀ g, g ∈ dirs d -> Housekeeping.isEntryOf uploadDir g = true ->
        Housekeeping.isEmptyFolder d g = true -> g ∉ dirs d').
Proof.
  intros d'. unfold d', Housekeeping.cleanupEmptyFolders.
  destruct (cleanupEmptyFolders_loop
              (filter (λ f, Housekeeping.isEntryOf uploadDir f = true)
                 (elements (dirs d))) d)
    as (Hfiles & Hsub & Hgone & Hempty).
  split; [done|]. split; [done|]. split.
  - intros g Hg Hout. destruct (Hgone g Hg Hout) as [Hl Hno].
    split; [|done]. by apply list_elem_of_filter in Hl as [He _].
  - intros g Hg He Hemp. apply Hempty; [|done].
    apply list_elem_of_filter. split; [done|]. by apply elem_of_elements.
Qed.

(** X19. cleanupEmptyFolders deletes no file, creates no folder, removes
    only entries of the upload directory that hold no file, and removes
    every entry of the upload directory that holds neither a file nor a
    folder. *)
Theorem cleanupEmptyFolders_removes_only_empty_entries
    (uploadDir : string) (d : Disk) :
  let d' := Housekeeping.cleanupEmptyFolders uploadDir d in
  files d' = files d
  /\ (∀ g, g ∈ dirs d' -> g ∈ dirs d)
  /\ (∀ g, g ∈ dirs d -> g ∉ dirs d' ->
        Housekeeping.isEntryOf uploadDir g = true
        /\ ∀ p, p ∈ files d -> path_dirname p ≠ g)
  /\ (∀ g, g ∈ dirs d -> Housekeeping.isEntryOf uploadDir g = true ->
        Housekeeping.isEmptyFolder d g = true -> g ∉ dirs d').
Proof. apply cleanupEmptyFolders_spec. Qed.

Section OrganizeProperties.
Variable uploadDir : string.

Lemma organizeUploadedFile_moved
    (folderId filename tempFileId userId : string) (originalPath : Path)
    (d : Disk) :
  originalPath ∈ files d ->
  Housekeeping.organizeUploadedFile uploadDir folderId filename tempFileId
    userId originalPath d
  = (mkDisk ({[ path_join (uploadDir ++ "/" ++ folderId) filename ]}
             ∪ (files d ∖ {[ originalPath ]}))
            ({[ uploadDir ++ "/" ++ folderId ]} ∪ dirs d),
     Some (path_join (uploadDir ++ "/" ++ folderId) filename,
           {| fiFolderId := folderId;
              fiFolderPath := uploadDir ++ "/" ++ folderId;
              fiUserId := userId; fiTempFileId := tempFileId |})).
Proof.
  intros Hin. unfold Housekeeping.organizeUploadedFile, Fs.rename, Fs.access.
  simpl. by rewrite bool_decide_eq_true_2.
Qed.

Lemma organizeUploadedFile_rejected
    (folderId filename tempFileId userId : string) (originalPath : Path)
    (d : Disk) :
  originalPath ∉ files d ->
  Housekeeping.organizeUploadedFile uploadDir folderId filename tempFileId
    userId originalPath d
  = (Fs.mkdir d (uploadDir ++ "/" ++ folderId), None).
Proof.
  intros Hout. unfold Housekeeping.organizeUploadedFile, Fs.rename, Fs.access.
  simpl. by rewrite bool_decide_eq_false_2.
Qed.

(** X20. organizeUploadedFile moves an upload that is on disk into the
    folder [uploadDir/folderId], which exists afterwards; nothing else
    moves; and the folder info it hands on names that folder, which is
    an entry of the upload directory when the folder id is a plain
    name. *)
Theorem organizeUploadedFile_moves_upload_into_folder
    (folderId filename tempFileId userId : string) (originalPath : Path)
    (d : Disk) :
  originalPath ∈ files d ->
  let folderPath := uploadDir ++ "/" ++ folderId in
  let newPath := path_join folderPath filename in
  ∃ d' fi,
    Housekeeping.organizeUploadedFile uploadDir folderId filename tempFileId
      userId originalPath d = (d', Some (newPath, fi))
    /\ fiFolderId fi = folderId /\ fiFolderPath fi = folderPath
    /\ fiUserId fi = userId /\ fiTempFileId fi = tempFileId
    /\ newPath ∈ files d'
    /\ (originalPath ≠ newPath -> originalPath ∉ files d')
    /\ (∀ p, p ≠ originalPath -> p ≠ newPath ->
          p ∈ files d' <-> p ∈ files d)
    /\ (∀ g, g ∈ dirs d' <-> g = folderPath \/ g ∈ dirs d)
    /\ (JsString.truthy folderId = true ->
        Routes.hasSlash folderId = false ->
        placedInUploads uploadDir fi
        /\ Housekeeping.isEntryOf uploadDir folderPath = true).
Proof.
  intros Hin folderPath newPath.
  rewrite organizeUploadedFile_moved by done.
  eexists _, _. split; [reflexivity|]. simpl.
  split; [done|]. split; [done|]. split; [done|]. split; [done|].
  split; [apply elem_of_union; left; by apply elem_of_singleton|].
  split.
  { intros Hne [Heq%elem_of_singleton|[_ Hno]%elem_of_difference]%elem_of_union;
      [done|]. by apply Hno, elem_of_singleton. }
  split.
  { intros p Hp Hnew. rewrite elem_of_union, elem_of_difference,
      !elem_of_singleton. tauto. }
  split.
  { intros g. by rewrite elem_of_union, elem_of_singleton. }
  intros Htruthy Hslash. split; [by repeat split|].
  unfold folderPath. by rewrite isEntryOf_folder, Htruthy, Hslash.
Qed.

(** X21. When the move rejects (the upload is not where multer said),
    organizeUploadedFile hands on no folder info and leaves the folder it
    has just made; the next cleanupEmptyFolders removes that folder when
    nothing else is in it. *)
Theorem organizeUploadedFile_rejected_folder_is_swept
    (folderId filename tempFileId userId : string) (originalPath : Path)
    (d : Disk) :
  originalPath ∉ files d ->
  JsString.truthy folderId = true ->
  Routes.hasSlash folderId = false ->
  Housekeeping.isEmptyFolder d (uploadDir ++ "/" ++ folderId) = true ->
  let folderPath := uploadDir ++ "/" ++ folderId in
  let r := Housekeeping.organizeUploadedFile uploadDir folderId filename
             tempFileId userId originalPath d in
  snd r = None
  /\ files (fst r) = files d
  /\ folderPath ∈ dirs (fst r)
  /\ folderPath ∉ dirs (Housekeeping.cleanupEmptyFolders uploadDir (fst r)).
Proof.
  intros Hout Htruthy Hslash Hempty folderPath r. unfold r.
  rewrite organizeUploadedFile_rejected by done. simpl.
  split; [done|]. split; [done|].
  assert (folderPath ∈ dirs (Fs.mkdir d folderPath)) as Hdir.
  { simpl. apply elem_of_union. left. by apply elem_of_singleton. }
  split; [done|].
  destruct (cleanupEmptyFolders_spec uploadDir (Fs.mkdir d folderPath))
    as (_ & _ & _ & Hswept).
  apply Hswept; [done| |].
  - unfold folderPath. by rewrite isEntryOf_folder, Htruthy, Hslash.
  - apply isEmptyFolder_spec. apply isEmptyFolder_spec in Hempty as [Hno Hsub].
    split; [done|]. simpl.
    intros g [->%elem_of_singleton|Hg]%elem_of_union;
      [apply isEntryOf_self|by apply Hsub].
Qed.

End OrganizeProperties.

(** *** The sample upload as multer leaves it *)

Lemma organizeUploadedFile_moves_upload_into_folder_witness :
  ∃ d' fi,
    Housekeeping.organizeUploadedFile Sample.uploadDir "f1" "u1_tmp.jpg" "tmp"
      "u1" Cases.multerPath Cases.multerDisk
    = (d', Some (Sample.photoPath, fi))
    /\ Sample.photoPath ∈ files d'
    /\ (Cases.multerPath ∉ files d')
    /\ placedInUploads Sample.uploadDir fi.
Proof.
  destruct (organizeUploadedFile_moves_upload_into_folder Sample.uploadDir
              "f1" "u1_tmp.jpg" "tmp" "u1" Cases.multerPath Cases.multerDisk)
    as (d' & fi & Hrun & _ & _ & _ & _ & Hnew & Hold & _ & _ & Hplaced).
  - apply (bool_decide_unpack _). vm_compute. exact I.
  - exists d', fi. split; [exact Hrun|]. split; [exact Hnew|].
    split; [apply Hold; discriminate|].
    apply Hplaced; reflexivity.
Defined.

Lemma organizeUploadedFile_rejected_folder_is_swept_witness :
  let r := Housekeeping.organizeUploadedFile Sample.uploadDir "f1"
             "u1_tmp.jpg" "tmp" "u1" Cases.multerPath Cases.emptyDisk in
  snd r = None
  /\ Sample.folder ∈ dirs (fst r)
  /\ Sample.folder
     ∉ dirs (Housekeeping.cleanupEmptyFolders Sample.uploadDir (fst r)).
Proof.
  intros r.
  destruct (organizeUploadedFile_rejected_folder_is_swept Sample.uploadDir
              "f1" "u1_tmp.jpg" "tmp" "u1" Cases.multerPath Cases.emptyDisk)
    as (Hnone & _ & Hdir & Hswept).
  - apply (bool_decide_unpack _). vm_compute. exact I.
  - reflexivity.
  - reflexivity.
  - vm_compute. reflexivity.
  - split; [exact Hnone|]. split; [exact Hdir|exact Hswept].
Defined.

(** ** Uploads that are not images *)

Lemma shouldCompressFile_upload_default (mimetype : string) (size : Z) :
  Eligibility.shouldCompressFile defaultEnv mimetype size
    (Files.uploadOptions defaultEnv)
  = Eligibility.isImageType mimetype
    || (300000 <=? size)%Z && Eligibility.isTextType mimetype.
Proof.
  unfold Eligibility.shouldCompressFile, Files.uploadOptions. simpl.
  rewrite (Z.leb_antisym size 300000).
  destruct (Eligibility.isImageType mimetype); [done|].
  destruct (size <? 300000)%Z; [done|]. simpl.
  by destruct (Eligibility.isTextType mimetype).
Qed.

(** X22. Of the uploads the filter lets through, under the default
    configuration, background compression is started for every image at
    any size and, from the threshold size on, for the text types, JSON,
    XML and the three Office Open XML document types (whose names
    contain "xml"); never for PDFs, legacy Office documents, archives or
    octet streams. *)
Theorem accepted_upload_compressed_iff (mimetype : string) (size : Z) :
  Upload.fileFilter mimetype = true ->
  Eligibility.shouldCompressFile defaultEnv mimetype size
    (Files.uploadOptions defaultEnv) = true
  <-> Eligibility.isImageType mimetype = true
      \/ (300000 <= size)%Z
         /\ mimetype ∈
            [ "text/plain"; "text/csv"; "text/html"; "text/css";
              "text/javascript"; "application/json"; "application/xml";
              "application/vnd.openxmlformats-officedocument.wordprocessingml.document";
              "application/vnd.openxmlformats-officedocument.spreadsheetml.sheet";
              "application/vnd.openxmlformats-officedocument.presentationml.presentation" ].
Proof.
  intros Hok. rewrite shouldCompressFile_upload_default.
  rewrite orb_true_iff, andb_true_iff, Z.leb_le.
  assert (Eligibility.isImageType mimetype = false ->
          Eligibility.isTextType mimetype = true
          <-> mimetype ∈
              [ "text/plain"; "text/csv"; "text/html"; "text/css";
                "text/javascript"; "application/json"; "application/xml";
                "application/vnd.openxmlformats-officedocument.wordprocessingml.document";
                "application/vnd.openxmlformats-officedocument.spreadsheetml.sheet";
                "application/vnd.openxmlformats-officedocument.presentationml.presentation" ])
    as Htext.
  { intros Himg. apply bool_decide_eq_true in Hok.
    unfold Upload.allowedMimeTypes in Hok.
    rewrite <- (bool_decide_eq_true (_ ∈ _)).
    repeat (apply elem_of_cons in Hok as [->|Hok]);
      try (by apply not_elem_of_nil in Hok);
      try (vm_compute in Himg; discriminate Himg);
      vm_compute; split; (done || discriminate). }
  destruct (Eligibility.isImageType mimetype) eqn:Himg; [tauto|].
  rewrite (Htext eq_refl). split; [|intros [?|?]; [done|by right]].
  intros [?|?]; [done|by right].
Qed.

Lemma app_nonempty_neq (s : string) (c : ascii) (t : string) :
  s ++ String c t ≠ s.
Proof.
  induction s as [|a s IH]; [done|].
  rewrite app_cons. intros [= Heq]. by apply IH.
Qed.

Section TextProperties.
Variable env : Env.
Variable uploadDir : string.
Variable w : Oracle.
Variable BASE_URL : string.
Variable statSize : Path → Z.

(** What compressFile did when it yields a result for an upload that is
    not an image. *)
Lemma compressFile_text_result (filePath : Path) (mimetype : string)
    (o : Z) (userId fileId : string) (options : CompressionOptions)
    (existingFolderPath : option string) (d d' : Disk)
    (r : CompressionResult) :
  Eligibility.isImageType mimetype = false ->
  Compression.compressFile env uploadDir w filePath mimetype o
    userId fileId options existingFolderPath d = (d', Resolved (Some r)) ->
  Eligibility.isTextType mimetype = true
  /\ d' = Fs.writeFile d
            (path_join uploadDir (path_basename filePath ++ ".gz"))
  /\ gzip w filePath = Some (compressedSize r)
  /\ originalSize r = o
  /\ compressionType r = none
  /\ folderId r = EmptyString.
Proof.
  intros Himg. unfold Compression.compressFile. rewrite Himg.
  destruct (negb (ENABLE_FILE_COMPRESSION env)); [done|].
  destruct (negb (Eligibility.shouldCompressFile _ _ _ _)); [done|].
  destruct (Eligibility.isTextType mimetype); [|done].
  unfold Compression.compressTextFile.
  destruct (gzip w filePath) as [c|]; [|done].
  destruct (writeFails w _); [done|].
  by intros [= <- <-].
Qed.

(** X23. A text upload that has been gzipped is out of reach.  The
    archive is written into the upload directory itself, next to the
    folders, under the stored name followed by [.gz]; the upload stays in
    its folder; the record ends completed with compression type none and
    an empty folder id.  With an empty folder id the serve and download
    routes look for the upload in the upload directory and answer 404,
    and the compressed route answers 404 for every format. *)
Theorem gzipped_upload_is_out_of_reach
    (fileData : FileInput) (enableCompression : bool) (fi : FolderInfo)
    (st st1 : State) (response : option FileRecord) (task : Task)
    (file : FileRecord) (d' : Disk) (r : CompressionResult)
    (role : option string) :
  Files.createFile env uploadDir w fileData enableCompression (Some fi) st
  = (st1, inr response, Some task) ->
  Eligibility.isImageType (fiMimetype fileData) = false ->
  db st1 !! newObjectId w = Some file ->
  Compression.compressFile env uploadDir w (path file) (mimetype file)
    (size file) (uploadedBy file) (newObjectId w) (Files.uploadOptions env)
    (Some (fiFolderPath fi)) (disk st1) = (d', Resolved (Some r)) ->
  fiFolderPath fi ≠ uploadDir ->
  path_join uploadDir
    (fiUserId fi ++ "_" ++ newObjectId w
     ++ Files.extname (fiFilename fileData)) ∉ files (disk st) ->
  let newFilename :=
    fiUserId fi ++ "_" ++ newObjectId w
    ++ Files.extname (fiFilename fileData) in
  let st2 := task st1 in
  path_join uploadDir (newFilename ++ ".gz") ∈ files (disk st2)
  /\ path_join (fiFolderPath fi) newFilename ∈ files (disk st2)
  /\ (∃ file',
        db st2 !! newObjectId w = Some file'
        /\ path file' = path_join (fiFolderPath fi) newFilename
        /\ compressed (compressionInfo file') = true
        /\ ciCompressionType (compressionInfo file') = Some none
        /\ ciFolderId (compressionInfo file') = Some EmptyString
        /\ compressionStatus (compressionInfo file') = completed)
  /\ Routes.serve uploadDir BASE_URL st2 (newObjectId w)
       (fiUploadedBy fileData) role
     = Failure (APIError 404 "File Not Found" "File not found on disk")
  /\ Routes.download uploadDir BASE_URL st2 (newObjectId w)
       (fiUploadedBy fileData) role
     = Failure (APIError 404 "File Not Found" "File not found on disk")
  /\ ∀ format,
       Routes.serveCompressed uploadDir BASE_URL statSize st2
         (newObjectId w) format (fiUploadedBy fileData) role
       = Failure (APIError 404 "Compressed Version Not Available"
                    "This file does not have a compressed version available").
Proof.
  intros Hrun Himg Hfile Hres Hfolder Hfree newFilename st2.
  destruct (createFile_layout _ _ _ _ _ _ _ _ _ _ Hrun)
    as ((file0 & Hfile0 & _ & Hname & Hpath & _ & Hmime & _ & Hby & _)
        & _ & Hdisk & _).
  assert (file0 = file) as -> by congruence.
  fold newFilename in Hname, Hpath, Hfree.
  rewrite <- Hmime in Himg.
  destruct (compressFile_text_result _ _ _ _ _ _ _ _ _ _ Himg Hres)
    as (_ & Hd' & _ & _ & Htype & Hid).
  rewrite Hpath in Hd'. simpl in Hd'.
  pose proof (task_completes_record _ _ _ _ _ _ _ _ _ _ _ _ _
                Hrun Hfile Hres) as Htask.
  set (file' := Files.setCompressionInfo
                  {| compressed := true;
                     ciOriginalSize := originalSize r;
                     ciCompressedSize := Some (compressedSize r);
                     ciSavingsPercentage := Some (savingsPercentage r);
                     ciCompressionType := Some (compressionType r);
                     ciFolderId := Some (folderId r);
                     compressionStatus := completed |} file) in *.
  assert (db st2 !! newObjectId w = Some file') as Hfile'.
  { unfold st2. rewrite Htask. simpl. by rewrite lookup_alter_eq, Hfile. }
  assert (disk st2 = d') as Hd by (unfold st2; by rewrite Htask).
  assert (uploadedBy file' = fiUploadedBy fileData) as Hby' by exact Hby.
  destruct (uploader_reads BASE_URL st2 (newObjectId w) file' role Hfile')
    as (Hval & Hvald & Hget).
  rewrite Hby' in Hval, Hvald, Hget.
  assert (Routes.storedPath uploadDir
            (Reads.addFileUrl BASE_URL (newObjectId w) file'
               (fiUploadedBy fileData) (Routes.routeRole role))
          = path_join uploadDir newFilename) as Hstored.
  { unfold Routes.storedPath. simpl. rewrite Hid. simpl. by rewrite Hname. }
  assert (path_join uploadDir newFilename ∉ files d') as Hmiss.
  { rewrite Hd', Hdisk. simpl.
    intros [Hgz%elem_of_singleton|[Hnew%elem_of_singleton|Hold]%elem_of_union]%elem_of_union.
    - injection Hgz as Hgz. symmetry in Hgz.
      by apply app_nonempty_neq in Hgz.
    - unfold path_join in Hnew. congruence.
    - apply elem_of_difference in Hold as [Hold _]. by apply Hfree. }
  split.
  { rewrite Hd, Hd'. simpl. apply elem_of_union. left.
    by apply elem_of_singleton. }
  split.
  { rewrite Hd, Hd', Hdisk. simpl. apply elem_of_union. right.
    apply elem_of_union. left. by apply elem_of_singleton. }
  split.
  { exists file'. split; [done|]. split; [exact Hpath|].
    split; [done|]. split; [simpl; by rewrite Htype|].
    split; [simpl; by rewrite Hid|done]. }
  assert (Fs.access d' (path_join uploadDir newFilename) = false) as Hacc
    by by apply bool_decide_eq_false.
  unfold Routes.serve, Routes.download, Routes.serveCompressed.
  rewrite Hval, Hvald, Hget. simpl. rewrite Hstored, Hd, Hacc, Hid. simpl.
  split; [done|]. split; [done|]. intros format.
  done.
Qed.

End TextProperties.

(** *** A word-processor document and the sample notes *)

Lemma accepted_upload_compressed_iff_witness :
  Eligibility.shouldCompressFile defaultEnv
    "application/vnd.openxmlformats-officedocument.wordprocessingml.document"
    500000 (Files.uploadOptions defaultEnv) = true
  /\ Eligibility.shouldCompressFile defaultEnv "application/msword"
       500000 (Files.uploadOptions defaultEnv) ≠ true.
Proof.
  split.
  - apply (accepted_upload_compressed_iff
             "application/vnd.openxmlformats-officedocument.wordprocessingml.document"
             500000).
    + vm_compute. reflexivity.
    + right. split; [lia|]. apply (bool_decide_unpack _). vm_compute. exact I.
  - intros Hyes.
    apply (accepted_upload_compressed_iff "application/msword" 500000)
      in Hyes as [Himg|[_ Hin]].
    + vm_compute in Himg. discriminate Himg.
    + revert Hin. apply (bool_decide_unpack _). vm_compute. exact I.
    + vm_compute. reflexivity.
Defined.

Lemma gzipped_upload_is_out_of_reach_witness :
  let st2 := Cases.taskOf Cases.notesRun (Cases.stateOf Cases.notesRun) in
  (Sample.uploadDir, "u1_65a1.txt.gz") ∈ files (disk st2)
  /\ (Sample.folder, "u1_65a1.txt") ∈ files (disk st2)
  /\ Files.statusOf st2 "65a1" = Some completed
  /\ Routes.serve Sample.uploadDir Cases.BASE_URL st2 "65a1" "u1" None
     = Failure (APIError 404 "File Not Found" "File not found on disk")
  /\ Routes.serveCompressed Sample.uploadDir Cases.BASE_URL Cases.statSize
       st2 "65a1" "gz" "u1" None
     = Failure (APIError 404 "Compressed Version Not Available"
                  "This file does not have a compressed version available").
Proof.
  intros st2.
  destruct (gzipped_upload_is_out_of_reach defaultEnv Sample.uploadDir
              Sample.calm Cases.BASE_URL Cases.statSize
              Cases.notes true Sample.photoFolder
              Cases.afterNotesParse (Cases.stateOf Cases.notesRun)
              (Cases.responseOf Cases.notesRun)
              (Cases.taskOf Cases.notesRun)
              (Cases.recordOf (Cases.stateOf Cases.notesRun) "65a1")
              (fst (Cases.compressionOf Cases.notesRun))
              (Cases.resultOf (Cases.compressionOf Cases.notesRun))
              None)
    as (Hgz & Hkept & (file' & Hfile' & _ & _ & _ & _ & Hstatus)
        & Hserve & _ & Hcompressed).
  - apply (outcome_dispatched Cases.notesRun); vm_compute; reflexivity.
  - reflexivity.
  - vm_compute. reflexivity.
  - vm_compute. reflexivity.
  - discriminate.
  - apply (bool_decide_unpack _). vm_compute. exact I.
  - split; [exact Hgz|]. split; [exact Hkept|]. split.
    { unfold Files.statusOf, Files.findById. fold st2.
      change (db st2 !! "65a1" = Some file') in Hfile'.
      rewrite Hfile'. simpl. by rewrite Hstatus. }
    split; [exact Hserve|exact (Hcompressed "gz")].
Defined.

(** ** Listings *)

Section ListingProperties.
Variable BASE_URL : string.
Variable uploadDir : string.
Variable w : Oracle.
Variable meta : string → DocMeta.
Variable sortDocs : string → bool → list (string * FileRecord)
                    → list (string * FileRecord).
Variable today : string.
(** Sorting reorders the documents it is given. *)
Hypothesis sortDocs_perm :
  ∀ sortBy desc l, Permutation (sortDocs sortBy desc l) l.

Lemma sortDocs_elem (sortBy : string) (desc : bool)
    (l : list (string * FileRecord)) (doc : string * FileRecord) :
  doc ∈ sortDocs sortBy desc l <-> doc ∈ l.
Proof. by rewrite (sortDocs_perm sortBy desc l). Qed.

Lemma elem_of_map_addFileUrl (userId : string) (userRole : option string)
    (l : list (string * FileRecord)) (d : FileWithUrls) :
  d ∈ map (λ doc, Reads.addFileUrl BASE_URL (fst doc) (snd doc)
                    userId userRole) l
  <-> ∃ id file, (id, file) ∈ l
                 /\ d = Reads.addFileUrl BASE_URL id file userId userRole.
Proof.
  rewrite list_elem_of_In, in_map_iff. split.
  - intros ([id file] & <- & Hin%list_elem_of_In). by exists id, file.
  - intros (id & file & Hin%list_elem_of_In & ->). by exists (id, file).
Qed.

Lemma matchesQuery_access (options : FileQueryOptions) (userId : string)
    (userRole : option string) (id : string) (file : FileRecord) :
  Listing.matchesQuery meta options userId userRole (id, file) = true ->
  Access.canAccessFile file userId userRole = true.
Proof.
  unfold Listing.matchesQuery, Access.canAccessFile.
  intros [_ Hor]%andb_true_iff.
  destruct (isPublic file); [done|].
  destruct (JsString.optEq userRole "admin"); simpl in *;
    [by rewrite orb_true_r|by rewrite orb_false_r].
Qed.

Lemma addFileUrl_accessible (id : string) (file : FileRecord)
    (userId : string) (userRole : option string) :
  Access.canAccessFile file userId userRole = true ->
  fwCanAccess (Reads.addFileUrl BASE_URL id file userId userRole) = true
  /\ is_Some (fwFileUrl (Reads.addFileUrl BASE_URL id file userId userRole))
  /\ is_Some (fwDownloadUrl
                (Reads.addFileUrl BASE_URL id file userId userRole)).
Proof.
  intros Hacc. simpl.
  change (Access.canDownloadFile file userId userRole)
    with (Access.canAccessFile file userId userRole).
  rewrite Hacc. split; [done|]. split; [|by eexists].
  destruct (_ && _); [by eexists|]. destruct (_ && _); by eexists.
Qed.

(** X24. getFiles never lists a record the requester cannot access: each
    entry of [docs] is addFileUrl of a stored record that matches the
    query, passes canAccessFile for the requester, and so carries
    canAccess = true, a file URL and a download URL. *)
Theorem getFiles_lists_only_accessible
    (options : FileQueryOptions) (userId : string)
    (userRole : option string) (st : State) (d : FileWithUrls) :
  d ∈ docs (Listing.getFiles BASE_URL meta sortDocs options userId userRole
              st) ->
  ∃ file,
    db st !! fwId d = Some file
    /\ d = Reads.addFileUrl BASE_URL (fwId d) file userId userRole
    /\ Listing.matchesQuery meta options userId userRole (fwId d, file)
       = true
    /\ Access.canAccessFile file userId userRole = true
    /\ fwCanAccess d = true
    /\ is_Some (fwFileUrl d)
    /\ is_Some (fwDownloadUrl d).
Proof.
  unfold Listing.getFiles. simpl.
  intros (id & file & Hin & ->)%elem_of_map_addFileUrl.
  pose proof (elem_of_sublist _ _ _ Hin (sublist_take _ _)) as Hin'.
  pose proof (elem_of_sublist _ _ _ Hin' (sublist_drop _ _)) as Hin''.
  clear Hin Hin'. rename Hin'' into Hin.
  apply sortDocs_elem, list_elem_of_filter in Hin as [Hmatch Hin].
  apply elem_of_map_to_list in Hin.
  pose proof (matchesQuery_access _ _ _ _ _ Hmatch) as Hacc.
  exists file. split; [done|]. split; [done|]. split; [done|].
  split; [done|]. by apply addFileUrl_accessible.
Qed.

(** X25. Paging.  For a page number and a page size of at least 1,
    [docs] holds the matches that are left after the earlier pages, at
    most one page of them; hasNextPage tells exactly whether matches
    remain after this page, hasPreviousPage whether the page is not the
    first; and totalPages pages are just enough for all matches. *)
Theorem getFiles_paging
    (options : FileQueryOptions) (userId : string)
    (userRole : option string) (st : State) :
  (1 <= default 1 (qPage options))%Z ->
  (1 <= default 10 (qLimit options))%Z ->
  let r := Listing.getFiles BASE_URL meta sortDocs options userId userRole
             st in
  let matches :=
    filter (λ doc, Listing.matchesQuery meta options userId userRole doc
                   = true) (map_to_list (db st)) in
  total r = Z.of_nat (length matches)
  /\ Z.of_nat (length (docs r))
     = Z.min (limit r) (Z.max 0 (total r - (page r - 1) * limit r))
  /\ (hasNextPage r = true <-> (page r * limit r < total r)%Z)
  /\ (hasPreviousPage r = true <-> (1 < page r)%Z)
  /\ (total r <= totalPages r * limit r < total r + limit r)%Z.
Proof.
  intros Hpage Hlimit r matches. unfold r, Listing.getFiles. simpl.
  fold matches.
  set (p := default 1 (qPage options)) in *.
  set (n := default 10 (qLimit options)) in *.
  set (t := Z.of_nat (length matches)).
  assert (t <= Listing.ceilDiv t n * n < t + n)%Z as Hceil.
  { unfold Listing.ceilDiv.
    pose proof (Z.div_mod (- t) n ltac:(lia)) as Hdiv.
    pose proof (Z.mod_pos_bound (- t) n ltac:(lia)) as Hmod. nia. }
  split; [done|]. split.
  { rewrite length_map, length_take, length_drop.
    rewrite (Permutation_length (sortDocs_perm _ _ matches)).
    assert (0 <= (p - 1) * n)%Z as Hskip by nia.
    unfold t. revert Hskip. generalize ((p - 1) * n)%Z. intros k Hk. lia. }
  split; [rewrite Z.ltb_lt; nia|]. split; [by rewrite Z.ltb_lt|done].
Qed.

(** X26. getFilesByEntity returns exactly the stored records of the
    entity that the requester may access, each as addFileUrl makes it;
    records of the entity the requester may not access are left out. *)
Theorem getFilesByEntity_exactly_accessible
    (entityType' entityId userId : string) (userRole : option string)
    (st : State) (d : FileWithUrls) :
  d ∈ Listing.getFilesByEntity BASE_URL meta sortDocs entityType' entityId
        userId userRole st
  <-> ∃ id file,
        db st !! id = Some file
        /\ entityType (meta id) = entityType'
        /\ uploadedFor (meta id) = Some entityId
        /\ Access.canAccessFile file userId userRole = true
        /\ d = Reads.addFileUrl BASE_URL id file userId userRole.
Proof.
  unfold Listing.getFilesByEntity, Listing.accessibleOf, Listing.findByEntity.
  rewrite elem_of_map_addFileUrl. split.
  - intros (id & file & [Hacc Hin]%list_elem_of_filter & ->).
    apply sortDocs_elem, list_elem_of_filter in Hin as [[Hty Hfor] Hin].
    apply elem_of_map_to_list in Hin. by exists id, file.
  - intros (id & file & Hfile & Hty & Hfor & Hacc & ->).
    exists id, file. split; [|done].
    apply list_elem_of_filter. split; [done|].
    apply sortDocs_elem, list_elem_of_filter. split; [done|].
    by apply elem_of_map_to_list.
Qed.

(** X27. getPublicFiles returns exactly the stored public records, and
    every entry is accessible and downloadable for any requester,
    whatever the user id and the role. *)
Theorem getPublicFiles_exactly_public
    (userId : string) (userRole : option string) (st : State)
    (d : FileWithUrls) :
  (d ∈ Listing.getPublicFiles BASE_URL sortDocs userId userRole st
   <-> ∃ id file,
         db st !! id = Some file
         /\ isPublic file = true
         /\ d = Reads.addFileUrl BASE_URL id file userId userRole)
  /\ (d ∈ Listing.getPublicFiles BASE_URL sortDocs userId userRole st ->
      fwCanAccess d = true /\ fwCanDownload d = true
      /\ is_Some (fwFileUrl d) /\ is_Some (fwDownloadUrl d)).
Proof.
  unfold Listing.getPublicFiles, Listing.findPublic.
  rewrite elem_of_map_addFileUrl.
  assert ((∃ id file,
             (id, file) ∈ sortDocs "createdAt" true
                            (filter (λ doc, isPublic (snd doc) = true)
                               (map_to_list (db st)))
             /\ d = Reads.addFileUrl BASE_URL id file userId userRole)
          <-> ∃ id file,
                db st !! id = Some file
                /\ isPublic file = true
                /\ d = Reads.addFileUrl BASE_URL id file userId userRole)
    as Hiff.
  { split.
    - intros (id & file & Hin & ->).
      apply sortDocs_elem, list_elem_of_filter in Hin as [Hpub Hin].
      apply elem_of_map_to_list in Hin. by exists id, file.
    - intros (id & file & Hfile & Hpub & ->). exists id, file.
      split; [|done]. apply sortDocs_elem, list_elem_of_filter.
      split; [done|]. by apply elem_of_map_to_list. }
  split; [exact Hiff|].
  intros (id & file & Hfile & Hpub & ->)%Hiff.
  assert (Access.canAccessFile file userId userRole = true) as Hacc.
  { unfold Access.canAccessFile. by rewrite Hpub. }
  destruct (addFileUrl_accessible id file userId userRole Hacc)
    as (Hcan & Hurl & Hdl).
  split; [done|]. split; [|done]. simpl.
  unfold Access.canDownloadFile. by rewrite Hpub.
Qed.




End ListingProperties.

(** *** Listings of the sample library *)

Lemma sortDocs_keeps (sortBy : string) (desc : bool)
    (l : list (string * FileRecord)) :
  Permutation (Cases.sortDocs sortBy desc l) l.
Proof. reflexivity. Qed.

Lemma getFiles_lists_only_accessible_witness :
  let d := Reads.addFileUrl Cases.BASE_URL "c"
             (Sample.record "u1" false None "c.txt") "u1" (Some "user") in
  d ∈ docs (Listing.getFiles Cases.BASE_URL Cases.meta Cases.sortDocs
              Cases.anyQuery "u1" (Some "user") Sample.library)
  /\ fwCanAccess d = true.
Proof.
  intros d.
  assert (d ∈ docs (Listing.getFiles Cases.BASE_URL Cases.meta Cases.sortDocs
                      Cases.anyQuery "u1" (Some "user") Sample.library))
    as Hin.
  { apply list_elem_of_In. vm_compute.
    repeat (first [left; reflexivity | right]). }
  split; [exact Hin|].
  destruct (getFiles_lists_only_accessible Cases.BASE_URL Cases.meta
              Cases.sortDocs sortDocs_keeps Cases.anyQuery "u1" (Some "user")
              Sample.library d Hin)
    as (file & _ & _ & _ & _ & Hcan & _).
  exact Hcan.
Defined.

Lemma getFiles_paging_witness :
  let r := Listing.getFiles Cases.BASE_URL Cases.meta Cases.sortDocs
             Cases.secondPage "u9" (Some "admin") Sample.library in
  total r = 3 /\ length (docs r) = 1%nat
  /\ hasNextPage r = false /\ hasPreviousPage r = true.
Proof.
  intros r.
  destruct (getFiles_paging Cases.BASE_URL Cases.meta Cases.sortDocs
              sortDocs_keeps Cases.secondPage "u9" (Some "admin")
              Sample.library)
    as (Htotal & Hlen & Hnext & Hprev & _).
  - vm_compute. discriminate.
  - vm_compute. discriminate.
  - fold r in Htotal, Hlen, Hnext, Hprev.
    assert (total r = 3) as Ht by (rewrite Htotal; vm_compute; reflexivity).
    split; [exact Ht|]. split.
    { rewrite Ht in Hlen.
      change (limit r) with 2 in Hlen. change (page r) with 2 in Hlen. lia. }
    split.
    { destruct (hasNextPage r); [|reflexivity].
      pose proof (proj1 Hnext eq_refl) as Hlt. rewrite Ht in Hlt.
      change (limit r) with 2 in Hlt. change (page r) with 2 in Hlt. lia. }
    apply Hprev. change (page r) with 2. lia.
Defined.

Lemma getFilesByEntity_exactly_accessible_witness :
  Reads.addFileUrl Cases.BASE_URL "c" (Sample.record "u1" false None "c.txt")
    "u1" (Some "user")
  ∈ Listing.getFilesByEntity Cases.BASE_URL Cases.meta Cases.sortDocs
      "department" "d1" "u1" (Some "user") Sample.library.
Proof.
  apply (getFilesByEntity_exactly_accessible Cases.BASE_URL Cases.meta
           Cases.sortDocs sortDocs_keeps).
  exists "c", (Sample.record "u1" false None "c.txt").
  split; [vm_compute; reflexivity|]. repeat split; reflexivity.
Defined.

Lemma getPublicFiles_exactly_public_witness :
  let d := Reads.addFileUrl Cases.BASE_URL "a"
             (Sample.record "u1" true (Some 5) "a.txt") "u9" None in
  d ∈ Listing.getPublicFiles Cases.BASE_URL Cases.sortDocs "u9" None
        Sample.library
  /\ fwCanDownload d = true.
Proof.
  intros d.
  destruct (getPublicFiles_exactly_public Cases.BASE_URL Cases.sortDocs
              sortDocs_keeps "u9" None Sample.library d) as [Hiff Hall].
  assert (d ∈ Listing.getPublicFiles Cases.BASE_URL Cases.sortDocs "u9" None
                Sample.library) as Hin.
  { apply Hiff. exists "a", (Sample.record "u1" true (Some 5) "a.txt").
    split; [vm_compute; reflexivity|]. split; reflexivity. }
  split; [exact Hin|]. by destruct (Hall Hin) as (_ & Hdl & _).
Defined.


(** ** Archives *)

Section ArchiveProperties.
Variable uploadDir : string.
Variable w : Oracle.



End ArchiveProperties.

(** *** An archive of two records of the sample library *)

